(** * KIB movie database backend: services over the relational store

    A shallow embedding of the NestJS services of the repository
    (ratings, users, movies, the TMDB client and the TMDB synchronisation
    job) and the properties of their business rules.

    Conventions of the embedding.
    - An [Observable<T>] returned by a service method emits one value or
      one error; it is a computation [Obs W T] over the state [W] it reads
      and writes, and the rxjs operators [switchMap], [map], [throwError]
      and [catchError] are the bind, map, raise and handler of that monad.
    - A TypeORM repository is the list of its rows in insertion order
      (which is also the order of [createdAt]).
    - JavaScript numbers that hold identifiers and counters are [Z]; the
      value of a [decimal] column is a rational [Q], which the column
      rounds to its scale and refuses beyond its precision.  Where the
      services compute with such values the numbers are taken exactly;
      [Binary64] has the doubles of JavaScript, and
      [RatingsService.average_of] is the average of the rating statistics
      as the doubles give it.
    - The columns [createdAt] and [updatedAt] are left out of the entities,
      and so are the relation properties that mirror another table.
    - The log lines of the rating, user and movie services are left out
      (they do not change a result); the TMDB client and the
      synchronisation job run over a [World] that records, in order, the
      requests sent, the timers waited for, the repository calls and the
      lines logged.
    - Packages outside the repository ([bcrypt], [JwtService], the remote
      TMDB service, the SQL engine) are type classes: every statement
      holds for any implementation of them.
    - The trailing [$] of the source's method names is written [_]. *)

From Stdlib Require Import ZArith QArith Qround Qabs Lia Lqa.
From Stdlib Require SpecFloat.
From stdpp Require Import gmap strings list pretty.

Local Open Scope Z_scope.

(** ** Exceptions and observables *)

Inductive exception : Type :=
| NotFoundException (message : string)
| ConflictException (message : string)
| UnauthorizedException (message : string)
| Error (message : string).

Inductive notification (A : Type) : Type :=
| Next (value : A)
| Thrown (error : exception).
Arguments Next {A} value.
Arguments Thrown {A} error.

Definition Obs (W A : Type) : Type := W -> notification A * W.

Definition of_ {W A} (a : A) : Obs W A := fun w => (Next a, w).

Definition throwError {W A} (e : exception) : Obs W A := fun w => (Thrown e, w).

Definition switchMap {W A B} (src : Obs W A) (project : A -> Obs W B) : Obs W B :=
  fun w =>
    match src w with
    | (Next a, w') => project a w'
    | (Thrown e, w') => (Thrown e, w')
    end.

Definition map_ {W A B} (src : Obs W A) (f : A -> B) : Obs W B :=
  switchMap src (fun a => of_ (f a)).

Definition catchError {W A} (src : Obs W A) (selector : exception -> Obs W A) : Obs W A :=
  fun w =>
    match src w with
    | (Next a, w') => (Next a, w')
    | (Thrown e, w') => selector e w'
    end.

(** [from(promise)] of a repository read, and of a repository write. *)
Definition from_read {W A} (query : W -> A) : Obs W A := fun w => (Next (query w), w).

Definition from_write {W A} (command : W -> A * W) : Obs W A :=
  fun w => let (a, w') := command w in (Next a, w').

(** [from(promise)] of a query the database may refuse. *)
Definition from_query {W A} (query : W -> notification A) : Obs W A :=
  fun w => (query w, w).

(** ** Entities *)

Module Movie.
Record t : Type := mk {
  id : Z;
  tmdbId : Z;
  title : string;
  overview : option string;
  posterPath : option string;
  backdropPath : option string;
  releaseDate : option string;
  voteAverage : Q;
  voteCount : Z;
  popularity : Q;
  genreIds : list Z;
  genres : option (list (Z * string));
  originalLanguage : option string;
  originalTitle : option string;
  adult : bool;
  video : bool;
  userRatingAverage : option Q;
  userRatingCount : Z;
}.
End Movie.

Module Rating.
Record t : Type := mk {
  id : Z;
  rating : Q;
  review : option string;
  userId : Z;
  movieId : Z;
}.
End Rating.

Module User.
Record t : Type := mk {
  id : Z;
  username : string;
  email : string;
  password : string;
  firstName : option string;
  lastName : option string;
  isActive : bool;
  watchlist : option (list Movie.t);
  favorites : option (list Movie.t);
}.
End User.

(** ** The relational store *)

Record Db : Type := mkDb {
  movieRepository : list Movie.t;
  userRepository : list User.t;
  ratingRepository : list Rating.t;
  movieSeq : Z;
  userSeq : Z;
  ratingSeq : Z;
}.

Definition with_movies (ms : list Movie.t) (db : Db) : Db :=
  mkDb ms (userRepository db) (ratingRepository db) (movieSeq db) (userSeq db) (ratingSeq db).

Definition with_users (us : list User.t) (db : Db) : Db :=
  mkDb (movieRepository db) us (ratingRepository db) (movieSeq db) (userSeq db) (ratingSeq db).

Definition with_ratings (rs : list Rating.t) (db : Db) : Db :=
  mkDb (movieRepository db) (userRepository db) rs (movieSeq db) (userSeq db) (ratingSeq db).

(** [Repository.findOne]: the first row that satisfies the [where] clause. *)
Definition findOne {A} (where_ : A -> bool) (rows : list A) : option A :=
  List.find where_ rows.

(** [Repository.save] of an entity that carries a primary key: the row with
    that key is replaced, and the entity is inserted when no row has it. *)
Definition save_row {A} (key : A -> Z) (entity : A) (rows : list A) : list A :=
  if existsb (fun r => key r =? key entity) rows
  then List.map (fun r => if key r =? key entity then entity else r) rows
  else rows ++ [entity].

(** [Repository.remove]: the rows with the entity's primary key are deleted. *)
Definition remove_row {A} (key : A -> Z) (entity : A) (rows : list A) : list A :=
  List.filter (fun r => negb (key r =? key entity)) rows.

(** ** Data-transfer objects of the rating service *)

Record CreateRatingDto : Type := {
  cr_rating : Q;
  cr_review : option string;
}.

(** The declaration of [UpdateRatingDto] is not among the sources; its two
    optional fields are the ones [RatingsService.update$] reads, and its
    rating, when present, is taken to be a value of the rating column (one
    decimal place, below 10), which the column stores as it is. *)
Record UpdateRatingDto : Type := {
  up_rating : option Q;
  up_review : option string;
}.

Record RatingStatsDto : Type := {
  average : Q;
  count : Z;
  distribution : gmap string Z;
}.

(** JavaScript's [a || b] on an optional string: the empty string and
    [undefined] are falsy. *)
Definition or_string (a b : option string) : option string :=
  match a with
  | Some s => if String.eqb s "" then b else Some s
  | None => b
  end.

(** JavaScript's [n || 0] on an optional number. *)
Definition or_zero (n : option Z) : Z := default 0 n.

Definition Qsum (values : list Q) : Q := fold_left Qplus values 0%Q.

(** [Math.round]: the nearest integer, halves towards positive infinity. *)
Definition Math_round (x : Q) : Z := Qfloor (x + (1 # 2))%Q.

Definition Math_floor (x : Q) : Z := Qfloor x.

(** ** JavaScript numbers

    A JavaScript number is an IEEE 754 double: 53 bits of precision, and
    every sum, product and quotient rounded to the nearest double, ties to
    even. *)
Module Binary64.

Definition double : Type := SpecFloat.spec_float.

Definition add : double -> double -> double := SpecFloat.SFadd 53 1024.

(** The number a finite double stands for. *)
Definition value (x : double) : Q :=
  match x with
  | SpecFloat.S754_finite negative m e =>
      ((if negative then - 1 else 1) * inject_Z (Z.pos m) * Qpower 2 e)%Q
  | _ => 0%Q
  end.


(** [Math.round] of a finite double: the nearest integer, halves towards
    positive infinity. *)
Definition Math_round (x : double) : Z := Qfloor (value x + (1 # 2))%Q.

End Binary64.

(** The error of a statement PostgreSQL refuses. *)
Definition QueryFailedError : exception := Error "QueryFailedError".

(** ** Columns

    A [decimal(precision, 1)] column holds a value rounded to one decimal
    place, to the nearest with halves away from zero, and refuses a value
    whose rounding has more than [precision] digits (numeric field
    overflow).  An [integer] column holds 32 bits. *)

Definition round_half_away (x : Q) : Z :=
  if Qle_bool 0 x then Qfloor (x + (1 # 2))%Q else - Qfloor (- x + (1 # 2))%Q.

Definition tenths (v : Q) : Q := (inject_Z (round_half_away (v * 10)) / 10)%Q.

Definition fits (precision : Z) (v : Q) : bool :=
  Z.abs (round_half_away (v * 10)) <? 10 ^ precision.

Definition decimal_1 (precision : Z) (v : Q) : option Q :=
  if fits precision v then Some (tenths v) else None.

Definition int4 (n : Z) : bool := (- 2 ^ 31 <=? n) && (n <? 2 ^ 31).

(** The select list of a raw query: plain columns, aggregates, and the
    columns of its [GROUP BY].  PostgreSQL refuses a select list that has
    a plain column beside an aggregate unless the column is grouped by. *)
Record RawSelect : Type := {
  plain : list string;
  aggregates : list string;
  groupBy : list string;
}.

Definition ungrouped (q : RawSelect) : bool :=
  negb (bool_decide (aggregates q = []))
  && negb (forallb (fun c => existsb (String.eqb c) (groupBy q)) (plain q)).

Definition not_found (what : string) (id : Z) : exception :=
  NotFoundException (what +:+ " with ID " +:+ pretty id +:+ " not found").

(** ** MoviesService: the part the rating service calls *)

Module MoviesService.

Definition findOne_ (id : Z) : Obs Db Movie.t :=
  switchMap
    (from_read (fun db => findOne (fun m => Movie.id m =? id) (movieRepository db)))
    (fun movie =>
       match movie with
       | None => throwError (not_found "Movie" id)
       | Some m => of_ m
       end).

(** The select list of the query of [updateRatingStatistics$]:
    [select('movie.id', 'id')], [addSelect('AVG(rating.rating)', ...)],
    [addSelect('COUNT(rating.id)', ...)], and no [groupBy]. *)
Definition rating_stats_select : RawSelect :=
  {| plain := ["movie.id"];
     aggregates := ["AVG(rating.rating)"; "COUNT(rating.id)"];
     groupBy := [] |}.

(** The aggregate query of [updateRatingStatistics$], [getRawOne()]: the
    database checks the select list first; a query it accepts answers
    with one raw row for the movie, with the average (SQL [NULL] without
    ratings) and the number of its ratings, and with no row when the movie
    does not exist. *)
Definition rating_stats_query (movieId : Z) (db : Db)
  : notification (option (Z * option Q * Z)) :=
  if ungrouped rating_stats_select then Thrown QueryFailedError
  else
    Next
      match findOne (fun m => Movie.id m =? movieId) (movieRepository db) with
      | None => None
      | Some m =>
          let values :=
            List.map Rating.rating
              (List.filter (fun r => Rating.movieId r =? movieId) (ratingRepository db)) in
          let avg :=
            match values with
            | [] => None
            | _ => Some (Qsum values / inject_Z (Z.of_nat (length values)))%Q
            end in
          Some (Movie.id m, avg, Z.of_nat (length values))
      end.

Definition set_rating_statistics (avg : Q) (cnt : Z) (m : Movie.t) : Movie.t :=
  Movie.mk (Movie.id m) (Movie.tmdbId m) (Movie.title m) (Movie.overview m)
    (Movie.posterPath m) (Movie.backdropPath m) (Movie.releaseDate m)
    (Movie.voteAverage m) (Movie.voteCount m) (Movie.popularity m)
    (Movie.genreIds m) (Movie.genres m) (Movie.originalLanguage m)
    (Movie.originalTitle m) (Movie.adult m) (Movie.video m) (Some avg) cnt.

(** [movieRepository.update(movieId, {...})] *)
Definition update_statistics (movieId : Z) (avg : Q) (cnt : Z) (db : Db) : unit * Db :=
  (tt, with_movies
         (List.map (fun m => if Movie.id m =? movieId
                             then set_rating_statistics avg cnt m else m)
            (movieRepository db)) db).

Definition updateRatingStatistics_ (movieId : Z) : Obs Db Movie.t :=
  switchMap (from_query (rating_stats_query movieId))
    (fun stats =>
       match stats with
       | None => throwError (not_found "Movie" movieId)
       | Some (_, avgRating, ratingCount) =>
           switchMap
             (from_write (update_statistics movieId (default 0%Q avgRating) ratingCount))
             (fun _ => findOne_ movieId)
       end).

End MoviesService.

(** ** RatingsService *)

Module RatingsService.

Definition by_user_movie (userId movieId : Z) (r : Rating.t) : bool :=
  (Rating.userId r =? userId) && (Rating.movieId r =? movieId).

(** [ratingRepository.save] of an entity loaded from the store, whose
    rating is a value of the [decimal(2,1)] column. *)
Definition save_existing (r : Rating.t) (db : Db) : Rating.t * Db :=
  (r, with_ratings (save_row Rating.id r (ratingRepository db)) db).

(** [ratingRepository.save(ratingRepository.create({...}))] with a rating
    that is a value of the column: the row gets the next value of the
    primary-key sequence. *)
Definition save_new (userId movieId : Z) (rating : Q) (review : option string) (db : Db)
  : Rating.t * Db :=
  let r := Rating.mk (ratingSeq db) rating review userId movieId in
  (r, mkDb (movieRepository db) (userRepository db) (ratingRepository db ++ [r])
        (movieSeq db) (userSeq db) (ratingSeq db + 1)).

(** A [save] that writes the rating value [value] of a request: the
    [decimal(2,1)] column [rating] holds it rounded to one decimal place,
    and the statement fails, writing nothing, when the rounded value does
    not fit (9.95 and above). *)
Definition save_rated (value : Q) (command : Q -> Db -> Rating.t * Db) : Obs Db Rating.t :=
  match decimal_1 2 value with
  | Some stored => from_write (command stored)
  | None => throwError QueryFailedError
  end.

Definition remove (r : Rating.t) (db : Db) : unit * Db :=
  (tt, with_ratings (remove_row Rating.id r (ratingRepository db)) db).

Definition set_rating (value : Q) (r : Rating.t) : Rating.t :=
  Rating.mk (Rating.id r) value (Rating.review r) (Rating.userId r) (Rating.movieId r).

Definition set_review (text : option string) (r : Rating.t) : Rating.t :=
  Rating.mk (Rating.id r) (Rating.rating r) text (Rating.userId r) (Rating.movieId r).

Definition createOrUpdate_ (userId movieId : Z) (createRatingDto : CreateRatingDto)
  : Obs Db Rating.t :=
  switchMap
    (switchMap
       (from_read (fun db =>
          (findOne (fun m => Movie.id m =? movieId) (movieRepository db),
           findOne (fun u => User.id u =? userId) (userRepository db),
           findOne (by_user_movie userId movieId) (ratingRepository db))))
       (fun '(movie, user, existingRating) =>
          match movie, user with
          | None, _ => throwError (not_found "Movie" movieId)
          | Some _, None => throwError (not_found "User" userId)
          | Some _, Some _ =>
              match existingRating with
              | Some existing =>
                  save_rated (cr_rating createRatingDto)
                    (fun stored =>
                       save_existing
                         (set_review
                            (or_string (cr_review createRatingDto) (Rating.review existing))
                            (set_rating stored existing)))
              | None =>
                  save_rated (cr_rating createRatingDto)
                    (fun stored =>
                       save_new userId movieId stored (cr_review createRatingDto))
              end
          end))
    (fun rating =>
       map_ (MoviesService.updateRatingStatistics_ movieId) (fun _ => rating)).

(** [find({ where: { movieId }, order: { createdAt: 'DESC' } })] *)
Definition findByMovie_ (movieId : Z) : Obs Db (list Rating.t) :=
  from_read (fun db =>
    rev (List.filter (fun r => Rating.movieId r =? movieId) (ratingRepository db))).

Definition findOne_ (id : Z) : Obs Db Rating.t :=
  switchMap
    (from_read (fun db => findOne (fun r => Rating.id r =? id) (ratingRepository db)))
    (fun rating =>
       match rating with
       | None => throwError (not_found "Rating" id)
       | Some r => of_ r
       end).

Definition update_ (id userId : Z) (updateRatingDto : UpdateRatingDto) : Obs Db Rating.t :=
  switchMap
    (switchMap (findOne_ id)
       (fun rating =>
          if negb (Rating.userId rating =? userId)
          then throwError (Error "You can only update your own ratings")
          else
            let rating1 :=
              match up_rating updateRatingDto with
              | Some v => set_rating v rating
              | None => rating
              end in
            let rating2 :=
              match up_review updateRatingDto with
              | Some t => set_review (Some t) rating1
              | None => rating1
              end in
            from_write (save_existing rating2)))
    (fun rating =>
       map_ (MoviesService.updateRatingStatistics_ (Rating.movieId rating))
         (fun _ => rating)).

Definition remove_ (id userId : Z) : Obs Db unit :=
  switchMap (findOne_ id)
    (fun rating =>
       if negb (Rating.userId rating =? userId)
       then throwError (Error "You can only delete your own ratings")
       else
         let movieId := Rating.movieId rating in
         map_
           (switchMap (from_write (remove rating))
              (fun _ => MoviesService.updateRatingStatistics_ movieId))
           (fun _ => tt)).

Definition empty_stats : RatingStatsDto :=
  {| average := 0%Q; count := 0; distribution := ∅ |}.

(** [Math.floor(Number(rating.rating)).toString()] *)
Definition floor_key (rating : Rating.t) : string :=
  pretty (Math_floor (Rating.rating rating)).

Definition add_to_distribution (acc : gmap string Z) (rating : Rating.t) : gmap string Z :=
  let key := floor_key rating in
  <[key := or_zero (acc !! key) + 1]> acc.

(** The statistics of a list of ratings, the sum and the quotient taken
    exactly. *)
Definition stats_of (ratings : list Rating.t) : RatingStatsDto :=
  match ratings with
  | [] => empty_stats
  | _ =>
      let sum := fold_left (fun acc r => (acc + Rating.rating r)%Q) ratings 0%Q in
      let average := (sum / inject_Z (Z.of_nat (length ratings)))%Q in
      let distribution := fold_left add_to_distribution ratings ∅ in
      {| average := (inject_Z (Math_round (average * 10)) / 10)%Q;
         count := Z.of_nat (length ratings);
         distribution := distribution |}
  end.


Definition getMovieRatingStats_ (movieId : Z) : Obs Db RatingStatsDto :=
  catchError (map_ (findByMovie_ movieId) stats_of)
    (fun _ => of_ empty_stats).

End RatingsService.

(** ** Integrity constraints of the ratings table

    [@PrimaryGeneratedColumn] on [id], [@Unique(['user', 'movie'])], and a
    primary-key sequence that is ahead of every stored id. *)




(** ** UsersService *)

(** The [bcrypt] package and the [JwtService] of [@nestjs/jwt] are external
    to the repository: the services are stated over any implementation. *)
Class Bcrypt : Type := {
  bcrypt_hash : string -> string;
  bcrypt_compare : string -> string -> bool;
}.

(** The values held by the properties of the plain objects the user
    service builds. *)
Inductive JsValue : Type :=
| JsNumber (n : Z)
| JsString (s : string)
| JsBoolean (b : bool)
| JsNull
| JsMovies (movies : list Movie.t).

Class JwtService : Type := {
  jwt_sign : gmap string JsValue -> string;
}.

Record CreateUserDto : Type := {
  cu_username : string;
  cu_email : string;
  cu_password : string;
  cu_firstName : option string;
  cu_lastName : option string;
}.

Record AuthResponse : Type := {
  user : gmap string JsValue;
  accessToken : string;
}.

Module UsersService.

Definition set_password (p : string) (u : User.t) : User.t :=
  User.mk (User.id u) (User.username u) (User.email u) p (User.firstName u)
    (User.lastName u) (User.isActive u) (User.watchlist u) (User.favorites u).

Definition set_watchlist (w : option (list Movie.t)) (u : User.t) : User.t :=
  User.mk (User.id u) (User.username u) (User.email u) (User.password u)
    (User.firstName u) (User.lastName u) (User.isActive u) w (User.favorites u).

Definition set_favorites (f : option (list Movie.t)) (u : User.t) : User.t :=
  User.mk (User.id u) (User.username u) (User.email u) (User.password u)
    (User.firstName u) (User.lastName u) (User.isActive u) (User.watchlist u) f.

(** [User.hashPassword], the [@BeforeInsert] and [@BeforeUpdate] hook. *)
Definition hashPassword `{Bcrypt} (u : User.t) : User.t :=
  if negb (String.eqb (User.password u) "")
     && negb (String.prefix "$2b$" (User.password u))
  then set_password (bcrypt_hash (User.password u)) u
  else u.

(** [userRepository.save(userRepository.create(dto))]: the row gets the
    next id, [isActive] defaults to [true], and the new user has no
    watchlist and no favorites; the entity handed back has its relations
    not loaded. *)
Definition save_new `{Bcrypt} (dto : CreateUserDto) (db : Db) : User.t * Db :=
  let entity :=
    hashPassword
      (User.mk (userSeq db) (cu_username dto) (cu_email dto) (cu_password dto)
         (cu_firstName dto) (cu_lastName dto) true None None) in
  let row := set_favorites (Some []) (set_watchlist (Some []) entity) in
  (entity,
   mkDb (movieRepository db) (userRepository db ++ [row]) (ratingRepository db)
     (movieSeq db) (userSeq db + 1) (ratingSeq db)).

(** [userRepository.save(user)] of a loaded user.  The hook is applied at
    every save; TypeORM runs it when a column of the row has changed, and
    on a password that is hashed already it changes nothing. *)
Definition save `{Bcrypt} (u : User.t) (db : Db) : User.t * Db :=
  let entity := hashPassword u in
  (entity, with_users (save_row User.id entity (userRepository db)) db).

Definition create_ `{Bcrypt} (createUserDto : CreateUserDto) : Obs Db User.t :=
  switchMap
    (from_read (fun db =>
       (findOne (fun u => String.eqb (User.username u) (cu_username createUserDto))
          (userRepository db),
        findOne (fun u => String.eqb (User.email u) (cu_email createUserDto))
          (userRepository db))))
    (fun '(existingUsername, existingEmail) =>
       match existingUsername, existingEmail with
       | Some _, _ => throwError (ConflictException "Username already exists")
       | None, Some _ => throwError (ConflictException "Email already exists")
       | None, None => from_write (save_new createUserDto)
       end).

Definition findOne_ (id : Z) : Obs Db User.t :=
  switchMap
    (from_read (fun db => findOne (fun u => User.id u =? id) (userRepository db)))
    (fun user =>
       match user with
       | None => throwError (not_found "User" id)
       | Some u => of_ u
       end).

(** The query builder's [getOne()] loads the columns of the first user
    whose username or email is the given value, and no relation. *)
Definition findByUsernameOrEmail_ (usernameOrEmail : string) : Obs Db User.t :=
  switchMap
    (from_read (fun db =>
       findOne (fun u => String.eqb (User.username u) usernameOrEmail
                         || String.eqb (User.email u) usernameOrEmail)
         (userRepository db)))
    (fun user =>
       match user with
       | None => throwError (NotFoundException "User not found")
       | Some u => of_ (set_favorites None (set_watchlist None u))
       end).

Definition validateUser_ `{Bcrypt} (username password : string) : Obs Db User.t :=
  catchError
    (switchMap (findByUsernameOrEmail_ username)
       (fun user =>
          if bcrypt_compare password (User.password user)
          then of_ user
          else throwError (UnauthorizedException "Invalid credentials")))
    (fun _ => throwError (UnauthorizedException "Invalid credentials")).

(** The own properties of a loaded [User] entity; a relation that was not
    loaded is not a property of the object. *)
Definition properties (u : User.t) : gmap string JsValue :=
  let opt (o : option string) := match o with Some s => JsString s | None => JsNull end in
  let rel (name : string) (o : option (list Movie.t)) (obj : gmap string JsValue) :=
    match o with Some ms => <[name := JsMovies ms]> obj | None => obj end in
  rel "watchlist" (User.watchlist u)
    (rel "favorites" (User.favorites u)
       (<["id" := JsNumber (User.id u)]>
          (<["username" := JsString (User.username u)]>
             (<["email" := JsString (User.email u)]>
                (<["password" := JsString (User.password u)]>
                   (<["firstName" := opt (User.firstName u)]>
                      (<["lastName" := opt (User.lastName u)]>
                         (<["isActive" := JsBoolean (User.isActive u)]> ∅)))))))).

Definition JwtPayload (u : User.t) : gmap string JsValue :=
  <["sub" := JsNumber (User.id u)]>
    (<["username" := JsString (User.username u)]>
       (<["email" := JsString (User.email u)]> ∅)).

Definition login_ `{Bcrypt} `{JwtService} (username password : string)
  : Obs Db AuthResponse :=
  map_ (validateUser_ username password)
    (fun user =>
       let payload := JwtPayload user in
       let accessToken := jwt_sign payload in
       (* const { password: _, ...userWithoutPassword } = user *)
       let userWithoutPassword := delete "password" (properties user) in
       {| user := userWithoutPassword; accessToken := accessToken |}).

Definition in_list (movieId : Z) (l : option (list Movie.t)) : bool :=
  match l with
  | Some ms => existsb (fun m => Movie.id m =? movieId) ms
  | None => false
  end.

Definition addToWatchlist_ `{Bcrypt} (userId movieId : Z) : Obs Db User.t :=
  switchMap
    (switchMap (findOne_ userId)
       (fun user =>
          map_ (from_read (fun db =>
                  findOne (fun m => Movie.id m =? movieId) (movieRepository db)))
            (fun movie => (user, movie))))
    (fun '(user, movie) =>
       match movie with
       | None => throwError (not_found "Movie" movieId)
       | Some movie =>
           if in_list movieId (User.watchlist user)
           then of_ user
           else
             let watchlist := default [] (User.watchlist user) in
             from_write (save (set_watchlist (Some (watchlist ++ [movie])) user))
       end).

Definition removeFromWatchlist_ `{Bcrypt} (userId movieId : Z) : Obs Db User.t :=
  switchMap (findOne_ userId)
    (fun user =>
       match User.watchlist user with
       | None => of_ user
       | Some watchlist =>
           from_write
             (save (set_watchlist
                      (Some (List.filter (fun m => negb (Movie.id m =? movieId)) watchlist))
                      user))
       end).

Definition addToFavorites_ `{Bcrypt} (userId movieId : Z) : Obs Db User.t :=
  switchMap
    (switchMap (findOne_ userId)
       (fun user =>
          map_ (from_read (fun db =>
                  findOne (fun m => Movie.id m =? movieId) (movieRepository db)))
            (fun movie => (user, movie))))
    (fun '(user, movie) =>
       match movie with
       | None => throwError (not_found "Movie" movieId)
       | Some movie =>
           if in_list movieId (User.favorites user)
           then of_ user
           else
             let favorites := default [] (User.favorites user) in
             from_write (save (set_favorites (Some (favorites ++ [movie])) user))
       end).

Definition removeFromFavorites_ `{Bcrypt} (userId movieId : Z) : Obs Db User.t :=
  switchMap (findOne_ userId)
    (fun user =>
       match User.favorites user with
       | None => of_ user
       | Some favorites =>
           from_write
             (save (set_favorites
                      (Some (List.filter (fun m => negb (Movie.id m =? movieId)) favorites))
                      user))
       end).

End UsersService.

(** ** MoviesService: the paginated listings *)

Inductive SortBy : Type :=
| TITLE | RELEASE_DATE | POPULARITY | VOTE_AVERAGE | USER_RATING | CREATED_AT.

Definition SortBy_value (s : SortBy) : string :=
  match s with
  | TITLE => "title"
  | RELEASE_DATE => "releaseDate"
  | POPULARITY => "popularity"
  | VOTE_AVERAGE => "voteAverage"
  | USER_RATING => "userRatingAverage"
  | CREATED_AT => "createdAt"
  end.

Inductive SortOrder : Type := ASC | DESC.

Module QueryMovieDto.
Record t : Type := mk {
  page : option Z;
  limit : option Z;
  search : option string;
  genreIds : option (list Z);
  yearFrom : option Z;
  yearTo : option Z;
  minRating : option Q;
  maxRating : option Q;
  sortBy : option SortBy;
  sortOrder : option SortOrder;
  language : option string;
  includeAdult : option bool;
}.
End QueryMovieDto.

(** The conditions the service puts in the [WHERE] clause. *)
Inductive Where : Type :=
| SearchILike (pattern : string)
| GenreIdsOverlap (genreIds : list Z)
| ReleaseDateBetween (fromDate toDate : string)
| VoteAverageAtLeast (minRating : Q)
| VoteAverageAtMost (maxRating : Q)
| OriginalLanguageIs (language : string)
| AdultIsFalse
| TitleILike (pattern : string)
| GenreIdIsAny (genreId : Z).

Record SelectQuery : Type := {
  wheres : list Where;
  orderBy : string * option SortOrder;
  skip : Z;
  take : Z;
}.

(** The database evaluates the conditions and sorts the rows; [today] is
    the date [new Date()] gives; [take_zero_unlimited] says whether the
    version of TypeORM at hand leaves the [LIMIT] out of a query with
    [take(0)]. *)
Class SqlEngine : Type := {
  satisfies : Where -> Movie.t -> bool;
  sorted_by : string * option SortOrder -> list Movie.t -> list Movie.t;
  today : string;
  take_zero_unlimited : bool;
}.

(** A condition on [genreIds] compares the column with an array ([&&],
    [ANY]); the column is a [simple-array], which PostgreSQL holds as
    [text], so the statement is refused whatever the rows are. *)
Definition ill_typed (c : Where) : bool :=
  match c with
  | GenreIdsOverlap _ | GenreIdIsAny _ => true
  | _ => false
  end.

(** The properties of the movie entity a query can be ordered by, with or
    without the alias. *)
Definition movie_columns : list string :=
  ["id"; "tmdbId"; "title"; "overview"; "posterPath"; "backdropPath"; "releaseDate";
   "voteAverage"; "voteCount"; "popularity"; "genreIds"; "genres"; "originalLanguage";
   "originalTitle"; "adult"; "video"; "userRatingAverage"; "userRatingCount";
   "createdAt"; "updatedAt"].

Definition order_known (column : string) : bool :=
  existsb (fun c => String.eqb column c || String.eqb column ("movie." +:+ c))
    movie_columns.

Definition limited `{SqlEngine} {A} (n : Z) (rows : list A) : list A :=
  if (n =? 0) && take_zero_unlimited then rows else firstn (Z.to_nat n) rows.

Definition matching `{SqlEngine} (conditions : list Where) (rows : list Movie.t)
  : list Movie.t :=
  List.filter (fun m => forallb (fun c => satisfies c m) conditions) rows.

(** [getManyAndCount()] and [findAndCount()]: the rows that satisfy the
    conditions, sorted, without the first [skip] of them and cut after
    [take]; and the number of rows that satisfy the conditions.  The query
    fails when it is ordered by something that is not a property of the
    entity, and the database refuses an ill-typed condition and a negative
    [OFFSET] or [LIMIT]. *)
Definition getManyAndCount `{SqlEngine} (q : SelectQuery) (rows : list Movie.t)
  : notification (list Movie.t * Z) :=
  if negb (order_known (orderBy q).1)
  then Thrown (Error "Cannot read properties of undefined")
  else if existsb ill_typed (wheres q) || (skip q <? 0) || (take q <? 0)
  then Thrown QueryFailedError
  else
    Next (limited (take q)
            (skipn (Z.to_nat (skip q)) (sorted_by (orderBy q) (matching (wheres q) rows))),
          Z.of_nat (length (matching (wheres q) rows))).

(** Modelled from the spec: the class [PaginatedResponseDto], which the
    movie service imports from its [dto] directory and whose declaration is
    not among the sources.  The services build it from the records of the
    page, the total number of records, the page and the limit; its metadata
    reports a number of pages computed from the total record count and the
    limit, and that computation is the parameter [totalPages_of]. *)
Class Pagination : Type := {
  totalPages_of : Z -> Z -> Z;
}.

Record PaginatedResponseDto : Type := {
  data : list Movie.t;
  meta_page : Z;
  meta_limit : Z;
  meta_totalItems : Z;
  meta_totalPages : Z;
}.

Definition new_PaginatedResponseDto `{Pagination}
    (movies : list Movie.t) (total page limit : Z) : PaginatedResponseDto :=
  {| data := movies;
     meta_page := page;
     meta_limit := limit;
     meta_totalItems := total;
     meta_totalPages := totalPages_of total limit |}.

(** JavaScript's [n || d] on an optional number: [undefined] and [0] are
    falsy. *)
Definition or_number (n : option Z) (d : Z) : Z :=
  match n with
  | Some v => if v =? 0 then d else v
  | None => d
  end.

Definition truthy_number (n : option Z) : bool :=
  match n with
  | Some v => negb (v =? 0)
  | None => false
  end.

Definition truthy_string (s : option string) : option string :=
  match s with
  | Some v => if String.eqb v "" then None else Some v
  | None => None
  end.

Module MoviesListing.
Import QueryMovieDto.

Definition createQueryBuilder `{SqlEngine} (query : QueryMovieDto.t) : SelectQuery :=
  let search_filter :=
    match truthy_string (search query) with
    | Some s => [SearchILike ("%" +:+ s +:+ "%")]
    | None => []
    end in
  let genre_filter :=
    match genreIds query with
    | Some (g :: gs) => [GenreIdsOverlap (g :: gs)]
    | _ => []
    end in
  let year_filter :=
    if truthy_number (yearFrom query) || truthy_number (yearTo query)
    then
      let fromDate :=
        if truthy_number (yearFrom query)
        then pretty (default 0 (yearFrom query)) +:+ "-01-01"
        else "1900-01-01" in
      let toDate :=
        if truthy_number (yearTo query)
        then pretty (default 0 (yearTo query)) +:+ "-12-31"
        else today in
      [ReleaseDateBetween fromDate toDate]
    else [] in
  let min_filter :=
    match minRating query with Some r => [VoteAverageAtLeast r] | None => [] end in
  let max_filter :=
    match maxRating query with Some r => [VoteAverageAtMost r] | None => [] end in
  let language_filter :=
    match truthy_string (language query) with
    | Some l => [OriginalLanguageIs l]
    | None => []
    end in
  let adult_filter :=
    match includeAdult query with
    | Some true => []
    | _ => [AdultIsFalse]
    end in
  let pageNum := or_number (page query) 1 in
  let limitNum := or_number (limit query) 10 in
  {| wheres := search_filter ++ genre_filter ++ year_filter ++ min_filter
               ++ max_filter ++ language_filter ++ adult_filter;
     orderBy :=
       ("movie." +:+ match sortBy query with
                     | Some s => SortBy_value s
                     | None => "undefined"
                     end,
        sortOrder query);
     skip := (pageNum - 1) * limitNum;
     take := limitNum |}.

Definition findAll_ `{SqlEngine} `{Pagination} (query : QueryMovieDto.t)
  : Obs Db PaginatedResponseDto :=
  map_
    (from_query (fun d => getManyAndCount (createQueryBuilder query) (movieRepository d)))
    (fun '(movies, total) =>
       new_PaginatedResponseDto movies total
         (or_number (page query) 1) (or_number (limit query) 10)).

Definition search_ `{SqlEngine} `{Pagination} (query : string) (page limit : Z)
  : Obs Db PaginatedResponseDto :=
  map_
    (from_query (fun d =>
       getManyAndCount
         {| wheres := [TitleILike ("%" +:+ query +:+ "%")];
            orderBy := ("popularity", Some DESC);
            skip := (page - 1) * limit;
            take := limit |}
         (movieRepository d)))
    (fun '(movies, total) => new_PaginatedResponseDto movies total page limit).

Definition findByGenre_ `{SqlEngine} `{Pagination} (genreId page limit : Z)
  : Obs Db PaginatedResponseDto :=
  map_
    (from_query (fun d =>
       getManyAndCount
         {| wheres := [GenreIdIsAny genreId];
            orderBy := ("movie.popularity", Some DESC);
            skip := (page - 1) * limit;
            take := limit |}
         (movieRepository d)))
    (fun '(movies, total) => new_PaginatedResponseDto movies total page limit).

End MoviesListing.

(** A response is the page [p] of size [l] of the sorted records [records],
    of which there are [total]: it leaves out the first [(p - 1) * l]
    records, holds the records that follow, at most [l] of them, and
    reports the number of pages computed from [total] and [l]. *)
Definition is_page `{Pagination} (response : PaginatedResponseDto)
    (records : list Movie.t) (total p l : Z) : Prop :=
  data response = firstn (Z.to_nat l) (skipn (Z.to_nat ((p - 1) * l)) records)
  /\ (forall i : nat,
        data response !! i
        = if decide (i < Z.to_nat l)%nat
          then records !! (Z.to_nat ((p - 1) * l) + i)%nat
          else None)
  /\ (Z.of_nat (length (data response)) <= l)
  /\ meta_totalItems response = total
  /\ meta_totalPages response = totalPages_of total l
  /\ meta_page response = p
  /\ meta_limit response = l.

(** ** TmdbService: the client of the external movie database *)

Inductive Level : Type := LevelLog | LevelWarn | LevelError | LevelDebug.

(** What a run of the client or of the synchronisation job does, in order:
    the HTTP requests sent, the rxjs timers waited for, the repository calls
    and the lines logged. *)
Inductive Event : Type :=
| HttpGet (url : string) (params : list (string * string))
| Timer (ms : Z)
| RepoFindOne (tmdbId : Z)
| RepoSave (tmdbId : Z)
| RepoSaveFailed (tmdbId : Z)
| Logged (level : Level) (message : string).

Record World : Type := mkWorld {
  db : Db;
  sent : nat;
  trace : list Event;
}.

Record TmdbMovie : Type := {
  tm_id : Z;
  tm_title : string;
  tm_overview : string;
  tm_poster_path : string;
  tm_backdrop_path : string;
  tm_release_date : string;
  tm_vote_average : Q;
  tm_vote_count : Z;
  tm_popularity : Q;
  tm_genre_ids : option (list Z);
  tm_original_language : string;
  tm_original_title : string;
  tm_adult : bool;
  tm_video : bool;
}.

Record TmdbMovieDetails : Type := {
  td_movie : TmdbMovie;
  td_genres : list (Z * string);
  td_runtime : Z;
  td_budget : Z;
  td_revenue : Z;
  td_status : string;
  td_tagline : string;
}.

Record TmdbResponse : Type := {
  tr_page : Z;
  tr_results : list TmdbMovie;
  tr_total_pages : Z;
  tr_total_results : Z;
}.

(** The configuration and the remote service.  What the [n]-th request
    sent by the client is answered depends on the service alone. *)
Class TmdbApi : Type := {
  apiKey : string;
  baseUrl : string;
  answer_page : string -> list (string * string) -> nat -> exception + TmdbResponse;
  answer_details : string -> nat -> exception + TmdbMovieDetails;
  answer_genres : nat -> exception + list (Z * string);
}.

Definition emit {A} (e : Event) (a : A) : Obs World A :=
  fun w => (Next a, mkWorld (db w) (sent w) (trace w ++ [e])).

Definition logger (level : Level) (message : string) : Obs World unit :=
  emit (Logged level message) tt.

(** [timer(ms)] *)
Definition timer (ms : Z) : Obs World unit := emit (Timer ms) tt.

(** [tap(f)] *)
Definition tap {A} (src : Obs World A) (f : A -> Obs World unit) : Obs World A :=
  switchMap src (fun a => switchMap (f a) (fun _ => of_ a)).

(** [delay(ms)] holds a value back for [ms]; an error is not delayed. *)
Definition delay {A} (ms : Z) (src : Obs World A) : Obs World A :=
  switchMap src (fun a => switchMap (timer ms) (fun _ => of_ a)).

(** [retry({ count, delay })]: the [k]-th error of the source, for
    [k <= count], is handed to [delay] together with [k], and the source is
    subscribed to again once the notifier has emitted; a later error is
    passed on. *)
Fixpoint retry_from {A} (remaining soFar : nat)
    (notifier : exception -> nat -> Obs World unit) (src : Obs World A) : Obs World A :=
  fun w =>
    match src w with
    | (Next a, w') => (Next a, w')
    | (Thrown e, w') =>
        match remaining with
        | O => (Thrown e, w')
        | S remaining' =>
            match notifier e (S soFar) w' with
            | (Next _, w'') => retry_from remaining' (S soFar) notifier src w''
            | (Thrown e', w'') => (Thrown e', w'')
            end
        end
    end.

Definition retry {A} (count : nat) (notifier : exception -> nat -> Obs World unit)
    (src : Obs World A) : Obs World A :=
  retry_from count 0 notifier src.

Module TmdbService.

(** [httpService.get(url, { params })], with [map(response => response.data)]. *)
Definition httpService_get {A} (url : string) (params : list (string * string))
    (answer : nat -> exception + A) : Obs World A :=
  fun w =>
    let w' := mkWorld (db w) (S (sent w)) (trace w ++ [HttpGet url params]) in
    match answer (sent w) with
    | inl e => (Thrown e, w')
    | inr data => (Next data, w')
    end.

(** The pipeline every fetch method of the client is written with: the
    request, a log line for the data, three retries with a delay of
    [1000 * retryCount] ms (and a warning, for the popular movies), and a
    handler that logs the error and throws it again. *)
Definition attempt {A} (url : string) (params : list (string * string))
    (answer : nat -> exception + A) (fetched : A -> string) : Obs World A :=
  tap (httpService_get url params answer) (fun data => logger LevelLog (fetched data)).

Definition notifier (warning : option (nat -> string)) (_ : exception) (retryCount : nat)
  : Obs World unit :=
  match warning with
  | Some text =>
      switchMap (logger LevelWarn (text retryCount))
        (fun _ => timer (1000 * Z.of_nat retryCount))
  | None => timer (1000 * Z.of_nat retryCount)
  end.

Definition fetch {A} (url : string) (params : list (string * string))
    (answer : nat -> exception + A) (fetched : A -> string)
    (warning : option (nat -> string)) (failure : string) : Obs World A :=
  catchError
    (retry 3 (notifier warning) (attempt url params answer fetched))
    (fun error => switchMap (logger LevelError failure) (fun _ => throwError error)).

Definition page_params `{TmdbApi} (page : Z) : list (string * string) :=
  [("api_key", apiKey); ("page", pretty page)].

Definition count_of (response : TmdbResponse) : string :=
  pretty (Z.of_nat (length (tr_results response))).

Definition getPopularMovies_ `{TmdbApi} (page : Z) : Obs World TmdbResponse :=
  let url := baseUrl +:+ "/movie/popular" in
  fetch url (page_params page) (answer_page url (page_params page))
    (fun data => "Fetched " +:+ count_of data +:+ " popular movies")
    (Some (fun retryCount =>
             "Retry attempt " +:+ pretty (Z.of_nat retryCount) +:+ " for popular movies"))
    "Error fetching popular movies".

Definition getTopRatedMovies_ `{TmdbApi} (page : Z) : Obs World TmdbResponse :=
  let url := baseUrl +:+ "/movie/top_rated" in
  fetch url (page_params page) (answer_page url (page_params page))
    (fun data => "Fetched " +:+ count_of data +:+ " top-rated movies")
    None "Error fetching top-rated movies".

Definition getNowPlayingMovies_ `{TmdbApi} (page : Z) : Obs World TmdbResponse :=
  let url := baseUrl +:+ "/movie/now_playing" in
  fetch url (page_params page) (answer_page url (page_params page))
    (fun data => "Fetched " +:+ count_of data +:+ " now playing movies")
    None "Error fetching now playing movies".

Definition getUpcomingMovies_ `{TmdbApi} (page : Z) : Obs World TmdbResponse :=
  let url := baseUrl +:+ "/movie/upcoming" in
  fetch url (page_params page) (answer_page url (page_params page))
    (fun data => "Fetched " +:+ count_of data +:+ " upcoming movies")
    None "Error fetching upcoming movies".

Definition getMovieDetails_ `{TmdbApi} (movieId : Z) : Obs World TmdbMovieDetails :=
  let url := baseUrl +:+ "/movie/" +:+ pretty movieId in
  fetch url [("api_key", apiKey)] (answer_details url)
    (fun movie => "Fetched details for movie: " +:+ tm_title (td_movie movie))
    None ("Error fetching movie " +:+ pretty movieId +:+ " details").

Definition searchMovies_ `{TmdbApi} (query : string) (page : Z) : Obs World TmdbResponse :=
  let url := baseUrl +:+ "/search/movie" in
  let params := [("api_key", apiKey); ("query", query); ("page", pretty page)] in
  fetch url params (answer_page url params)
    (fun data => "Found " +:+ pretty (tr_total_results data)
                 +:+ " movies for query: " +:+ query)
    None ("Error searching movies for query: " +:+ query).

Definition discoverMovies_ `{TmdbApi} (params : list (string * string))
  : Obs World TmdbResponse :=
  let url := baseUrl +:+ "/discover/movie" in
  fetch url (("api_key", apiKey) :: params) (answer_page url (("api_key", apiKey) :: params))
    (fun data => "Discovered " +:+ count_of data +:+ " movies")
    None "Error discovering movies".

Definition getGenres_ `{TmdbApi} : Obs World (list (Z * string)) :=
  let url := baseUrl +:+ "/genre/movie/list" in
  fetch url [("api_key", apiKey)] answer_genres
    (fun genres => "Fetched " +:+ pretty (Z.of_nat (length genres)) +:+ " genres")
    None "Error fetching genres".

End TmdbService.

(** The fetch operations of the client, and what a run of one leaves when
    the data it fetched is set aside: the error, if any, and the world. *)
Inductive FetchOp : Type :=
| PopularMovies (page : Z)
| TopRatedMovies (page : Z)
| NowPlayingMovies (page : Z)
| UpcomingMovies (page : Z)
| MovieDetails (movieId : Z)
| SearchMovies (query : string) (page : Z)
| DiscoverMovies (params : list (string * string))
| Genres.

Definition thrown {A} (out : notification A * World) : option exception * World :=
  match out with
  | (Next _, w) => (None, w)
  | (Thrown e, w) => (Some e, w)
  end.

Definition perform `{TmdbApi} (op : FetchOp) (w : World) : option exception * World :=
  match op with
  | PopularMovies page => thrown (TmdbService.getPopularMovies_ page w)
  | TopRatedMovies page => thrown (TmdbService.getTopRatedMovies_ page w)
  | NowPlayingMovies page => thrown (TmdbService.getNowPlayingMovies_ page w)
  | UpcomingMovies page => thrown (TmdbService.getUpcomingMovies_ page w)
  | MovieDetails movieId => thrown (TmdbService.getMovieDetails_ movieId w)
  | SearchMovies query page => thrown (TmdbService.searchMovies_ query page w)
  | DiscoverMovies params => thrown (TmdbService.discoverMovies_ params w)
  | Genres => thrown (TmdbService.getGenres_ w)
  end.

Definition failure {A} (answer : exception + A) : option exception :=
  match answer with inl e => Some e | inr _ => None end.

(** The request an operation sends, and whether the service fails the
    [n]-th request when it is that one. *)
Definition request_of `{TmdbApi} (op : FetchOp) : string * list (string * string) :=
  match op with
  | PopularMovies page => (baseUrl +:+ "/movie/popular", TmdbService.page_params page)
  | TopRatedMovies page => (baseUrl +:+ "/movie/top_rated", TmdbService.page_params page)
  | NowPlayingMovies page => (baseUrl +:+ "/movie/now_playing", TmdbService.page_params page)
  | UpcomingMovies page => (baseUrl +:+ "/movie/upcoming", TmdbService.page_params page)
  | MovieDetails movieId => (baseUrl +:+ "/movie/" +:+ pretty movieId, [("api_key", apiKey)])
  | SearchMovies query page =>
      (baseUrl +:+ "/search/movie",
       [("api_key", apiKey); ("query", query); ("page", pretty page)])
  | DiscoverMovies params => (baseUrl +:+ "/discover/movie", ("api_key", apiKey) :: params)
  | Genres => (baseUrl +:+ "/genre/movie/list", [("api_key", apiKey)])
  end.

Definition failure_at `{TmdbApi} (op : FetchOp) (n : nat) : option exception :=
  let '(url, params) := request_of op in
  match op with
  | MovieDetails _ => failure (answer_details url n)
  | Genres => failure (answer_genres n)
  | _ => failure (answer_page url params n)
  end.

Definition failure_message (op : FetchOp) : string :=
  match op with
  | PopularMovies _ => "Error fetching popular movies"
  | TopRatedMovies _ => "Error fetching top-rated movies"
  | NowPlayingMovies _ => "Error fetching now playing movies"
  | UpcomingMovies _ => "Error fetching upcoming movies"
  | MovieDetails movieId => "Error fetching movie " +:+ pretty movieId +:+ " details"
  | SearchMovies query _ => "Error searching movies for query: " +:+ query
  | DiscoverMovies _ => "Error discovering movies"
  | Genres => "Error fetching genres"
  end.

Definition is_network (e : Event) : bool :=
  match e with
  | HttpGet _ _ | Timer _ => true
  | _ => false
  end.

(** A first request, then [retries] times a wait of [1000 * k] ms and the
    request again, for [k = soFar + 1 .. soFar + retries]. *)
Definition schedule_from (request : string * list (string * string)) (soFar retries : nat)
  : list Event :=
  HttpGet request.1 request.2
  :: flat_map (fun k => [Timer (1000 * Z.of_nat k); HttpGet request.1 request.2])
       (seq (S soFar) retries).

Definition backoff_schedule (request : string * list (string * string)) (retries : nat)
  : list Event :=
  schedule_from request 0 retries.

(** ** TmdbSyncService: the synchronisation job *)

(** A movie handed to [saveMovie]: [TmdbMovie | TmdbMovieDetails]. *)
Inductive TmdbInput : Type :=
| Basic (movie : TmdbMovie)
| Detailed (details : TmdbMovieDetails).

Definition base (input : TmdbInput) : TmdbMovie :=
  match input with
  | Basic movie => movie
  | Detailed details => td_movie details
  end.

(** The movies table can refuse a row for a reason the embedding does not
    follow (a violated constraint, a lost connection): the error of such a
    rejected [save], if any, is decided by the database. *)
Class MovieStore : Type := {
  save_error : list Movie.t -> Movie.t -> option exception;
}.

(** The columns of the movies table refuse a row out of their range: the
    [integer] columns [tmdbId] and [voteCount], and the [decimal(3,1)]
    columns [voteAverage] and [popularity]. *)
Definition column_error (row : Movie.t) : option exception :=
  if int4 (Movie.tmdbId row) && int4 (Movie.voteCount row)
     && fits 3 (Movie.voteAverage row) && fits 3 (Movie.popularity row)
  then None
  else Some QueryFailedError.

(** The error of a [save] of [row], if it is refused. *)
Definition refusal `{MovieStore} (rows : list Movie.t) (row : Movie.t) : option exception :=
  match column_error row with
  | Some e => Some e
  | None => save_error rows row
  end.

(** The categories [fetchMultipleCategories$] delivers. *)
Record Categories : Type := {
  popular : list TmdbMovie;
  topRated : list TmdbMovie;
  nowPlaying : list TmdbMovie;
  upcoming : list TmdbMovie;
}.

(** [concatMap(project)] followed by [toArray()]: the inner observable of
    an item is subscribed to when the one of the previous item has
    completed, and an error of an inner observable ends the whole. *)
Fixpoint concatMap {A B} (project : A -> Obs World B) (items : list A)
  : Obs World (list B) :=
  match items with
  | [] => of_ []
  | item :: rest =>
      switchMap (project item)
        (fun b => map_ (concatMap project rest) (fun bs => b :: bs))
  end.

(** [Map.prototype.set]: a key already present keeps its place. *)
Fixpoint map_set (key : Z) (value : TmdbMovie) (entries : list (Z * TmdbMovie))
  : list (Z * TmdbMovie) :=
  match entries with
  | [] => [(key, value)]
  | (k, v) :: rest =>
      if k =? key then (key, value) :: rest else (k, v) :: map_set key value rest
  end.

Module TmdbSyncService.

(** [new Date(release_date)] when the string is not empty. *)
Definition release_date_of (movie : TmdbMovie) : option string :=
  if String.eqb (tm_release_date movie) "" then None else Some (tm_release_date movie).

(** [{ ...existingMovie, ...movieData, userRatingAverage, userRatingCount }]
    as the row it is saved to: [save] skips a property that is
    [undefined], so an absent release date keeps the stored one; the
    [decimal(3,1)] columns [voteAverage] and [popularity] hold their values
    rounded to one decimal place. *)
Definition merge (existingMovie : Movie.t) (input : TmdbInput) : Movie.t :=
  let tmdbMovie := base input in
  Movie.mk
    (Movie.id existingMovie)
    (tm_id tmdbMovie)
    (tm_title tmdbMovie)
    (Some (tm_overview tmdbMovie))
    (Some (tm_poster_path tmdbMovie))
    (Some (tm_backdrop_path tmdbMovie))
    (match release_date_of tmdbMovie with
     | Some date => Some date
     | None => Movie.releaseDate existingMovie
     end)
    (tenths (tm_vote_average tmdbMovie))
    (tm_vote_count tmdbMovie)
    (tenths (tm_popularity tmdbMovie))
    (default [] (tm_genre_ids tmdbMovie))
    (match input with
     | Detailed details => Some (td_genres details)
     | Basic _ => Movie.genres existingMovie
     end)
    (Some (tm_original_language tmdbMovie))
    (Some (tm_original_title tmdbMovie))
    (tm_adult tmdbMovie)
    (tm_video tmdbMovie)
    (* Preserve user rating data *)
    (Movie.userRatingAverage existingMovie)
    (Movie.userRatingCount existingMovie).

(** [movieRepository.create(movieData)] as the row inserted for it: the
    next id, the vote average and the popularity rounded to one decimal
    place, no user rating average, and the column default [0] for the
    number of user ratings. *)
Definition created (id : Z) (input : TmdbInput) : Movie.t :=
  let tmdbMovie := base input in
  Movie.mk id
    (tm_id tmdbMovie)
    (tm_title tmdbMovie)
    (Some (tm_overview tmdbMovie))
    (Some (tm_poster_path tmdbMovie))
    (Some (tm_backdrop_path tmdbMovie))
    (release_date_of tmdbMovie)
    (tenths (tm_vote_average tmdbMovie))
    (tm_vote_count tmdbMovie)
    (tenths (tm_popularity tmdbMovie))
    (default [] (tm_genre_ids tmdbMovie))
    (match input with
     | Detailed details => Some (td_genres details)
     | Basic _ => None
     end)
    (Some (tm_original_language tmdbMovie))
    (Some (tm_original_title tmdbMovie))
    (tm_adult tmdbMovie)
    (tm_video tmdbMovie)
    None 0.

Definition findOne_by_tmdbId (tmdbId : Z) : Obs World (option Movie.t) :=
  fun w =>
    (Next (findOne (fun m => Movie.tmdbId m =? tmdbId) (movieRepository (db w))),
     mkWorld (db w) (sent w) (trace w ++ [RepoFindOne tmdbId])).

(** [movieRepository.save(row)] of a row that has its id.  The entity
    handed back is given as the row written: the same id, the same
    properties, the two decimals as their columns hold them. *)
Definition save `{MovieStore} (row : Movie.t) : Obs World Movie.t :=
  fun w =>
    match refusal (movieRepository (db w)) row with
    | Some e =>
        (Thrown e, mkWorld (db w) (sent w) (trace w ++ [RepoSaveFailed (Movie.tmdbId row)]))
    | None =>
        (Next row,
         mkWorld (with_movies (save_row Movie.id row (movieRepository (db w))) (db w))
           (sent w) (trace w ++ [RepoSave (Movie.tmdbId row)]))
    end.

(** [movieRepository.save(movieRepository.create(movieData))] *)
Definition save_created `{MovieStore} (input : TmdbInput) : Obs World Movie.t :=
  fun w =>
    let d := db w in
    let row := created (movieSeq d) input in
    match refusal (movieRepository d) row with
    | Some e =>
        (Thrown e, mkWorld d (sent w) (trace w ++ [RepoSaveFailed (Movie.tmdbId row)]))
    | None =>
        (Next row,
         mkWorld
           (mkDb (movieRepository d ++ [row]) (userRepository d) (ratingRepository d)
              (movieSeq d + 1) (userSeq d) (ratingSeq d))
           (sent w) (trace w ++ [RepoSave (Movie.tmdbId row)]))
    end.

Definition saveMovie `{MovieStore} (tmdbMovie : TmdbInput) : Obs World Movie.t :=
  tap
    (switchMap (findOne_by_tmdbId (tm_id (base tmdbMovie)))
       (fun existingMovie =>
          match existingMovie with
          | Some existing => save (merge existing tmdbMovie)
          | None => save_created tmdbMovie
          end))
    (fun movie => logger LevelDebug ("Saved/Updated movie: " +:+ Movie.title movie)).

(** The loop of both jobs: [concatMap] of [saveMovie] with [delay(100)]
    and a handler that logs the error and goes on with [null]. *)
Definition save_each `{MovieStore} (failure : string) (movies : list TmdbMovie)
  : Obs World (list (option Movie.t)) :=
  concatMap
    (fun tmdbMovie =>
       catchError
         (map_ (delay 100 (saveMovie (Basic tmdbMovie))) Some)
         (fun error =>
            switchMap (logger LevelError (failure +:+ pretty (tm_id tmdbMovie)))
              (fun _ => of_ None)))
    movies.

Definition saved_count (results : list (option Movie.t)) : string :=
  pretty (Z.of_nat (length (List.filter (fun r => bool_decide (r <> None)) results))).

(** Combine and deduplicate movies *)
Definition deduplicate (categories : Categories) : list TmdbMovie :=
  List.map snd
    (fold_left (fun movieMap movie => map_set (tm_id movie) movie movieMap)
       (popular categories ++ topRated categories ++ nowPlaying categories
        ++ upcoming categories)
       []).

(** [syncInitialMovies], from the categories [fetchMultipleCategories$(3)]
    has delivered. *)
Definition syncInitialMovies `{MovieStore} (categories : Categories) : Obs World unit :=
  map_
    (tap (save_each "Error saving movie " (deduplicate categories))
       (fun savedMovies =>
          logger LevelLog
            ("Initial sync completed. Saved " +:+ saved_count savedMovies +:+ " movies")))
    (fun _ => tt).

Definition syncPopularMovies `{TmdbApi} `{MovieStore} : Obs World unit :=
  switchMap (logger LevelLog "Starting scheduled popular movies sync...")
    (fun _ =>
       map_
         (tap
            (switchMap (TmdbService.getPopularMovies_ 1)
               (fun response => save_each "Error syncing movie " (tr_results response)))
            (fun movies =>
               logger LevelLog ("Synced " +:+ saved_count movies +:+ " popular movies")))
         (fun _ => tt)).

Definition syncMovieDetails `{TmdbApi} `{MovieStore} (movieId : Z) : Obs World Movie.t :=
  catchError
    (tap
       (switchMap (TmdbService.getMovieDetails_ movieId)
          (fun movieDetails => saveMovie (Detailed movieDetails)))
       (fun movie => logger LevelLog ("Synced detailed data for movie: " +:+ Movie.title movie)))
    (fun error =>
       switchMap
         (logger LevelError ("Error syncing movie details " +:+ pretty movieId))
         (fun _ => throwError error)).

End TmdbSyncService.

(** ** MoviesService: the synchronisation of one movie *)

Module MoviesServiceSync.
Import TmdbSyncService.

(** [movieRepository.upsert({...}, ['tmdbId'])]: a row with the TMDB id is
    updated in the columns the entity defines (all the metadata, and the
    release date when there is one), and a new row is inserted when there
    is none. *)
Definition upsert `{MovieStore} (tmdbMovie : TmdbMovieDetails) : Obs World unit :=
  fun w =>
    let d := db w in
    let ms := movieRepository d in
    let id := tm_id (td_movie tmdbMovie) in
    match findOne (fun m => Movie.tmdbId m =? id) ms with
    | Some existing =>
        match refusal ms (merge existing (Detailed tmdbMovie)) with
        | Some e => (Thrown e, mkWorld d (sent w) (trace w ++ [RepoSaveFailed id]))
        | None =>
            (Next tt,
             mkWorld
               (with_movies
                  (List.map (fun m => if Movie.tmdbId m =? id
                                      then merge m (Detailed tmdbMovie) else m) ms) d)
               (sent w) (trace w ++ [RepoSave id]))
        end
    | None => map_ (save_created (Detailed tmdbMovie)) (fun _ => tt) w
    end.

Definition fetchAndSaveFromTmdb_ `{TmdbApi} `{MovieStore} (tmdbId : Z) : Obs World Movie.t :=
  switchMap (TmdbService.getMovieDetails_ tmdbId)
    (fun tmdbMovie => save_created (Detailed tmdbMovie)).

Definition findByTmdbId_ `{TmdbApi} `{MovieStore} (tmdbId : Z) : Obs World Movie.t :=
  catchError
    (tap
       (switchMap (findOne_by_tmdbId tmdbId)
          (fun movie =>
             match movie with
             | None => fetchAndSaveFromTmdb_ tmdbId
             | Some m => of_ m
             end))
       (fun movie => logger LevelLog ("Fetched movie by TMDB ID: " +:+ Movie.title movie)))
    (fun error =>
       switchMap (logger LevelError ("Error fetching movie by TMDB ID " +:+ pretty tmdbId))
         (fun _ => throwError error)).

Definition syncFromTmdb_ `{TmdbApi} `{MovieStore} (tmdbId : Z) : Obs World Movie.t :=
  catchError
    (tap
       (switchMap (TmdbService.getMovieDetails_ tmdbId)
          (fun tmdbMovie =>
             switchMap (upsert tmdbMovie) (fun _ => findByTmdbId_ tmdbId)))
       (fun movie => logger LevelLog ("Synced movie from TMDB: " +:+ Movie.title movie)))
    (fun error =>
       switchMap (logger LevelError ("Error syncing movie from TMDB " +:+ pretty tmdbId))
         (fun _ => throwError error)).

End MoviesServiceSync.

(** The events of one movie in the loop: the lookup and the save, then the
    debug line and the timer of 100 ms; or the lookup and the rejected
    save, then the error line. *)
Inductive movie_block (failure : string) (m : TmdbMovie)
  : option Movie.t -> list Event -> Prop :=
| block_saved (row : Movie.t) :
    Movie.tmdbId row = tm_id m ->
    movie_block failure m (Some row)
      [RepoFindOne (tm_id m); RepoSave (tm_id m);
       Logged LevelDebug ("Saved/Updated movie: " +:+ Movie.title row); Timer 100]
| block_failed :
    movie_block failure m None
      [RepoFindOne (tm_id m); RepoSaveFailed (tm_id m);
       Logged LevelError (failure +:+ pretty (tm_id m))].

(** The events of a list of movies: the blocks of the movies, one after the
    other, in the order of the list. *)
Inductive sequential (failure : string)
  : list TmdbMovie -> list (option Movie.t) -> list Event -> Prop :=
| sequential_nil : sequential failure [] [] []
| sequential_cons m movies result results block events :
    movie_block failure m result block ->
    sequential failure movies results events ->
    sequential failure (m :: movies) (result :: results) (block ++ events).

Definition is_save_attempt (e : Event) : bool :=
  match e with
  | RepoSave _ | RepoSaveFailed _ => true
  | _ => false
  end.

Definition save_attempt_id (e : Event) : Z :=
  match e with
  | RepoSave id | RepoSaveFailed id => id
  | _ => 0
  end.

(** The integrity constraints of the movies table: the primary key, and a
    sequence ahead of every stored id. *)
Definition movies_consistent (d : Db) : Prop :=
  NoDup (List.map Movie.id (movieRepository d))
  /\ Forall (fun m => Movie.id m < movieSeq d) (movieRepository d).

(** Every row of [before] is still there, at its place and with its id, and
    with the user rating statistics it had. *)
Definition rating_statistics_kept (before after : list Movie.t) : Prop :=
  forall (i : nat) (m : Movie.t),
    before !! i = Some m ->
    exists m',
      after !! i = Some m'
      /\ Movie.id m' = Movie.id m
      /\ Movie.userRatingAverage m' = Movie.userRatingAverage m
      /\ Movie.userRatingCount m' = Movie.userRatingCount m.

(** From the world [w] to the world [out], no movie has lost its user
    rating statistics, and the movies table is still consistent. *)
Definition kept (w out : World) : Prop :=
  rating_statistics_kept (movieRepository (db w)) (movieRepository (db out))
  /\ movies_consistent (db out).

(** Lookups by primary key. *)
Definition user_by_id (userId : Z) (db : Db) : option User.t :=
  findOne (fun u => User.id u =? userId) (userRepository db).

Definition movie_by_id (movieId : Z) (db : Db) : option Movie.t :=
  findOne (fun m => Movie.id m =? movieId) (movieRepository db).

(** The movie ids of a loaded relation (none when it is not loaded). *)
Definition ids_of (l : option (list Movie.t)) : list Z :=
  List.map Movie.id (default [] l).


(** ** Sample data *)

Module Samples.

#[export] Instance bcrypt : Bcrypt := {|
  bcrypt_hash := fun plain => "$2b$" +:+ plain;
  bcrypt_compare := fun plain hash => String.eqb ("$2b$" +:+ plain) hash;
|}.

#[export] Instance jwt : JwtService := {|
  jwt_sign := fun payload =>
    match payload !! "username" with
    | Some (JsString name) => "token:" +:+ name
    | _ => "token"
    end;
|}.

Definition movie (id tmdbId : Z) (title : string) : Movie.t :=
  Movie.mk id tmdbId title None None None None 0%Q 0 0%Q [] None None None
    false false None 0.

Definition alice : User.t :=
  User.mk 1 "alice" "alice@example.com" "$2b$secret" None None true
    (Some [movie 10 550 "Fight Club"]) (Some []).

Definition bob : User.t :=
  User.mk 2 "bob" "bob@example.com" "$2b$hunter2" None None true (Some []) None.

Definition db : Db :=
  mkDb [movie 10 550 "Fight Club"; movie 11 680 "Pulp Fiction"]
    [alice; bob]
    [Rating.mk 1 (17 # 2) None 1 10; Rating.mk 2 (7 # 1) (Some "good") 2 10]
    12 3 3.

Definition world : World := mkWorld db 0 [].

(** A movie that has been synchronised and rated before, and the movie
    TMDB has for its id now. *)
Definition rated : Movie.t :=
  Movie.mk 10 550 "Fight Club (1999)" (Some "An insomniac office worker.") None None
    (Some "1999-10-14") (80 # 10) 100 (600 # 10) [18] (Some [(18, "Drama")])
    (Some "en") (Some "Fight Club") false false (Some (78 # 10)) 2.

Definition rated_db : Db :=
  mkDb [rated; movie 11 680 "Pulp Fiction"]
    [alice; bob]
    [Rating.mk 1 (17 # 2) None 1 10; Rating.mk 2 (7 # 1) (Some "good") 2 10]
    12 3 3.

Definition rated_world : World := mkWorld rated_db 0 [].

Definition external : TmdbMovie :=
  {| tm_id := 550; tm_title := "Fight Club"; tm_overview := "A ticking-time-bomb insomniac.";
     tm_poster_path := "/poster.jpg"; tm_backdrop_path := "/backdrop.jpg";
     tm_release_date := "1999-10-15";
     tm_vote_average := 33 # 4; tm_vote_count := 27000; tm_popularity := 6137 # 100;
     tm_genre_ids := Some [18; 53]; tm_original_language := "en";
     tm_original_title := "Fight Club"; tm_adult := false; tm_video := false |}.

Definition tmdb_movie (id : Z) (title : string) : TmdbMovie :=
  {| tm_id := id; tm_title := title; tm_overview := ""; tm_poster_path := "";
     tm_backdrop_path := ""; tm_release_date := "1999-10-15";
     tm_vote_average := 0%Q; tm_vote_count := 0; tm_popularity := 0%Q;
     tm_genre_ids := Some [18]; tm_original_language := "en";
     tm_original_title := title; tm_adult := false; tm_video := false |}.

(** A service that fails the first two requests it receives. *)
#[export] Instance api : TmdbApi := {|
  apiKey := "key";
  baseUrl := "https://api.themoviedb.org/3";
  answer_page := fun _ _ n =>
    if (n <? 2)%nat then inl (Error "timeout")
    else inr {| tr_page := 1;
                tr_results := [tmdb_movie 550 "Fight Club"; tmdb_movie 603 "The Matrix"];
                tr_total_pages := 1; tr_total_results := 2 |};
  answer_details := fun _ _ => inl (Error "timeout");
  answer_genres := fun _ => inr [(18, "Drama")];
|}.

(** A movies table that refuses the TMDB id 603. *)
#[export] Instance store : MovieStore := {|
  save_error := fun _ row =>
    if Movie.tmdbId row =? 603 then Some (Error "QueryFailedError") else None;
|}.

(** A small database engine: [ILIKE] on a pattern [%text%] is a search
    for the text without regard to case, dates in ISO form are compared as
    strings, and the rows are sorted by insertion on the column asked
    for. *)
Definition lower (c : Ascii.ascii) : Ascii.ascii :=
  let n := Ascii.nat_of_ascii c in
  if ((65 <=? n) && (n <=? 90))%nat then Ascii.ascii_of_nat (n + 32) else c.

Fixpoint lowercase (s : string) : string :=
  match s with
  | EmptyString => EmptyString
  | String c rest => String (lower c) (lowercase rest)
  end.

Fixpoint contains (needle hay : string) : bool :=
  String.prefix needle hay
  || match hay with
     | EmptyString => false
     | String _ rest => contains needle rest
     end.

(** The text between the two [%] of a pattern. *)
Definition pattern_text (pattern : string) : string :=
  String.substring 1 (String.length pattern - 2) pattern.

Definition ilike (pattern : string) (text : option string) : bool :=
  match text with
  | Some t => contains (lowercase (pattern_text pattern)) (lowercase t)
  | None => false
  end.

Definition holds (condition : Where) (m : Movie.t) : bool :=
  match condition with
  | SearchILike pattern =>
      ilike pattern (Some (Movie.title m)) || ilike pattern (Movie.originalTitle m)
  | TitleILike pattern => ilike pattern (Some (Movie.title m))
  | GenreIdsOverlap _ | GenreIdIsAny _ => false
  | ReleaseDateBetween fromDate toDate =>
      match Movie.releaseDate m with
      | Some date => String.leb fromDate date && String.leb date toDate
      | None => false
      end
  | VoteAverageAtLeast minRating => Qle_bool minRating (Movie.voteAverage m)
  | VoteAverageAtMost maxRating => Qle_bool (Movie.voteAverage m) maxRating
  | OriginalLanguageIs language =>
      bool_decide (Movie.originalLanguage m = Some language)
  | AdultIsFalse => negb (Movie.adult m)
  end.

Definition before (order : string * option SortOrder) (a b : Movie.t) : bool :=
  let ascending :=
    if String.eqb order.1 "movie.title" then String.leb (Movie.title a) (Movie.title b)
    else if String.eqb order.1 "movie.voteAverage"
    then Qle_bool (Movie.voteAverage a) (Movie.voteAverage b)
    else if String.eqb order.1 "movie.popularity" || String.eqb order.1 "popularity"
    then Qle_bool (Movie.popularity a) (Movie.popularity b)
    else Movie.id a <=? Movie.id b in
  let descending :=
    if String.eqb order.1 "movie.title" then String.leb (Movie.title b) (Movie.title a)
    else if String.eqb order.1 "movie.voteAverage"
    then Qle_bool (Movie.voteAverage b) (Movie.voteAverage a)
    else if String.eqb order.1 "movie.popularity" || String.eqb order.1 "popularity"
    then Qle_bool (Movie.popularity b) (Movie.popularity a)
    else Movie.id b <=? Movie.id a in
  match order.2 with
  | Some DESC => descending
  | _ => ascending
  end.

Fixpoint insert_sorted (order : string * option SortOrder) (m : Movie.t)
    (sorted : list Movie.t) : list Movie.t :=
  match sorted with
  | [] => [m]
  | x :: rest =>
      if before order m x then m :: x :: rest else x :: insert_sorted order m rest
  end.

Definition insertion_sort (order : string * option SortOrder) (rows : list Movie.t)
  : list Movie.t :=
  fold_right (insert_sorted order) [] rows.

#[export] Instance engine : SqlEngine := {|
  satisfies := holds;
  sorted_by := insertion_sort;
  today := "2024-01-01";
  take_zero_unlimited := true;
|}.

#[export] Instance pagination : Pagination := {|
  totalPages_of := fun total limit => (total + limit - 1) / limit;
|}.

End Samples.

(** * Further operations of the services *)

(** ** RatingsService, continued *)


Module RatingsQueries.

Definition findUserRatingForMovie_ (userId movieId : Z) : Obs Db (option Rating.t) :=
  catchError
    (from_read (fun d =>
       findOne (RatingsService.by_user_movie userId movieId) (ratingRepository d)))
    (fun _ => of_ None).





End RatingsQueries.

(** The ratings of a movie. *)
Definition ratings_of (movieId : Z) (d : Db) : list Rating.t :=
  List.filter (fun r => Rating.movieId r =? movieId) (ratingRepository d).


(** The sum of the counters of a distribution. *)
Definition total (distribution : gmap string Z) : Z :=
  map_fold (fun _ n acc => n + acc) 0 distribution.

(** ** UsersService, continued *)

Module UsersAccount.
Import UsersService.

(** [userRepository.remove(user)]: the row of the user is deleted, and with
    it, by the [onDelete: 'CASCADE'] of the rating entity's relation to the
    user, the ratings of that user. *)
Definition remove (u : User.t) (d : Db) : unit * Db :=
  (tt,
   mkDb (movieRepository d)
     (remove_row User.id u (userRepository d))
     (List.filter (fun r => negb (Rating.userId r =? User.id u)) (ratingRepository d))
     (movieSeq d) (userSeq d) (ratingSeq d)).

Definition remove_ (id : Z) : Obs Db unit :=
  map_ (switchMap (findOne_ id) (fun user => from_write (remove user))) (fun _ => tt).

Definition getWatchlist_ (userId : Z) : Obs Db (list Movie.t) :=
  map_ (findOne_ userId) (fun user => default [] (User.watchlist user)).

Definition getFavorites_ (userId : Z) : Obs Db (list Movie.t) :=
  map_ (findOne_ userId) (fun user => default [] (User.favorites user)).

Definition changePassword_ `{Bcrypt} (userId : Z) (oldPassword newPassword : string)
  : Obs Db User.t :=
  switchMap (findOne_ userId)
    (fun user =>
       if bcrypt_compare oldPassword (User.password user)
       then from_write (save (set_password newPassword user))
       else throwError (UnauthorizedException "Invalid current password")).

End UsersAccount.

(** A rating refers to a stored user and to a stored movie. *)
Definition refers (d : Db) (r : Rating.t) : Prop :=
  is_Some (user_by_id (Rating.userId r) d) /\ is_Some (movie_by_id (Rating.movieId r) d).

Definition ratings_refer (d : Db) : Prop := Forall (refers d) (ratingRepository d).

(** [bcrypt.compare] accepts a password against its own hash. *)
Definition bcrypt_sound `{Bcrypt} : Prop :=
  forall plain, bcrypt_compare plain (bcrypt_hash plain) = true.

(** A password the [hashPassword] hook hashes: not empty, and not taken
    for a hash already. *)
Definition hashable (password : string) : Prop :=
  password <> "" /\ String.prefix "$2b$" password = false.

(** The user the login looks up for a name: the first one whose username or
    email it is. *)
Definition user_by_name (name : string) (d : Db) : option User.t :=
  findOne (fun u => String.eqb (User.username u) name || String.eqb (User.email u) name)
    (userRepository d).

(** The movies [syncInitialMovies] puts in its map, in the order it puts
    them. *)
Definition combined (categories : Categories) : list TmdbMovie :=
  popular categories ++ topRated categories ++ nowPlaying categories ++ upcoming categories.

(** Lookup by the TMDB id, and the constraint that it identifies a movie. *)
Definition movie_by_tmdbId (tmdbId : Z) (d : Db) : option Movie.t :=
  findOne (fun m => Movie.tmdbId m =? tmdbId) (movieRepository d).

Definition tmdb_ids_unique (d : Db) : Prop :=
  NoDup (List.map Movie.tmdbId (movieRepository d)).

(** ** TMDB client: the details of a list of movies *)

Module TmdbServiceBatch.
Import TmdbService.

(** [syncMoviesWithDetails$] emits more than once: after each movie whose
    details arrived, the array of the details so far ([scan]).  The
    observable is run to its completion and answers with the list of its
    emissions; [acc] is the accumulator of [scan].  The movies are taken
    one after the other ([concatMap]), a movie that could not be fetched is
    logged and left out ([of(null)], [filter]). *)
Fixpoint syncMoviesWithDetails_from `{TmdbApi} (delayMs : Z) (acc : list TmdbMovieDetails)
    (movieIds : list Z) : Obs World (list (list TmdbMovieDetails)) :=
  match movieIds with
  | [] => of_ []
  | id :: rest =>
      switchMap
        (catchError
           (map_ (delay delayMs (getMovieDetails_ id)) Some)
           (fun error =>
              switchMap (logger LevelError ("Failed to fetch movie " +:+ pretty id))
                (fun _ => of_ None)))
        (fun movie =>
           match movie with
           | None => syncMoviesWithDetails_from delayMs acc rest
           | Some movie =>
               let movies := acc ++ [movie] in
               switchMap
                 (logger LevelLog
                    ("Synced " +:+ pretty (Z.of_nat (length movies))
                     +:+ " movies with details"))
                 (fun _ =>
                    map_ (syncMoviesWithDetails_from delayMs movies rest)
                      (fun emitted => movies :: emitted))
           end)
  end.

Definition syncMoviesWithDetails_ `{TmdbApi} (movieIds : list Z) (delayMs : option Z)
  : Obs World (list (list TmdbMovieDetails)) :=
  syncMoviesWithDetails_from (default 250 delayMs) [] movieIds.

End TmdbServiceBatch.

(** ** Synchronisation job: a batch of movies *)

Module TmdbSyncBatch.
Import TmdbSyncService.

(** [concatMap] of [syncMovieDetails] with [delay(250)] and a handler that
    goes on with [null]; [filter] drops the [null]s and [toArray] collects
    the movies. *)
Definition batchSyncMovies `{TmdbApi} `{MovieStore} (movieIds : list Z)
  : Obs World (list Movie.t) :=
  tap
    (map_
       (concatMap
          (fun id =>
             catchError (map_ (delay 250 (syncMovieDetails id)) Some)
               (fun _ => of_ None))
          movieIds)
       (omap (fun movie : option Movie.t => movie)))
    (fun movies =>
       logger LevelLog
         ("Batch synced " +:+ pretty (Z.of_nat (length movies)) +:+ " movies")).

End TmdbSyncBatch.

(** The address the details of a movie are asked at. *)
Definition details_url `{TmdbApi} (movieId : Z) : string :=
  baseUrl +:+ "/movie/" +:+ pretty movieId.

(** What the remote service answers to a list of movies asked for one
    after the other, each with up to three retries:
    [details_arrive n ids movies m] says that, the requests being numbered
    from [n], the details [movies] arrive for the movies of [ids], in their
    order, a movie being left out when its four requests fail, and that
    [m] requests have been sent at the end. *)
Inductive details_arrive `{TmdbApi}
  : nat -> list Z -> list TmdbMovieDetails -> nat -> Prop :=
| arrive_nil (n : nat) : details_arrive n [] [] n
| arrive_fetched (n : nat) (id : Z) (ids : list Z) (retries : nat)
    (details : TmdbMovieDetails) (movies : list TmdbMovieDetails) (m : nat) :
    (retries <= 3)%nat ->
    (forall k, (k < retries)%nat ->
               is_Some (failure (answer_details (details_url id) (n + k)))) ->
    answer_details (details_url id) (n + retries) = inr details ->
    details_arrive (n + S retries) ids movies m ->
    details_arrive n (id :: ids) (details :: movies) m
| arrive_failed (n : nat) (id : Z) (ids : list Z)
    (movies : list TmdbMovieDetails) (m : nat) :
    (forall k, (k <= 3)%nat ->
               is_Some (failure (answer_details (details_url id) (n + k)))) ->
    details_arrive (n + 4) ids movies m ->
    details_arrive n (id :: ids) movies m.

(** A world after a timer. *)
Definition after_timer (ms : Z) (w : World) : World :=
  mkWorld (db w) (sent w) (trace w ++ [Timer ms]).

(** What the batch job collects: [batch_synced w ids movies w'] says that
    the movies of [ids] are synchronised one after the other from the
    world [w], that [movies] are the rows of those whose synchronisation
    succeeded, in their order, each followed by the pause of 250 ms, and
    that a movie whose synchronisation failed is passed over without a
    pause. *)
Inductive batch_synced `{TmdbApi} `{MovieStore}
  : World -> list Z -> list Movie.t -> World -> Prop :=
| batch_nil (w : World) : batch_synced w [] [] w
| batch_movie (w : World) (id : Z) (ids : list Z) (movie : Movie.t) (w1 : World)
    (movies : list Movie.t) (w' : World) :
    TmdbSyncService.syncMovieDetails id w = (Next movie, w1) ->
    batch_synced (after_timer 250 w1) ids movies w' ->
    batch_synced w (id :: ids) (movie :: movies) w'
| batch_skipped (w : World) (id : Z) (ids : list Z) (e : exception) (w1 : World)
    (movies : list Movie.t) (w' : World) :
    TmdbSyncService.syncMovieDetails id w = (Thrown e, w1) ->
    batch_synced w1 ids movies w' ->
    batch_synced w (id :: ids) movies w'.

(** The pause of the batch job between two movies. *)
Definition is_pause (e : Event) : bool :=
  match e with
  | Timer ms => ms =? 250
  | _ => false
  end.

(** The time spent in timers. *)
Definition waited (events : list Event) : Z :=
  fold_right (fun e total => match e with Timer ms => ms + total | _ => total end) 0 events.

(** ** MoviesService: creating a movie *)

Record CreateMovieDto : Type := {
  cm_tmdbId : Z;
  cm_title : string;
  cm_overview : option string;
  cm_posterPath : option string;
  cm_backdropPath : option string;
  cm_releaseDate : option string;
  cm_voteAverage : option Q;
  cm_voteCount : option Z;
  cm_popularity : option Q;
  cm_genreIds : option (list Z);
  cm_originalLanguage : option string;
  cm_originalTitle : option string;
  cm_adult : option bool;
  cm_video : option bool;
}.

Module MoviesCatalog.

(** [movieRepository.create({ ...createMovieDto, releaseDate })] as the row
    inserted for it: the next id, the release date when the string is not
    empty, the defaults of the columns for what the DTO leaves out (an
    absent [genreIds] is the empty list of the record), the vote average
    and the popularity as their [decimal(3,1)] columns hold them, rounded
    to one decimal place, and no user rating yet. *)
Definition created (id : Z) (createMovieDto : CreateMovieDto) : Movie.t :=
  Movie.mk id
    (cm_tmdbId createMovieDto)
    (cm_title createMovieDto)
    (cm_overview createMovieDto)
    (cm_posterPath createMovieDto)
    (cm_backdropPath createMovieDto)
    (truthy_string (cm_releaseDate createMovieDto))
    (tenths (default 0%Q (cm_voteAverage createMovieDto)))
    (default 0 (cm_voteCount createMovieDto))
    (tenths (default 0%Q (cm_popularity createMovieDto)))
    (default [] (cm_genreIds createMovieDto))
    None
    (cm_originalLanguage createMovieDto)
    (cm_originalTitle createMovieDto)
    (default false (cm_adult createMovieDto))
    (default false (cm_video createMovieDto))
    None 0.

(** [movieRepository.save(movie)] of the new row: the table refuses a row
    that does not fit its columns, or for a reason of its own, and then
    nothing is written.  The entity handed back is given as the row
    written. *)
Definition save_new `{MovieStore} (createMovieDto : CreateMovieDto) : Obs Db Movie.t :=
  fun d =>
    let row := created (movieSeq d) createMovieDto in
    match refusal (movieRepository d) row with
    | Some e => (Thrown e, d)
    | None =>
        (Next row,
         mkDb (movieRepository d ++ [row]) (userRepository d) (ratingRepository d)
           (movieSeq d + 1) (userSeq d) (ratingSeq d))
    end.

Definition already_exists (tmdbId : Z) : exception :=
  Error ("Movie with TMDB ID " +:+ pretty tmdbId +:+ " already exists").

Definition create_ `{MovieStore} (createMovieDto : CreateMovieDto) : Obs Db Movie.t :=
  switchMap
    (from_read (fun d =>
       findOne (fun m => Movie.tmdbId m =? cm_tmdbId createMovieDto) (movieRepository d)))
    (fun existingMovie =>
       match existingMovie with
       | Some _ => throwError (already_exists (cm_tmdbId createMovieDto))
       | None => save_new createMovieDto
       end).

End MoviesCatalog.

(** Sorting rearranges the rows it is given. *)
Definition sort_permutes `{SqlEngine} : Prop :=
  forall order rows, sorted_by order rows ≡ₚ rows.

(** A row satisfies all the conditions of a [WHERE] clause. *)
Definition satisfies_all `{SqlEngine} (conditions : list Where) (m : Movie.t) : Prop :=
  Forall (fun c => satisfies c m = true) conditions.

(** ** More sample data *)

Module MoreSamples.

Definition nine : CreateRatingDto := {| cr_rating := 9 # 1; cr_review := None |}.

Definition carol : CreateUserDto :=
  {| cu_username := "carol"; cu_email := "carol@example.com"; cu_password := "pw";
     cu_firstName := None; cu_lastName := None |}.

Definition inception : CreateMovieDto :=
  {| cm_tmdbId := 27205; cm_title := "Inception"; cm_overview := None;
     cm_posterPath := None; cm_backdropPath := None; cm_releaseDate := Some "2010-07-15";
     cm_voteAverage := Some (837 # 100); cm_voteCount := Some 34000;
     cm_popularity := Some (165 # 4);
     cm_genreIds := Some [28; 878]; cm_originalLanguage := Some "en";
     cm_originalTitle := None; cm_adult := None; cm_video := None |}.

(** The same movie under a TMDB id that is no 32-bit integer, and with a
    popularity of 100. *)
Definition beyond_integer : CreateMovieDto :=
  {| cm_tmdbId := 2147483648; cm_title := "Inception"; cm_overview := None;
     cm_posterPath := None; cm_backdropPath := None; cm_releaseDate := None;
     cm_voteAverage := None; cm_voteCount := None; cm_popularity := None;
     cm_genreIds := None; cm_originalLanguage := None;
     cm_originalTitle := None; cm_adult := None; cm_video := None |}.

Definition popular_beyond_column : CreateMovieDto :=
  {| cm_tmdbId := 27205; cm_title := "Inception"; cm_overview := None;
     cm_posterPath := None; cm_backdropPath := None; cm_releaseDate := None;
     cm_voteAverage := None; cm_voteCount := None; cm_popularity := Some (100 # 1);
     cm_genreIds := None; cm_originalLanguage := None;
     cm_originalTitle := None; cm_adult := None; cm_video := None |}.

Definition fight_club : TmdbInput := Basic (Samples.tmdb_movie 550 "Fight Club").

(** A catalogue of three movies, one of them for adults. *)
Definition heat : Movie.t :=
  Movie.mk 1 949 "Heat" None None None (Some "1995-12-15") (79 # 10) 7000 (300 # 10)
    [28; 80] None (Some "en") (Some "Heat") false false None 0.

Definition after_dark : Movie.t :=
  Movie.mk 2 7001 "After Dark" None None None (Some "2001-01-01") (85 # 10) 10 (900 # 10)
    [18] None (Some "en") (Some "After Dark") true false None 0.

Definition alien : Movie.t :=
  Movie.mk 3 348 "Alien" None None None (Some "1979-05-25") (81 # 10) 14000 (500 # 10)
    [27; 878] None (Some "en") (Some "Alien") false false None 0.

Definition catalogue : Db := mkDb [heat; after_dark; alien] [] [] 4 1 1.

(** The movies rated 8 or more, the best first, with the defaults of the
    query for the rest; and the same with the movies for adults. *)
Definition rated_eight : QueryMovieDto.t :=
  QueryMovieDto.mk (Some 1) (Some 20) None None None None (Some (8 # 1)) None
    (Some VOTE_AVERAGE) (Some DESC) None (Some false).

Definition rated_eight_with_adult : QueryMovieDto.t :=
  QueryMovieDto.mk (Some 1) (Some 20) None None None None (Some (8 # 1)) None
    (Some VOTE_AVERAGE) (Some DESC) None (Some true).

Definition details_of (movie : TmdbMovie) : TmdbMovieDetails :=
  {| td_movie := movie; td_genres := [(18, "Drama")]; td_runtime := 139;
     td_budget := 0; td_revenue := 0; td_status := "Released"; td_tagline := "" |}.

(** A service that has the details of three movies: those of 550 from the
    second request on, those of 603 and 680 at once; every other request
    fails. *)
Definition details_api : TmdbApi := {|
  apiKey := "key";
  baseUrl := "https://api.themoviedb.org/3";
  answer_page := fun _ _ _ => inl (Error "timeout");
  answer_details := fun url n =>
    if String.eqb url "https://api.themoviedb.org/3/movie/550"
    then if (n <? 1)%nat then inl (Error "timeout") else inr (details_of Samples.external)
    else if String.eqb url "https://api.themoviedb.org/3/movie/603"
    then inr (details_of (Samples.tmdb_movie 603 "The Matrix"))
    else if String.eqb url "https://api.themoviedb.org/3/movie/680"
    then inr (details_of (Samples.tmdb_movie 680 "Pulp Fiction"))
    else inl (Error "Request failed with status code 404");
  answer_genres := fun _ => inl (Error "timeout");
|}.

End MoreSamples.

(** * Properties *)

(** ** Running observables *)

Lemma switchMap_run {W A B} (src : Obs W A) (project : A -> Obs W B) (w : W) :
  switchMap src project w
  = match src w with
    | (Next a, w') => project a w'
    | (Thrown e, w') => (Thrown e, w')
    end.
Proof. reflexivity. Qed.

Lemma map_run {W A B} (src : Obs W A) (f : A -> B) (w : W) :
  map_ src f w
  = match src w with
    | (Next a, w') => (Next (f a), w')
    | (Thrown e, w') => (Thrown e, w')
    end.
Proof. unfold map_, switchMap, of_. by destruct (src w) as [[a|e] w']. Qed.

(** ** Repository lemmas *)

Section Repository.
Context {A : Type} (key : A -> Z).

Lemma findOne_Some (where_ : A -> bool) (rows : list A) (r : A) :
  findOne where_ rows = Some r -> r ∈ rows /\ where_ r = true.
Proof.
  unfold findOne. intros H. apply find_some in H as [Hin Hp].
  split; [by apply list_elem_of_In | done].
Qed.

Lemma findOne_None (where_ : A -> bool) (rows : list A) :
  findOne where_ rows = None -> forall r, r ∈ rows -> where_ r = false.
Proof.
  unfold findOne. intros H r Hin.
  apply (find_none _ _ H). by apply list_elem_of_In.
Qed.

Lemma existsb_key_elem (e : A) (rows : list A) :
  existsb (fun r => key r =? key e) rows = true <-> key e ∈ List.map key rows.
Proof.
  rewrite existsb_exists. split.
  - intros (x & Hin & Heq). apply Z.eqb_eq in Heq. rewrite <- Heq.
    apply list_elem_of_In, in_map, Hin.
  - intros Hin. apply list_elem_of_In, in_map_iff in Hin as (x & Heq & Hin).
    exists x. split; [done | by apply Z.eqb_eq].
Qed.

(** Saving an entity loaded from the store rewrites its own row, in place. *)
Lemma save_row_insert (e r : A) (rows : list A) (i : nat) :
  NoDup (List.map key rows) ->
  rows !! i = Some r ->
  key e = key r ->
  save_row key e rows = <[i := e]> rows.
Proof.
  intros Hnd Hi Hk. unfold save_row.
  assert (Hex : existsb (fun x => key x =? key e) rows = true).
  { apply existsb_key_elem. rewrite Hk. apply list_elem_of_In, in_map.
    apply list_elem_of_In. by eapply list_elem_of_lookup_2. }
  rewrite Hex. clear Hex. rewrite Hk. clear Hk.
  revert i Hi Hnd. induction rows as [|x rows IH]; intros i Hi Hnd; [done |].
  simpl in Hnd. apply NoDup_cons in Hnd as [Hx Hnd].
  destruct i as [|i]; simpl in *.
  - injection Hi as ->. rewrite Z.eqb_refl. f_equal.
    rewrite <- (map_id rows) at 2. apply map_ext_in. intros y Hy.
    destruct (Z.eqb_spec (key y) (key r)) as [Heq|]; [|done].
    exfalso. apply Hx. rewrite <- Heq. apply list_elem_of_In, in_map, Hy.
  - destruct (Z.eqb_spec (key x) (key r)) as [Heq|].
    + exfalso. apply Hx. rewrite Heq. apply list_elem_of_In, in_map.
      apply list_elem_of_In. by eapply list_elem_of_lookup_2.
    + f_equal. by apply IH.
Qed.


Lemma findOne_other_key_remove (r : A) (k : Z) (rows : list A) :
  k <> key r ->
  findOne (fun x => key x =? k) (remove_row key r rows)
  = findOne (fun x => key x =? k) rows.
Proof.
  intros Hk. unfold findOne, remove_row.
  induction rows as [|x rows IH]; [done |].
  simpl. destruct (Z.eqb_spec (key x) (key r)) as [Heq|Hne]; simpl.
  - destruct (Z.eqb_spec (key x) k); [congruence | apply IH].
  - destruct (Z.eqb_spec (key x) k); [done | apply IH].
Qed.

Lemma findOne_other_key_save (e : A) (k : Z) (rows : list A) :
  k <> key e ->
  findOne (fun x => key x =? k) (save_row key e rows)
  = findOne (fun x => key x =? k) rows.
Proof.
  intros Hk. unfold save_row.
  destruct (existsb _ rows).
  - unfold findOne. induction rows as [|x rows IH]; [done |].
    simpl. destruct (Z.eqb_spec (key x) (key e)) as [Heq|Hne].
    + destruct (Z.eqb_spec (key e) k); [congruence |].
      destruct (Z.eqb_spec (key x) k); [congruence | apply IH].
    + destruct (Z.eqb_spec (key x) k); [done | apply IH].
  - unfold findOne. induction rows as [|x rows IH]; simpl.
    + destruct (Z.eqb_spec (key e) k); [congruence | done].
    + destruct (key x =? k); [done | apply IH].
Qed.

Lemma findOne_by_key_save (e : A) (rows : list A) :
  findOne (fun x => key x =? key e) (save_row key e rows) = Some e.
Proof.
  unfold save_row, findOne.
  destruct (existsb (fun r => key r =? key e) rows) eqn:Hex.
  - induction rows as [|x rows IH]; [done |].
    simpl in Hex |- *. destruct (Z.eqb_spec (key x) (key e)) as [Heq|Hne].
    + by rewrite Z.eqb_refl.
    + destruct (Z.eqb_spec (key x) (key e)); [done |]. by apply IH.
  - induction rows as [|x rows IH]; simpl in Hex |- *.
    + by rewrite Z.eqb_refl.
    + apply orb_false_iff in Hex as [Hx Hex]. rewrite Hx. by apply IH.
Qed.

End Repository.

(** ** Columns *)

Lemma round_half_away_near (x : Q) :
  (Qabs (inject_Z (round_half_away x) - x) <= 1 # 2)%Q.
Proof.
  unfold round_half_away. destruct (Qle_bool 0 x) eqn:Hsign.
  - pose proof (Qfloor_le (x + (1 # 2))) as Hle.
    pose proof (Qlt_floor (x + (1 # 2))) as Hlt.
    rewrite inject_Z_plus in Hlt. change (inject_Z 1) with 1%Q in Hlt.
    apply Qabs_Qle_condition. split; lra.
  - pose proof (Qfloor_le (- x + (1 # 2))) as Hle.
    pose proof (Qlt_floor (- x + (1 # 2))) as Hlt.
    rewrite inject_Z_plus in Hlt. change (inject_Z 1) with 1%Q in Hlt.
    rewrite inject_Z_opp.
    apply Qabs_Qle_condition. split; lra.
Qed.

(** The value a column with one decimal place holds is the multiple of
    1/10 nearest to the value written. *)
Lemma tenths_near (v : Q) : (Qabs (tenths v - v) <= 1 # 20)%Q.
Proof.
  pose proof (round_half_away_near (v * 10)) as H.
  apply Qabs_Qle_condition in H as [Hlo Hhi].
  unfold tenths. apply Qabs_Qle_condition.
  unfold Qdiv. change (/ 10)%Q with (1 # 10)%Q. split; lra.
Qed.

Lemma round_half_away_inject (z : Z) : round_half_away (inject_Z z) = z.
Proof.
  unfold round_half_away. destruct (Qle_bool 0 (inject_Z z)).
  - unfold Qfloor, Qplus, inject_Z. cbn [Qnum Qden].
    symmetry. apply (Z.div_unique _ _ _ 1); lia.
  - unfold Qfloor, Qplus, Qopp, inject_Z. cbn [Qnum Qden].
    assert (Hd : (- z * 2 + 1 * 1) / 2 = - z)
      by (symmetry; apply (Z.div_unique _ _ _ 1); lia).
    change (Z.pos (1 * 2)) with 2. lia.
Qed.

Lemma round_half_away_comp (x y : Q) : (x == y)%Q -> round_half_away x = round_half_away y.
Proof.
  intros Heq. unfold round_half_away.
  assert (H1 : Qle_bool 0 x = Qle_bool 0 y) by (by apply Qleb_comp).
  assert (H2 : Qfloor (x + (1 # 2)) = Qfloor (y + (1 # 2)))
    by (apply Qfloor_comp; by rewrite Heq).
  assert (H3 : Qfloor (- x + (1 # 2)) = Qfloor (- y + (1 # 2)))
    by (apply Qfloor_comp; by rewrite Heq).
  by rewrite H1, H2, H3.
Qed.

(** A value of the column is stored as it is. *)
Lemma round_half_away_tenths (v : Q) :
  round_half_away (tenths v * 10) = round_half_away (v * 10).
Proof.
  transitivity (round_half_away (inject_Z (round_half_away (v * 10))));
    [| apply round_half_away_inject].
  apply round_half_away_comp. unfold tenths. field.
Qed.

Lemma fits_tenths (precision : Z) (v : Q) : fits precision (tenths v) = fits precision v.
Proof. unfold fits. by rewrite round_half_away_tenths. Qed.

(** ** Rating service: create or update by (user, movie) *)

Section CreateOrUpdate.
Import RatingsService.

(** The statistics are never refreshed: the select list of the aggregate
    query has a plain column beside its aggregates and no [GROUP BY]. *)
Lemma updateRatingStatistics_fails (movieId : Z) (db : Db) :
  MoviesService.updateRatingStatistics_ movieId db = (Thrown QueryFailedError, db).
Proof. reflexivity. Qed.


Lemma createOrUpdate_run_existing
    (userId movieId : Z) (dto : CreateRatingDto) (db : Db) (movie : Movie.t)
    (user : User.t) (existing : Rating.t) :
  findOne (fun m => Movie.id m =? movieId) (movieRepository db) = Some movie ->
  findOne (fun u => User.id u =? userId) (userRepository db) = Some user ->
  findOne (by_user_movie userId movieId) (ratingRepository db) = Some existing ->
  fits 2 (cr_rating dto) = true ->
  let saved := set_review (or_string (cr_review dto) (Rating.review existing))
                 (set_rating (tenths (cr_rating dto)) existing) in
  createOrUpdate_ userId movieId dto db
  = (Thrown QueryFailedError,
     with_ratings (save_row Rating.id saved (ratingRepository db)) db).
Proof.
  intros Hmovie Huser Hex Hfits saved.
  unfold createOrUpdate_. rewrite !switchMap_run. unfold from_read.
  rewrite Hmovie, Huser, Hex. unfold save_rated, decimal_1. rewrite Hfits.
  unfold from_write, save_existing. fold saved.
  by rewrite map_run, updateRatingStatistics_fails.
Qed.

Lemma createOrUpdate_run_new
    (userId movieId : Z) (dto : CreateRatingDto) (db : Db) (movie : Movie.t)
    (user : User.t) :
  findOne (fun m => Movie.id m =? movieId) (movieRepository db) = Some movie ->
  findOne (fun u => User.id u =? userId) (userRepository db) = Some user ->
  findOne (by_user_movie userId movieId) (ratingRepository db) = None ->
  fits 2 (cr_rating dto) = true ->
  let created := Rating.mk (ratingSeq db) (tenths (cr_rating dto)) (cr_review dto)
                   userId movieId in
  createOrUpdate_ userId movieId dto db
  = (Thrown QueryFailedError,
     mkDb (movieRepository db) (userRepository db) (ratingRepository db ++ [created])
       (movieSeq db) (userSeq db) (ratingSeq db + 1)).
Proof.
  intros Hmovie Huser Hex Hfits created.
  unfold createOrUpdate_. rewrite !switchMap_run. unfold from_read.
  rewrite Hmovie, Huser, Hex. unfold save_rated, decimal_1. rewrite Hfits.
  unfold from_write, save_new. fold created.
  by rewrite map_run, updateRatingStatistics_fails.
Qed.

Lemma createOrUpdate_run_refused
    (userId movieId : Z) (dto : CreateRatingDto) (db : Db) (movie : Movie.t)
    (user : User.t) :
  findOne (fun m => Movie.id m =? movieId) (movieRepository db) = Some movie ->
  findOne (fun u => User.id u =? userId) (userRepository db) = Some user ->
  fits 2 (cr_rating dto) = false ->
  createOrUpdate_ userId movieId dto db = (Thrown QueryFailedError, db).
Proof.
  intros Hmovie Huser Hfits.
  unfold createOrUpdate_. rewrite !switchMap_run. unfold from_read.
  rewrite Hmovie, Huser. unfold save_rated, decimal_1. rewrite Hfits.
  by destruct (findOne _ (ratingRepository db)).
Qed.

Lemma createOrUpdate_run_missing
    (userId movieId : Z) (dto : CreateRatingDto) (db : Db) :
  findOne (fun m => Movie.id m =? movieId) (movieRepository db) = None
  \/ findOne (fun u => User.id u =? userId) (userRepository db) = None ->
  exists message,
    createOrUpdate_ userId movieId dto db = (Thrown (NotFoundException message), db).
Proof.
  intros H. unfold createOrUpdate_, switchMap, from_read.
  destruct (findOne (fun m => Movie.id m =? movieId) (movieRepository db));
    [| by eexists].
  destruct H as [H|H]; [done |]. rewrite H. by eexists.
Qed.


End CreateOrUpdate.

(** ** Rating service: ownership checks before update and delete *)

Section Ownership.
Import RatingsService.




End Ownership.

(** ** Rating service: statistics of a movie *)

Section RatingStats.
Import RatingsService.




End RatingStats.

(** ** User service: uniqueness checks before insert *)

Section Registration.
Import UsersService.
Context `{Bcrypt}.

(** C4 (as amended). [create$] looks the username and the email up before
    it inserts: a taken username gives ['Username already exists']; a
    free username with a taken email gives ['Email already exists']; in
    both cases the store is unchanged; when neither is taken exactly one
    row with the requested username and email is appended. *)
Theorem create_checks_uniqueness_before_insert (dto : CreateUserDto) (db : Db) :
  let out := create_ dto db in
  match findOne (fun u => String.eqb (User.username u) (cu_username dto))
          (userRepository db),
        findOne (fun u => String.eqb (User.email u) (cu_email dto))
          (userRepository db) with
  | Some _, _ =>
      out = (Thrown (ConflictException "Username already exists"), db)
  | None, Some _ =>
      out = (Thrown (ConflictException "Email already exists"), db)
  | None, None =>
      exists (saved row : User.t),
        out.1 = Next saved
        /\ userRepository out.2 = userRepository db ++ [row]
        /\ User.username saved = cu_username dto
        /\ User.email saved = cu_email dto
        /\ User.username row = cu_username dto
        /\ User.email row = cu_email dto
        /\ User.id row = User.id saved
        /\ movieRepository out.2 = movieRepository db
        /\ ratingRepository out.2 = ratingRepository db
  end.
Proof.
  intros out. subst out. unfold create_, switchMap, from_read.
  destruct (findOne _ _); [done |].
  destruct (findOne _ _); [done |].
  unfold from_write, save_new. simpl.
  eexists _, _. repeat split; unfold hashPassword;
    by destruct (_ && _).
Qed.

End Registration.

(** C4, as stated, fails: when both the username and the email are taken
    the error is ['Username already exists'], not ['Email already exists']. *)
Lemma create_email_conflict_counterexample :
  ~ (forall (B : Bcrypt) (dto : CreateUserDto) (db : Db),
       (exists u, u ∈ userRepository db /\ User.email u = cu_email dto) ->
       (UsersService.create_ dto db).1
       = Thrown (ConflictException "Email already exists")).
Proof.
  intros Hclaim.
  specialize (Hclaim Samples.bcrypt
                {| cu_username := "alice"; cu_email := "alice@example.com";
                   cu_password := "Passw0rd!"; cu_firstName := None;
                   cu_lastName := None |}
                Samples.db).
  assert (Hex : exists u, u ∈ userRepository Samples.db
                          /\ User.email u = "alice@example.com").
  { exists Samples.alice. split; [| done]. apply list_elem_of_here. }
  specialize (Hclaim Hex). vm_compute in Hclaim. discriminate Hclaim.
Qed.

(** ** User service: watchlist and favorites *)

Section Membership.
Import UsersService.
Context `{Bcrypt}.


Lemma hashPassword_id (u : User.t) : User.id (hashPassword u) = User.id u.
Proof. unfold hashPassword. by destruct (_ && _). Qed.

Lemma hashPassword_watchlist (u : User.t) :
  User.watchlist (hashPassword u) = User.watchlist u.
Proof. unfold hashPassword. by destruct (_ && _). Qed.

Lemma hashPassword_favorites (u : User.t) :
  User.favorites (hashPassword u) = User.favorites u.
Proof. unfold hashPassword. by destruct (_ && _). Qed.


Ltac run_membership :=
  cbv delta [addToWatchlist_ addToFavorites_ removeFromWatchlist_
             removeFromFavorites_ findOne_ map_ switchMap from_read from_write
             of_ throwError user_by_id movie_by_id] in *;
  cbv beta in *.

Lemma addToWatchlist_run (userId movieId : Z) (db : Db) :
  addToWatchlist_ userId movieId db
  = match user_by_id userId db, movie_by_id movieId db with
    | None, _ => (Thrown (not_found "User" userId), db)
    | Some _, None => (Thrown (not_found "Movie" movieId), db)
    | Some u, Some m =>
        if in_list movieId (User.watchlist u) then (Next u, db)
        else
          let u' := set_watchlist (Some (default [] (User.watchlist u) ++ [m])) u in
          (Next (hashPassword u'),
           with_users (save_row User.id (hashPassword u') (userRepository db)) db)
    end.
Proof.
  run_membership. destruct (findOne _ (userRepository db)); [| done].
  destruct (findOne _ (movieRepository db)); [| done].
  by destruct (in_list _ _).
Qed.

Lemma addToFavorites_run (userId movieId : Z) (db : Db) :
  addToFavorites_ userId movieId db
  = match user_by_id userId db, movie_by_id movieId db with
    | None, _ => (Thrown (not_found "User" userId), db)
    | Some _, None => (Thrown (not_found "Movie" movieId), db)
    | Some u, Some m =>
        if in_list movieId (User.favorites u) then (Next u, db)
        else
          let u' := set_favorites (Some (default [] (User.favorites u) ++ [m])) u in
          (Next (hashPassword u'),
           with_users (save_row User.id (hashPassword u') (userRepository db)) db)
    end.
Proof.
  run_membership. destruct (findOne _ (userRepository db)); [| done].
  destruct (findOne _ (movieRepository db)); [| done].
  by destruct (in_list _ _).
Qed.

Lemma removeFromWatchlist_run (userId movieId : Z) (db : Db) :
  removeFromWatchlist_ userId movieId db
  = match user_by_id userId db with
    | None => (Thrown (not_found "User" userId), db)
    | Some u =>
        match User.watchlist u with
        | None => (Next u, db)
        | Some l =>
            let u' := set_watchlist
                        (Some (List.filter (fun m => negb (Movie.id m =? movieId)) l)) u in
            (Next (hashPassword u'),
             with_users (save_row User.id (hashPassword u') (userRepository db)) db)
        end
    end.
Proof.
  run_membership. destruct (findOne _ (userRepository db)) as [u|]; [| done].
  by destruct (User.watchlist u).
Qed.

Lemma removeFromFavorites_run (userId movieId : Z) (db : Db) :
  removeFromFavorites_ userId movieId db
  = match user_by_id userId db with
    | None => (Thrown (not_found "User" userId), db)
    | Some u =>
        match User.favorites u with
        | None => (Next u, db)
        | Some l =>
            let u' := set_favorites
                        (Some (List.filter (fun m => negb (Movie.id m =? movieId)) l)) u in
            (Next (hashPassword u'),
             with_users (save_row User.id (hashPassword u') (userRepository db)) db)
        end
    end.
Proof.
  run_membership. destruct (findOne _ (userRepository db)) as [u|]; [| done].
  by destruct (User.favorites u).
Qed.

Section Relation.
Variable relation : User.t -> option (list Movie.t).
Variable set_relation : option (list Movie.t) -> User.t -> User.t.
Variables add remove : Z -> Z -> Obs Db User.t.

Hypothesis relation_set : forall v u, relation (set_relation v u) = v.
Hypothesis id_set : forall v u, User.id (set_relation v u) = User.id u.
Hypothesis relation_hash : forall u, relation (hashPassword u) = relation u.

Hypothesis add_run : forall userId movieId db,
  add userId movieId db
  = match user_by_id userId db, movie_by_id movieId db with
    | None, _ => (Thrown (not_found "User" userId), db)
    | Some _, None => (Thrown (not_found "Movie" movieId), db)
    | Some u, Some m =>
        if in_list movieId (relation u) then (Next u, db)
        else
          let u' := set_relation (Some (default [] (relation u) ++ [m])) u in
          (Next (hashPassword u'),
           with_users (save_row User.id (hashPassword u') (userRepository db)) db)
    end.

Hypothesis remove_run : forall userId movieId db,
  remove userId movieId db
  = match user_by_id userId db with
    | None => (Thrown (not_found "User" userId), db)
    | Some u =>
        match relation u with
        | None => (Next u, db)
        | Some l =>
            let u' := set_relation
                        (Some (List.filter (fun m => negb (Movie.id m =? movieId)) l)) u in
            (Next (hashPassword u'),
             with_users (save_row User.id (hashPassword u') (userRepository db)) db)
        end
    end.




End Relation.


End Membership.

(** ** User service: login *)

Section Login.
Import UsersService.
Context `{Bcrypt} `{JwtService}.

Lemma JwtPayload_claims (u : User.t) :
  dom (JwtPayload u) = ({["sub"; "username"; "email"]} : gset string)
  /\ size (JwtPayload u) = 3%nat
  /\ JwtPayload u !! "sub" = Some (JsNumber (User.id u))
  /\ JwtPayload u !! "username" = Some (JsString (User.username u))
  /\ JwtPayload u !! "email" = Some (JsString (User.email u)).
Proof.
  unfold JwtPayload. split; [| split; [| done]].
  - rewrite !dom_insert_L, dom_empty_L. set_solver.
  - rewrite !map_size_insert_None, map_size_empty; done.
Qed.

(** C10. A successful [login$] answers with the user's own properties
    except [password], and with the token signed from a payload that has
    exactly the three claims [sub] (the user's id), [username] and [email];
    a wrong password or an unknown user gives ['Invalid credentials']. *)
Theorem login_strips_password_and_signs_three_claims
    (username password : string) (db : Db) :
  match findOne (fun u => String.eqb (User.username u) username
                          || String.eqb (User.email u) username)
          (userRepository db) with
  | Some u =>
      if bcrypt_compare password (User.password u)
      then
        exists (response : AuthResponse) (payload : gmap string JsValue),
          login_ username password db = (Next response, db)
          /\ user response !! "password" = None
          /\ (forall k, k <> "password" ->
                user response !! k
                = properties (set_favorites None (set_watchlist None u)) !! k)
          /\ user response !! "id" = Some (JsNumber (User.id u))
          /\ accessToken response = jwt_sign payload
          /\ dom payload = ({["sub"; "username"; "email"]} : gset string)
          /\ size payload = 3%nat
          /\ payload !! "sub" = Some (JsNumber (User.id u))
          /\ payload !! "username" = Some (JsString (User.username u))
          /\ payload !! "email" = Some (JsString (User.email u))
      else
        login_ username password db
        = (Thrown (UnauthorizedException "Invalid credentials"), db)
  | None =>
      login_ username password db
      = (Thrown (UnauthorizedException "Invalid credentials"), db)
  end.
Proof.
  unfold login_, validateUser_, findByUsernameOrEmail_, map_, catchError, switchMap,
    from_read, of_, throwError.
  destruct (findOne _ (userRepository db)) as [u|]; [| done].
  change (User.password (set_favorites None (set_watchlist None u)))
    with (User.password u).
  destruct (bcrypt_compare password (User.password u)); [| done].
  eexists _, (JwtPayload u). split; [reflexivity |]. simpl.
  split; [apply lookup_delete_eq |].
  split; [by intros k Hk; rewrite lookup_delete_ne |].
  split; [done |]. split; [done |]. apply JwtPayload_claims.
Qed.

End Login.

(** ** External metadata client: retry with linear backoff *)

Section Retry.
Import TmdbService.
Context {A : Type}.
Variable url : string.
Variable params : list (string * string).
Variable answer : nat -> exception + A.
Variable fetched : A -> string.
Variable warning : option (nat -> string).

Local Abbreviation attempt := (TmdbService.attempt url params answer fetched).
Local Abbreviation notifier := (TmdbService.notifier warning).
Local Abbreviation schedule_from := (schedule_from (url, params)).

Lemma attempt_run (w : World) :
  attempt w
  = match answer (sent w) with
    | inl e => (Thrown e, mkWorld (db w) (S (sent w)) (trace w ++ [HttpGet url params]))
    | inr data =>
        (Next data,
         mkWorld (db w) (S (sent w))
           (trace w ++ [HttpGet url params; Logged LevelLog (fetched data)]))
    end.
Proof.
  unfold TmdbService.attempt, tap, httpService_get, switchMap, logger, emit, of_.
  destruct (answer (sent w)); simpl; [done |].
  by rewrite <- app_assoc.
Qed.

Lemma notifier_run (e : exception) (k : nat) (w : World) :
  exists warned,
    notifier e k w
    = (Next tt, mkWorld (db w) (sent w) (trace w ++ warned ++ [Timer (1000 * Z.of_nat k)]))
    /\ List.filter is_network warned = [].
Proof.
  unfold TmdbService.notifier, switchMap, logger, timer, emit.
  destruct warning as [text|]; simpl.
  - exists [Logged LevelWarn (text k)]. by rewrite <- app_assoc.
  - by exists [].
Qed.

Lemma retry_from_schedule (remaining soFar : nat) (w : World) :
  exists (retries : nat) (events : list Event),
    let out := retry_from remaining soFar notifier attempt w in
    (retries <= remaining)%nat
    /\ trace out.2 = trace w ++ events
    /\ sent out.2 = (sent w + S retries)%nat
    /\ db out.2 = db w
    /\ List.filter is_network events = schedule_from soFar retries
    /\ (forall k, (k < retries)%nat -> is_Some (failure (answer (sent w + k))))
    /\ match out.1 with
       | Thrown e =>
           retries = remaining
           /\ failure (answer (sent w + retries)) = Some e
       | Next data => answer (sent w + retries)%nat = inr data
       end.
Proof.
  revert soFar w. induction remaining as [|remaining IH]; intros soFar w.
  - exists O. simpl retry_from. rewrite attempt_run.
    destruct (answer (sent w)) as [e|data] eqn:Hans.
    + exists [HttpGet url params]. simpl.
      rewrite Nat.add_0_r, Hans. repeat split; try done; try lia.
    + exists [HttpGet url params; Logged LevelLog (fetched data)]. simpl.
      rewrite Nat.add_0_r, Hans. repeat split; try done; try lia.
  - simpl retry_from. rewrite attempt_run.
    destruct (answer (sent w)) as [e|data] eqn:Hans.
    + destruct (notifier_run e (S soFar)
                  (mkWorld (db w) (S (sent w)) (trace w ++ [HttpGet url params])))
        as (warned & Hrun & Hwarned).
      rewrite Hrun. simpl db in *. simpl sent in *. simpl trace in *.
      set (w2 := mkWorld _ _ _).
      destruct (IH (S soFar) w2) as (retries & events & Hle & Htr & Hsent & Hdb & Hnet & Hfail & Hout).
      exists (S retries), ([HttpGet url params] ++ warned ++ [Timer (1000 * Z.of_nat (S soFar))]
                           ++ events).
      cbv zeta in *. split; [lia |]. split.
      { rewrite Htr. subst w2. simpl. by rewrite <- !app_assoc. }
      split; [rewrite Hsent; subst w2; simpl; lia |].
      split; [by rewrite Hdb |].
      split.
      { rewrite !List.filter_app, Hwarned, Hnet. reflexivity. }
      split.
      { intros k Hk. destruct k as [|k].
        - rewrite Nat.add_0_r, Hans. by eexists.
        - replace (sent w + S k)%nat with (sent w2 + k)%nat by (subst w2; simpl; lia).
          apply Hfail. lia. }
      destruct (retry_from remaining (S soFar) notifier attempt w2).1 as [data|e'].
      * rewrite <- Hout. f_equal. subst w2. simpl. lia.
      * destruct Hout as (-> & Hlast). split; [done |].
        rewrite <- Hlast. do 2 f_equal. subst w2. simpl. lia.
    + exists O, [HttpGet url params; Logged LevelLog (fetched data)]. simpl.
      rewrite Nat.add_0_r, Hans. repeat split; try done; try lia.
Qed.

Variable failure_text : string.

Lemma fetch_schedule (w : World) :
  exists (retries : nat) (events : list Event),
    let out := fetch url params answer fetched warning failure_text w in
    (retries <= 3)%nat
    /\ trace out.2 = trace w ++ events
    /\ sent out.2 = (sent w + S retries)%nat
    /\ db out.2 = db w
    /\ List.filter is_network events = backoff_schedule (url, params) retries
    /\ (forall k, (k < retries)%nat -> is_Some (failure (answer (sent w + k))))
    /\ match out.1 with
       | Thrown e =>
           retries = 3%nat
           /\ failure (answer (sent w + 3)) = Some e
           /\ last events = Some (Logged LevelError failure_text)
       | Next data => answer (sent w + retries)%nat = inr data
       end.
Proof.
  destruct (retry_from_schedule 3 0 w)
    as (retries & events & Hle & Htr & Hsent & Hdb & Hnet & Hfail & Hout).
  cbv zeta in *. unfold fetch, retry, catchError.
  destruct (retry_from 3 0 notifier attempt w) as [[data|e] w'] eqn:Hrun; simpl in *.
  - exists retries, events. by repeat split.
  - exists retries, (events ++ [Logged LevelError failure_text]).
    destruct Hout as (-> & Hlast).
    unfold switchMap, logger, emit, throwError. simpl.
    repeat split; try done.
    + by rewrite Htr, app_assoc.
    + rewrite List.filter_app, Hnet. simpl. by rewrite ?app_nil_r.
    + by rewrite last_snoc.
Qed.

End Retry.

Section Fetch.
Context `{TmdbApi}.

(** C3. Every fetch operation of the TMDB client sends its request, and
    after a failure sends it again at most 3 times, the [k]-th retry after a
    timer of [k * 1000] ms; when the fourth request fails too, its error is
    logged at error level and is the error of the operation. *)
Theorem fetch_retries_three_times_with_linear_backoff (op : FetchOp) (w : World) :
  exists (retries : nat) (events : list Event),
    let out := perform op w in
    (retries <= 3)%nat
    /\ trace out.2 = trace w ++ events
    /\ sent out.2 = (sent w + S retries)%nat
    /\ List.filter is_network events = backoff_schedule (request_of op) retries
    /\ (forall k, (k < retries)%nat -> is_Some (failure_at op (sent w + k)))
    /\ match out.1 with
       | Some e =>
           retries = 3%nat
           /\ failure_at op (sent w + 3) = Some e
           /\ last events = Some (Logged LevelError (failure_message op))
       | None => failure_at op (sent w + retries) = None
       end.
Proof.
  destruct op; cbn [perform];
    cbv delta [TmdbService.getPopularMovies_ TmdbService.getTopRatedMovies_
               TmdbService.getNowPlayingMovies_ TmdbService.getUpcomingMovies_
               TmdbService.getMovieDetails_ TmdbService.searchMovies_
               TmdbService.discoverMovies_ TmdbService.getGenres_];
    cbv beta zeta;
    match goal with
    | |- context [TmdbService.fetch ?u ?p ?a ?f ?wn ?msg w] =>
        destruct (fetch_schedule u p a f wn msg w)
          as (retries & events & Hle & Htr & Hsent & _ & Hnet & Hfail & Hout);
        cbv zeta in *;
        destruct (TmdbService.fetch u p a f wn msg w) as [[data|e] w'] eqn:Hrun
    end;
    exists retries, events; simpl in *;
    unfold failure_at; cbn [request_of];
    (repeat split; try done);
    try (destruct Hout as (? & ? & ?); done);
    try (by rewrite Hout).
Qed.

End Fetch.

(** ** Synchronisation job: a sequential loop with a fixed delay *)

Section Sync.
Import TmdbSyncService.
Context `{MovieStore}.

Lemma saveMovie_run (input : TmdbInput) (w : World) :
  let id := tm_id (base input) in
  let d := db w in
  let ms := movieRepository d in
  saveMovie input w
  = match findOne (fun m => Movie.tmdbId m =? id) ms with
    | Some existing =>
        let row := merge existing input in
        match refusal ms row with
        | Some e =>
            (Thrown e,
             mkWorld d (sent w) (trace w ++ [RepoFindOne id; RepoSaveFailed id]))
        | None =>
            (Next row,
             mkWorld (with_movies (save_row Movie.id row ms) d) (sent w)
               (trace w ++ [RepoFindOne id; RepoSave id;
                            Logged LevelDebug ("Saved/Updated movie: " +:+ Movie.title row)]))
        end
    | None =>
        let row := created (movieSeq d) input in
        match refusal ms row with
        | Some e =>
            (Thrown e,
             mkWorld d (sent w) (trace w ++ [RepoFindOne id; RepoSaveFailed id]))
        | None =>
            (Next row,
             mkWorld
               (mkDb (ms ++ [row]) (userRepository d) (ratingRepository d)
                  (movieSeq d + 1) (userSeq d) (ratingSeq d))
               (sent w)
               (trace w ++ [RepoFindOne id; RepoSave id;
                            Logged LevelDebug ("Saved/Updated movie: " +:+ Movie.title row)]))
        end
    end.
Proof.
  intros id d ms. subst id d ms.
  unfold saveMovie, tap, switchMap, findOne_by_tmdbId, save, save_created, logger,
    emit, of_.
  cbn [db sent trace].
  destruct (findOne _ (movieRepository (db w))) as [existing|];
    destruct (refusal _ _); cbn [db sent trace];
    by rewrite <- ?app_assoc.
Qed.

(** One movie of the loop: its block of events, and never an error. *)
Lemma save_one_block (failure : string) (m : TmdbMovie) (w : World) :
  exists result block d',
    catchError
      (map_ (delay 100 (saveMovie (Basic m))) Some)
      (fun error =>
         switchMap (logger LevelError (failure +:+ pretty (tm_id m)))
           (fun _ => of_ None)) w
    = (Next result, mkWorld d' (sent w) (trace w ++ block))
    /\ movie_block failure m result block
    /\ d' = db (saveMovie (Basic m) w).2.
Proof.
  unfold catchError, map_, delay, switchMap at 1 2 3.
  rewrite saveMovie_run. cbn [base]. cbv zeta.
  destruct (findOne _ (movieRepository (db w))) as [existing|];
    destruct (refusal _ _) as [e|];
    unfold switchMap, timer, logger, emit, of_; cbn [db sent trace fst snd];
    rewrite <- ?app_assoc; simpl app;
    eexists _, _, _; (split; [reflexivity |]); (split; [| reflexivity]);
    first [apply block_failed | by apply block_saved].
Qed.

Lemma save_each_sequential (failure : string) (movies : list TmdbMovie) (w : World) :
  exists results events d',
    save_each failure movies w = (Next results, mkWorld d' (sent w) (trace w ++ events))
    /\ sequential failure movies results events.
Proof.
  revert w. induction movies as [|m movies IH]; intros w.
  - exists [], [], (db w). split; [| constructor].
    unfold save_each. simpl. unfold of_. rewrite app_nil_r. by destruct w.
  - destruct (save_one_block failure m w) as (result & block & d1 & Hone & Hblock & _).
    destruct (IH (mkWorld d1 (sent w) (trace w ++ block)))
      as (results & events & d' & Hrest & Hseq).
    exists (result :: results), (block ++ events), d'.
    split; [| by constructor].
    unfold save_each in *. cbn [concatMap].
    rewrite switchMap_run, Hone, map_run, Hrest.
    cbn [sent trace]. by rewrite app_assoc.
Qed.

(** In a sequential run the saves are attempted in the order of the list,
    one per movie. *)
Lemma sequential_order (failure : string) (movies : list TmdbMovie)
    (results : list (option Movie.t)) (events : list Event) :
  sequential failure movies results events ->
  List.map save_attempt_id (List.filter is_save_attempt events) = List.map tm_id movies
  /\ length results = length movies.
Proof.
  induction 1 as [|m movies result results block events Hblock Hseq [IH1 IH2]];
    [done |].
  rewrite List.filter_app, List.map_app, IH1. simpl. rewrite IH2.
  by destruct Hblock.
Qed.

Context `{TmdbApi}.

(** C7. The synchronisation jobs save their movies in a sequential loop:
    the events of a run are the blocks of the movies, one after the other
    in the order of the list; a block is the lookup and the save of the
    movie followed by the timer of 100 ms, or, when the save fails, the
    lookup and the rejected save followed by the error line, after which
    the loop goes on with the next movie and the job still completes. *)
Theorem sync_is_a_sequential_loop_with_fixed_delay :
  (forall (failure : string) (movies : list TmdbMovie) (w : World),
     exists results events d',
       save_each failure movies w
       = (Next results, mkWorld d' (sent w) (trace w ++ events))
       /\ sequential failure movies results events
       /\ List.map save_attempt_id (List.filter is_save_attempt events)
          = List.map tm_id movies
       /\ length results = length movies)
  /\ (forall (categories : Categories) (w : World),
        exists results events d',
          syncInitialMovies categories w
          = (Next tt,
             mkWorld d' (sent w)
               (trace w ++ events
                ++ [Logged LevelLog ("Initial sync completed. Saved "
                                     +:+ saved_count results +:+ " movies")]))
          /\ sequential "Error saving movie " (deduplicate categories) results events)
  /\ (forall w : World,
        let started :=
          mkWorld (db w) (sent w)
            (trace w ++ [Logged LevelLog "Starting scheduled popular movies sync..."]) in
        match TmdbService.getPopularMovies_ 1 started with
        | (Thrown e, w') => syncPopularMovies w = (Thrown e, w')
        | (Next response, fetched) =>
            exists results events d',
              syncPopularMovies w
              = (Next tt,
                 mkWorld d' (sent fetched)
                   (trace fetched ++ events
                    ++ [Logged LevelLog ("Synced " +:+ saved_count results
                                         +:+ " popular movies")]))
              /\ sequential "Error syncing movie " (tr_results response) results events
        end).
Proof.
  split; [| split].
  - intros failure movies w.
    destruct (save_each_sequential failure movies w) as (results & events & d' & Hrun & Hseq).
    exists results, events, d'. split; [done |]. split; [done |].
    by eapply sequential_order.
  - intros categories w.
    destruct (save_each_sequential "Error saving movie " (deduplicate categories) w)
      as (results & events & d' & Hrun & Hseq).
    exists results, events, d'. split; [| done].
    unfold syncInitialMovies. rewrite map_run. unfold tap.
    rewrite switchMap_run, Hrun, switchMap_run.
    unfold logger, emit, of_. cbn [db sent trace]. by rewrite <- app_assoc.
  - intros w started. unfold syncPopularMovies.
    assert (Hstart : logger LevelLog "Starting scheduled popular movies sync..." w
                     = (Next tt, started)) by reflexivity.
    rewrite switchMap_run, Hstart, map_run. unfold tap. rewrite !switchMap_run.
    destruct (TmdbService.getPopularMovies_ 1 started) as [[response|e] fetched];
      [| done].
    destruct (save_each_sequential "Error syncing movie " (tr_results response) fetched)
      as (results & events & d' & Hrun & Hseq).
    exists results, events, d'. split; [| done].
    rewrite Hrun. unfold logger, emit, of_, switchMap. cbn [db sent trace].
    by rewrite <- app_assoc.
Qed.

End Sync.

(** ** Synchronisation job: the user rating statistics are a frame *)

Section SyncFrame.
Import TmdbSyncService.
Context `{MovieStore} `{TmdbApi}.

Lemma rating_statistics_kept_refl (ms : list Movie.t) : rating_statistics_kept ms ms.
Proof. intros i m Hi. by exists m. Qed.

Lemma rating_statistics_kept_trans (a b c : list Movie.t) :
  rating_statistics_kept a b -> rating_statistics_kept b c -> rating_statistics_kept a c.
Proof.
  intros Hab Hbc i m Hi.
  destruct (Hab i m Hi) as (m1 & Hi1 & Hid1 & Havg1 & Hcnt1).
  destruct (Hbc i m1 Hi1) as (m2 & Hi2 & Hid2 & Havg2 & Hcnt2).
  exists m2. repeat split; congruence.
Qed.

Lemma kept_trans (w1 w2 w3 : World) :
  kept w1 w2 -> kept w2 w3 -> kept w1 w3.
Proof.
  intros [H12 _] [H23 Hc]. split; [| done].
  by eapply rating_statistics_kept_trans.
Qed.

Lemma kept_same_db (w out : World) :
  movies_consistent (db w) -> db out = db w -> kept w out.
Proof.
  intros Hc Hdb. unfold kept. rewrite Hdb. split; [apply rating_statistics_kept_refl | done].
Qed.

Lemma saveMovie_kept (input : TmdbInput) (w : World) :
  movies_consistent (db w) -> kept w (saveMovie input w).2.
Proof.
  intros [Hids Hseq]. rewrite saveMovie_run. cbv zeta.
  destruct (findOne _ (movieRepository (db w))) as [existing|] eqn:Hfind.
  - destruct (refusal _ _); [by apply kept_same_db |].
    apply findOne_Some in Hfind as [Hin _].
    apply list_elem_of_lookup in Hin as [i Hi].
    unfold kept, movies_consistent. cbn [snd db movieRepository with_movies movieSeq].
    rewrite (save_row_insert Movie.id (merge existing input) existing _ i Hids Hi eq_refl).
    split; [| split].
    + intros j m Hj. destruct (decide (j = i)) as [->|Hne].
      * rewrite Hi in Hj. injection Hj as <-.
        exists (merge existing input). split; [| done].
        apply list_lookup_insert_eq. by eapply lookup_lt_Some.
      * exists m. by rewrite list_lookup_insert_ne.
    + change (List.map Movie.id) with (fmap (M:=list) Movie.id).
      rewrite list_fmap_insert, list_insert_id; [done |].
      by rewrite list_lookup_fmap, Hi.
    + apply Forall_insert; [done |]. simpl.
      eapply (proj1 (Forall_lookup _ _)) in Hseq; [apply Hseq | apply Hi].
  - destruct (refusal _ _); [by apply kept_same_db |].
    unfold kept, movies_consistent. cbn [snd db movieRepository movieSeq].
    split; [| split].
    + intros j m Hj. exists m. split; [| done]. by apply lookup_app_l_Some.
    + rewrite List.map_app. apply NoDup_app. split; [done |]. split.
      * intros k Hk Hk'. simpl in Hk'. apply list_elem_of_singleton in Hk'. subst k.
        apply list_elem_of_In, in_map_iff in Hk as (x & Hx & Hin).
        apply list_elem_of_In in Hin.
        eapply (proj1 (Forall_forall _ _)) in Hseq; [| apply Hin]. simpl in Hseq. lia.
      * simpl. apply NoDup_singleton.
    + apply Forall_app. split.
      * eapply Forall_impl; [apply Hseq |]. intros m Hm. simpl in *. lia.
      * apply Forall_singleton. simpl. lia.
Qed.

Lemma save_each_kept (failure : string) (movies : list TmdbMovie) (w : World) :
  movies_consistent (db w) -> kept w (save_each failure movies w).2.
Proof.
  revert w. induction movies as [|m movies IH]; intros w Hc.
  - by apply kept_same_db.
  - destruct (save_one_block failure m w) as (result & block & d1 & Hone & _ & Hd1).
    unfold save_each in *. cbn [concatMap].
    rewrite switchMap_run, Hone, map_run.
    pose proof (saveMovie_kept (Basic m) w Hc) as Hstep.
    set (w1 := mkWorld d1 (sent w) (trace w ++ block)) in *.
    assert (H1 : kept w w1).
    { unfold kept in *. subst w1. cbn [db]. by rewrite Hd1. }
    pose proof (IH w1 (proj2 H1)) as Hrest.
    destruct (concatMap _ movies w1) as [[results|e] w2]; by eapply kept_trans.
Qed.

Lemma fetch_db {A} (url : string) (params : list (string * string))
    (answer : nat -> exception + A) (fetched : A -> string)
    (warning : option (nat -> string)) (failure_text : string) (w : World) :
  db (TmdbService.fetch url params answer fetched warning failure_text w).2 = db w.
Proof.
  destruct (fetch_schedule url params answer fetched warning failure_text w)
    as (retries & events & _ & _ & _ & Hdb & _).
  exact Hdb.
Qed.

Lemma syncInitialMovies_kept (categories : Categories) (w : World) :
  movies_consistent (db w) -> kept w (syncInitialMovies categories w).2.
Proof.
  intros Hc. unfold syncInitialMovies. rewrite map_run. unfold tap.
  rewrite switchMap_run.
  pose proof (save_each_kept "Error saving movie " (deduplicate categories) w Hc) as Hk.
  destruct (save_each _ _ w) as [[results|e] w1]; [| done].
  unfold switchMap, logger, emit, of_. by destruct w1.
Qed.

Lemma syncPopularMovies_kept (w : World) :
  movies_consistent (db w) -> kept w (syncPopularMovies w).2.
Proof.
  intros Hc. unfold syncPopularMovies.
  set (started := mkWorld (db w) (sent w)
                    (trace w ++ [Logged LevelLog "Starting scheduled popular movies sync..."])).
  assert (Hstart : logger LevelLog "Starting scheduled popular movies sync..." w
                   = (Next tt, started)) by reflexivity.
  rewrite switchMap_run, Hstart, map_run. unfold tap. rewrite !switchMap_run.
  pose proof (fetch_db _ _ _ _ _ _ started : db (TmdbService.getPopularMovies_ 1 started).2 = _)
    as Hdb.
  destruct (TmdbService.getPopularMovies_ 1 started) as [[response|e] fetched];
    cbn [snd] in Hdb; [| by apply kept_same_db].
  assert (Hf : kept w fetched) by (by apply kept_same_db).
  pose proof (save_each_kept "Error syncing movie " (tr_results response) fetched (proj2 Hf))
    as Hk.
  destruct (save_each _ _ fetched) as [[results|e] w1].
  - unfold switchMap, logger, emit, of_. destruct w1. by eapply kept_trans.
  - by eapply kept_trans.
Qed.

Lemma syncMovieDetails_kept (movieId : Z) (w : World) :
  movies_consistent (db w) -> kept w (syncMovieDetails movieId w).2.
Proof.
  intros Hc. unfold syncMovieDetails, catchError, tap. rewrite !switchMap_run.
  pose proof (fetch_db _ _ _ _ _ _ w : db (TmdbService.getMovieDetails_ movieId w).2 = _)
    as Hdb.
  destruct (TmdbService.getMovieDetails_ movieId w) as [[details|e] fetched];
    cbn [snd] in Hdb.
  - assert (Hf : kept w fetched) by (by apply kept_same_db).
    pose proof (saveMovie_kept (Detailed details) fetched (proj2 Hf)) as Hk.
    destruct (saveMovie (Detailed details) fetched) as [[movie|e] w1].
    + unfold switchMap, logger, emit, of_. destruct w1. by eapply kept_trans.
    + unfold switchMap, logger, emit, throwError. destruct w1. by eapply kept_trans.
  - unfold switchMap, logger, emit, throwError. by apply kept_same_db.
Qed.

Lemma kept_db (w out out' : World) :
  db out = db out' -> kept w out' -> kept w out.
Proof. unfold kept. by intros ->. Qed.

Lemma tap_logger_db {A} (src : Obs World A) (level : Level) (message : A -> string)
    (w : World) :
  db (tap src (fun a => logger level (message a)) w).2 = db (src w).2.
Proof.
  unfold tap. rewrite switchMap_run. by destruct (src w) as [[a|e] w'].
Qed.

Lemma rethrow_logged_db {A} (src : Obs World A) (level : Level) (message : string)
    (w : World) :
  db (catchError src
        (fun error => switchMap (logger level message) (fun _ => throwError error)) w).2
  = db (src w).2.
Proof. unfold catchError. by destruct (src w) as [[a|e] w']. Qed.

Lemma save_created_kept (input : TmdbInput) (w : World) :
  movies_consistent (db w) -> kept w (save_created input w).2.
Proof.
  intros [Hids Hseq]. unfold save_created. cbv zeta.
  destruct (refusal _ _); [by apply kept_same_db |].
  unfold kept, movies_consistent. cbn [snd db movieRepository movieSeq].
  split; [| split].
  - intros j m Hj. exists m. split; [| done]. by apply lookup_app_l_Some.
  - rewrite List.map_app. apply NoDup_app. split; [done |]. split.
    + intros k Hk Hk'. simpl in Hk'. apply list_elem_of_singleton in Hk'. subst k.
      apply list_elem_of_In, in_map_iff in Hk as (x & Hx & Hin).
      apply list_elem_of_In in Hin.
      eapply (proj1 (Forall_forall _ _)) in Hseq; [| apply Hin]. simpl in Hseq. lia.
    + simpl. apply NoDup_singleton.
  - apply Forall_app. split.
    + eapply Forall_impl; [apply Hseq |]. intros m Hm. simpl in *. lia.
    + apply Forall_singleton. simpl. lia.
Qed.

Lemma upsert_kept (details : TmdbMovieDetails) (w : World) :
  movies_consistent (db w) -> kept w (MoviesServiceSync.upsert details w).2.
Proof.
  intros Hc. unfold MoviesServiceSync.upsert. cbv zeta.
  destruct (findOne _ (movieRepository (db w))) as [existing|].
  - destruct (refusal _ _); [by apply kept_same_db |].
    destruct Hc as [Hids Hseq].
    unfold kept, movies_consistent. cbn [snd db movieRepository with_movies movieSeq].
    set (f := fun m : Movie.t => if Movie.tmdbId m =? tm_id (td_movie details)
                                 then merge m (Detailed details) else m).
    assert (Hid : forall m, Movie.id (f m) = Movie.id m).
    { intros m. unfold f. by destruct (_ =? _). }
    split; [| split].
    + intros j m Hj. exists (f m). split.
      * change (List.map f) with (fmap (M:=list) f). by rewrite list_lookup_fmap, Hj.
      * unfold f. by destruct (_ =? _).
    + rewrite List.map_map. erewrite map_ext; [exact Hids | exact Hid].
    + apply Forall_forall. intros m' Hin.
      apply list_elem_of_In, in_map_iff in Hin as (m & <- & Hin).
      rewrite Hid. apply list_elem_of_In in Hin.
      by eapply (proj1 (Forall_forall _ _)) in Hseq.
  - rewrite map_run.
    pose proof (save_created_kept (Detailed details) w Hc) as Hk.
    by destruct (save_created (Detailed details) w) as [[row|e] w1].
Qed.

Lemma findByTmdbId_kept (tmdbId : Z) (w : World) :
  movies_consistent (db w) -> kept w (MoviesServiceSync.findByTmdbId_ tmdbId w).2.
Proof.
  intros Hc. unfold MoviesServiceSync.findByTmdbId_.
  eapply kept_db; [apply rethrow_logged_db |].
  eapply kept_db; [apply tap_logger_db |].
  rewrite switchMap_run. unfold findOne_by_tmdbId.
  destruct (findOne _ (movieRepository (db w))) as [m|]; [by apply kept_same_db |].
  unfold MoviesServiceSync.fetchAndSaveFromTmdb_. rewrite switchMap_run.
  set (w0 := mkWorld (db w) (sent w) (trace w ++ [RepoFindOne tmdbId])).
  pose proof (fetch_db _ _ _ _ _ _ w0 : db (TmdbService.getMovieDetails_ tmdbId w0).2 = _)
    as Hdb.
  destruct (TmdbService.getMovieDetails_ tmdbId w0) as [[details|e] fetched];
    cbn [snd] in Hdb; [| by apply kept_same_db].
  assert (Hf : kept w fetched) by (by apply kept_same_db).
  eapply kept_trans; [exact Hf |]. apply save_created_kept, Hf.
Qed.

Lemma syncFromTmdb_kept (tmdbId : Z) (w : World) :
  movies_consistent (db w) -> kept w (MoviesServiceSync.syncFromTmdb_ tmdbId w).2.
Proof.
  intros Hc. unfold MoviesServiceSync.syncFromTmdb_.
  eapply kept_db; [apply rethrow_logged_db |].
  eapply kept_db; [apply tap_logger_db |].
  rewrite switchMap_run.
  pose proof (fetch_db _ _ _ _ _ _ w : db (TmdbService.getMovieDetails_ tmdbId w).2 = _)
    as Hdb.
  destruct (TmdbService.getMovieDetails_ tmdbId w) as [[details|e] fetched];
    cbn [snd] in Hdb; [| by apply kept_same_db].
  assert (Hf : kept w fetched) by (by apply kept_same_db).
  rewrite switchMap_run.
  pose proof (upsert_kept details fetched (proj2 Hf)) as Hu.
  destruct (MoviesServiceSync.upsert details fetched) as [[[]|e] w1];
    [| by eapply kept_trans].
  eapply kept_trans; [exact Hf |]. eapply kept_trans; [exact Hu |].
  apply findByTmdbId_kept, Hu.
Qed.

(** C9. [saveMovie] on a movie already in the store (matched by its TMDB
    id) returns a movie with the id and the user rating statistics of the
    stored one, and writes the row with the metadata of the external movie
    (the title, the overview, the paths, the release date when there is
    one, the vote average and the popularity as their columns hold them,
    the vote count, the genre ids, the genres when the input has them, the
    language, the original title and the flags) and with the id, the user
    rating average and the user rating count it had, and touches no other
    row; a refused save leaves the table as it was; and no path of the
    synchronisation service ([saveMovie], the loop of the two jobs,
    [syncInitialMovies], [syncPopularMovies], [syncMovieDetails]), nor
    [syncFromTmdb$] of the movie service, changes the user rating
    statistics of a stored movie. *)
Theorem sync_never_alters_user_rating_statistics (w : World) :
  movies_consistent (db w) ->
  (forall input : TmdbInput,
     kept w (saveMovie input w).2
     /\ forall existing,
          findOne (fun m => Movie.tmdbId m =? tm_id (base input))
            (movieRepository (db w)) = Some existing ->
          let after := movieRepository (db (saveMovie input w).2) in
          let external := base input in
          (forall e,
             refusal (movieRepository (db w)) (merge existing input) = Some e ->
             (saveMovie input w).1 = Thrown e /\ after = movieRepository (db w))
          /\ (refusal (movieRepository (db w)) (merge existing input) = None ->
              exists returned saved,
                (saveMovie input w).1 = Next returned
                /\ Movie.id returned = Movie.id existing
                /\ Movie.userRatingAverage returned = Movie.userRatingAverage existing
                /\ Movie.userRatingCount returned = Movie.userRatingCount existing
                /\ findOne (fun m => Movie.id m =? Movie.id existing) after = Some saved
                /\ Movie.id saved = Movie.id existing
                /\ Movie.userRatingAverage saved = Movie.userRatingAverage existing
                /\ Movie.userRatingCount saved = Movie.userRatingCount existing
                /\ Movie.tmdbId saved = tm_id external
                /\ Movie.title saved = tm_title external
                /\ Movie.overview saved = Some (tm_overview external)
                /\ Movie.posterPath saved = Some (tm_poster_path external)
                /\ Movie.backdropPath saved = Some (tm_backdrop_path external)
                /\ Movie.releaseDate saved
                   = (if String.eqb (tm_release_date external) ""
                      then Movie.releaseDate existing
                      else Some (tm_release_date external))
                /\ Movie.voteAverage saved = tenths (tm_vote_average external)
                /\ (Qabs (Movie.voteAverage saved - tm_vote_average external) <= 1 # 20)%Q
                /\ Movie.voteCount saved = tm_vote_count external
                /\ Movie.popularity saved = tenths (tm_popularity external)
                /\ (Qabs (Movie.popularity saved - tm_popularity external) <= 1 # 20)%Q
                /\ Movie.genreIds saved = default [] (tm_genre_ids external)
                /\ Movie.genres saved
                   = match input with
                     | Detailed details => Some (td_genres details)
                     | Basic _ => Movie.genres existing
                     end
                /\ Movie.originalLanguage saved = Some (tm_original_language external)
                /\ Movie.originalTitle saved = Some (tm_original_title external)
                /\ Movie.adult saved = tm_adult external
                /\ Movie.video saved = tm_video external
                /\ (forall i m,
                      movieRepository (db w) !! i = Some m ->
                      Movie.id m <> Movie.id existing ->
                      after !! i = Some m)))
  /\ (forall failure movies, kept w (save_each failure movies w).2)
  /\ (forall categories, kept w (syncInitialMovies categories w).2)
  /\ kept w (syncPopularMovies w).2
  /\ (forall movieId, kept w (syncMovieDetails movieId w).2)
  /\ (forall tmdbId, kept w (MoviesServiceSync.syncFromTmdb_ tmdbId w).2).
Proof.
  intros Hc. split; [| split; [| split; [| split; [| split]]]].
  - intros input. split; [by apply saveMovie_kept |].
    intros existing Hfind after external. subst after external.
    rewrite saveMovie_run. cbv zeta. rewrite Hfind. split.
    + intros e He. by rewrite He.
    + intros Hok. rewrite Hok.
      cbn [fst snd db movieRepository with_movies].
      exists (merge existing input), (merge existing input).
      do 4 (split; [done |]).
      split; [apply (findOne_by_key_save Movie.id (merge existing input)) |].
      do 8 (split; [done |]).
      split; [unfold merge, release_date_of; simpl;
              by destruct (String.eqb (tm_release_date (base input)) "") |].
      split; [done |]. split; [apply tenths_near |]. split; [done |].
      split; [done |]. split; [apply tenths_near |]. split; [done |].
      split; [by destruct input |].
      do 4 (split; [done |]).
      intros i m Hi Hne.
      pose proof (findOne_Some _ _ _ Hfind) as [Hin _].
      apply list_elem_of_lookup in Hin as [j Hj].
      rewrite (save_row_insert Movie.id (merge existing input) existing _ j
                 (proj1 Hc) Hj eq_refl).
      rewrite list_lookup_insert_ne; [done |]. intros ->. congruence.
  - intros failure movies. by apply save_each_kept.
  - intros categories. by apply syncInitialMovies_kept.
  - by apply syncPopularMovies_kept.
  - intros movieId. by apply syncMovieDetails_kept.
  - intros tmdbId. by apply syncFromTmdb_kept.
Qed.

End SyncFrame.

(** ** Movie listings: pagination is an offset/limit query *)

Section Listing.
Import MoviesListing.
Context `{SqlEngine} `{Pagination}.

Lemma page_lookup {A} (records : list A) (offset size i : nat) :
  firstn size (skipn offset records) !! i
  = if decide (i < size)%nat then records !! (offset + i)%nat else None.
Proof.
  destruct (decide (i < size)%nat) as [Hlt|Hge].
  - by rewrite lookup_take_lt, lookup_drop.
  - apply lookup_take_ge. lia.
Qed.

Lemma getManyAndCount_page (conditions : list Where) (order : string * option SortOrder)
    (p l : Z) (rows : list Movie.t) :
  order_known order.1 = true ->
  existsb ill_typed conditions = false ->
  1 <= p -> 1 <= l ->
  exists movies,
    getManyAndCount
      {| wheres := conditions; orderBy := order; skip := (p - 1) * l; take := l |} rows
    = Next (movies, Z.of_nat (length (matching conditions rows)))
    /\ is_page (new_PaginatedResponseDto movies
                  (Z.of_nat (length (matching conditions rows))) p l)
         (sorted_by order (matching conditions rows))
         (Z.of_nat (length (matching conditions rows))) p l.
Proof.
  intros Hknown Htyped Hp Hl. unfold getManyAndCount. cbn [skip take wheres orderBy].
  rewrite Hknown, Htyped. cbn [negb].
  destruct (Z.ltb_spec ((p - 1) * l) 0) as [Hneg|_]; [nia |].
  destruct (Z.ltb_spec l 0) as [Hneg|_]; [lia |]. simpl orb. cbv iota.
  unfold limited. destruct (Z.eqb_spec l 0) as [Hz|_]; [lia |]. cbn [andb].
  eexists. split; [reflexivity |].
  unfold is_page, new_PaginatedResponseDto. cbn [data meta_page meta_limit
    meta_totalItems meta_totalPages].
  split; [done |]. split; [intros i; apply page_lookup |].
  split; [| done].
  rewrite length_firstn. lia.
Qed.

Lemma getManyAndCount_ill_typed (q : SelectQuery) (rows : list Movie.t) :
  order_known (orderBy q).1 = true ->
  existsb ill_typed (wheres q) = true ->
  getManyAndCount q rows = Thrown QueryFailedError.
Proof. intros Hknown Hill. unfold getManyAndCount. by rewrite Hknown, Hill. Qed.

Lemma sort_column_known (sort : SortBy) :
  order_known ("movie." +:+ SortBy_value sort) = true.
Proof. by destruct sort. Qed.

(** The conditions of [findAll$] are well typed unless the query names
    genres. *)
Lemma createQueryBuilder_typed (query : QueryMovieDto.t) :
  existsb ill_typed (wheres (createQueryBuilder query))
  = match QueryMovieDto.genreIds query with
    | Some (_ :: _) => true
    | _ => false
    end.
Proof.
  unfold createQueryBuilder. cbn [wheres]. rewrite !existsb_app.
  destruct (truthy_string (QueryMovieDto.search query));
    destruct (QueryMovieDto.genreIds query) as [[|g gs]|];
    destruct (truthy_number (QueryMovieDto.yearFrom query)
              || truthy_number (QueryMovieDto.yearTo query));
    destruct (QueryMovieDto.minRating query);
    destruct (QueryMovieDto.maxRating query);
    destruct (truthy_string (QueryMovieDto.language query));
    destruct (QueryMovieDto.includeAdult query) as [[|]|]; reflexivity.
Qed.

(** C6. The movie listings that answer are offset/limit queries.  For
    [findAll$] with a page [p >= 1], a limit [l >= 1] and a sort column
    (what the validation of the query admits and defaults), and for
    [search$] with a limit [l >= 1] and a page [p >= 1], the records of the
    response are the sorted matching records without the first
    [(p - 1) * l], at most [l] of them, and the metadata reports the number
    of matching records and the number of pages computed from that number
    and [l].  [search$] with a page below 1 is refused (a negative
    offset); [findAll$] with genre ids and [findByGenre$] are refused
    whatever the page: their condition on [genreIds] is ill typed. *)
Theorem listings_are_offset_limit_queries (d : Db) :
  (forall (query : QueryMovieDto.t) (p l : Z) (sort : SortBy),
     QueryMovieDto.page query = Some p ->
     QueryMovieDto.limit query = Some l ->
     QueryMovieDto.sortBy query = Some sort ->
     1 <= p -> 1 <= l ->
     let q := createQueryBuilder query in
     let found := matching (wheres q) (movieRepository d) in
     skip q = (p - 1) * l /\ take q = l
     /\ match QueryMovieDto.genreIds query with
        | Some (_ :: _) => findAll_ query d = (Thrown QueryFailedError, d)
        | _ =>
            exists response,
              findAll_ query d = (Next response, d)
              /\ is_page response (sorted_by (orderBy q) found)
                   (Z.of_nat (length found)) p l
        end)
  /\ (forall (text : string) (p l : Z),
        1 <= l ->
        let found := matching [TitleILike ("%" +:+ text +:+ "%")] (movieRepository d) in
        if 1 <=? p
        then
          exists response,
            search_ text p l d = (Next response, d)
            /\ is_page response (sorted_by ("popularity", Some DESC) found)
                 (Z.of_nat (length found)) p l
        else search_ text p l d = (Thrown QueryFailedError, d))
  /\ (forall genreId p l : Z,
        findByGenre_ genreId p l d = (Thrown QueryFailedError, d)).
Proof.
  split; [| split].
  - intros query p l sort Hpage Hlimit Hsort Hp Hl q found.
    assert (Hskip : skip q = (p - 1) * l /\ take q = l).
    { subst q. unfold createQueryBuilder. cbn [skip take].
      rewrite Hpage, Hlimit. unfold or_number.
      destruct (Z.eqb_spec p 0), (Z.eqb_spec l 0); lia. }
    split; [apply Hskip |]. split; [apply Hskip |].
    assert (Hknown : order_known (orderBy q).1 = true).
    { subst q. unfold createQueryBuilder. cbn [orderBy fst]. rewrite Hsort.
      apply sort_column_known. }
    pose proof (createQueryBuilder_typed query) as Htyped. fold q in Htyped.
    unfold findAll_. rewrite map_run. unfold from_query. fold q.
    destruct (QueryMovieDto.genreIds query) as [[|g gs]|] eqn:Hgenres.
    2: { by rewrite (getManyAndCount_ill_typed q _ Hknown Htyped). }
    all: destruct (getManyAndCount_page (wheres q) (orderBy q) p l (movieRepository d)
                     Hknown Htyped Hp Hl) as (movies & Hrun & Hpg);
      exists (new_PaginatedResponseDto movies (Z.of_nat (length found)) p l);
      (split; [| done]);
      assert (Heta : q = {| wheres := wheres q; orderBy := orderBy q;
                            skip := (p - 1) * l; take := l |})
        by (destruct Hskip as [Hs Ht]; rewrite <- Hs, <- Ht; by destruct q);
      rewrite Heta, Hrun, Hpage, Hlimit; unfold or_number;
      destruct (Z.eqb_spec p 0), (Z.eqb_spec l 0); first [lia | done].
  - intros text p l Hl found. unfold search_. rewrite map_run. unfold from_query.
    destruct (Z.leb_spec 1 p) as [Hp|Hp].
    + destruct (getManyAndCount_page [TitleILike ("%" +:+ text +:+ "%")]
                  ("popularity", Some DESC) p l (movieRepository d)
                  eq_refl eq_refl Hp Hl) as (movies & Hrun & Hpg).
      eexists. split; [| exact Hpg]. by rewrite Hrun.
    + unfold getManyAndCount. cbn [skip take wheres orderBy fst existsb ill_typed].
      destruct (Z.ltb_spec ((p - 1) * l) 0) as [_|Hpos]; [done | nia].
  - intros genreId p l. unfold findByGenre_. rewrite map_run. unfold from_query.
    by rewrite getManyAndCount_ill_typed.
Qed.

End Listing.

(** ** The theorems at sample inputs *)

Ltac decide_closed :=
  match goal with |- ?P => apply (bool_decide_unpack P); vm_compute; exact I end.


Lemma sample_movies_consistent : movies_consistent Samples.db.
Proof.
  unfold movies_consistent. simpl. split.
  - decide_closed.
  - repeat constructor.
Qed.

Lemma sample_rated_movies_consistent : movies_consistent Samples.rated_db.
Proof.
  unfold movies_consistent. simpl. split.
  - decide_closed.
  - repeat constructor.
Qed.



(** C6 at the sample store: the second page of size one of a search, and
    a listing by genre. *)
Lemma listings_are_offset_limit_queries_witness :
  1 <= 1
  /\ (exists response,
        MoviesListing.search_ (H:=Samples.engine) (H0:=Samples.pagination)
          "fi" 2 1 Samples.db = (Next response, Samples.db)
        /\ data response = [Samples.movie 11 680 "Pulp Fiction"]
        /\ meta_totalPages response = 2)
  /\ MoviesListing.findByGenre_ (H:=Samples.engine) (H0:=Samples.pagination)
       28 1 20 Samples.db = (Thrown QueryFailedError, Samples.db).
Proof.
  assert (Hl : 1 <= 1) by lia.
  split; [exact Hl |].
  destruct (@listings_are_offset_limit_queries Samples.engine Samples.pagination
              Samples.db) as (_ & Tsearch & Tgenre).
  split; [| exact (Tgenre 28 1 20)].
  destruct (Tsearch "fi" 2 1 Hl) as (response & Hrun & Hdata & _ & _ & _ & Hpages & _).
  exists response. split; [exact Hrun |]. split; [exact Hdata |]. exact Hpages.
Defined.

(** C9 at a movie that has user ratings: the movie is saved again with
    what TMDB has for it now, and keeps its user rating statistics. *)
Lemma sync_never_alters_user_rating_statistics_witness :
  movies_consistent (db Samples.rated_world)
  /\ exists saved,
       findOne (fun m => Movie.id m =? 10)
         (movieRepository
            (db (TmdbSyncService.saveMovie (H:=Samples.store) (Basic Samples.external)
                   Samples.rated_world).2)) = Some saved
       /\ Movie.userRatingAverage saved = Some (78 # 10)%Q
       /\ Movie.userRatingCount saved = 2
       /\ Movie.title saved = "Fight Club"
       /\ Movie.voteAverage saved = (83 # 10)%Q
       /\ Movie.popularity saved = (614 # 10)%Q.
Proof.
  split; [exact sample_rated_movies_consistent |].
  destruct (proj2 (proj1 (@sync_never_alters_user_rating_statistics Samples.store
                            Samples.api Samples.rated_world
                            sample_rated_movies_consistent)
                     (Basic Samples.external))
              Samples.rated eq_refl) as [_ T].
  destruct (T eq_refl)
    as (returned & saved & _ & _ & _ & _ & Hfind & _ & Havg & Hcnt & _ & Htitle & _ & _ & _
        & _ & Hvote & _ & _ & Hpop & _).
  exists saved. split; [exact Hfind |]. split; [exact Havg |]. split; [exact Hcnt |].
  split; [exact Htitle |]. split; [rewrite Hvote; reflexivity |].
  rewrite Hpop. reflexivity.
Defined.


(** ** Runs of the services on the sample data *)

Example stats_of_sample_movie :
  exists stats,
    RatingsService.getMovieRatingStats_ 10 Samples.db = (Next stats, Samples.db)
    /\ average stats = (78 # 10)%Q
    /\ count stats = 2
    /\ distribution stats !! "8" = Some 1
    /\ distribution stats !! "7" = Some 1
    /\ distribution stats !! "9" = None.
Proof. eexists. split; [reflexivity |]. by vm_compute. Qed.

Example popular_movies_after_two_failures :
  trace (perform (H:=Samples.api) (PopularMovies 1) Samples.world).2
  = let url := "https://api.themoviedb.org/3/movie/popular" in
    let params := [("api_key", "key"); ("page", "1")] in
    [HttpGet url params;
     Logged LevelWarn "Retry attempt 1 for popular movies"; Timer 1000;
     HttpGet url params;
     Logged LevelWarn "Retry attempt 2 for popular movies"; Timer 2000;
     HttpGet url params;
     Logged LevelLog "Fetched 2 popular movies"].
Proof. by vm_compute. Qed.

Example details_fail_after_three_retries :
  perform (H:=Samples.api) (MovieDetails 550) Samples.world
  = (Some (Error "timeout"),
     mkWorld Samples.db 4
       (let url := "https://api.themoviedb.org/3/movie/550" in
        let params := [("api_key", "key")] in
        [HttpGet url params; Timer 1000; HttpGet url params; Timer 2000;
         HttpGet url params; Timer 3000; HttpGet url params;
         Logged LevelError "Error fetching movie 550 details"])).
Proof. by vm_compute. Qed.

Example loop_goes_on_after_a_failure :
  List.map (fun e => match e with
                     | Logged _ _ => None
                     | other => Some other
                     end)
    (trace (TmdbSyncService.save_each (H:=Samples.store) "Error syncing movie "
              [Samples.tmdb_movie 603 "The Matrix"; Samples.tmdb_movie 550 "Fight Club"]
              Samples.world).2)
  = [Some (RepoFindOne 603); Some (RepoSaveFailed 603); None;
     Some (RepoFindOne 550); Some (RepoSave 550); None; Some (Timer 100)].
Proof. by vm_compute. Qed.

Example username_conflict_comes_first :
  UsersService.create_ (H:=Samples.bcrypt)
    {| cu_username := "alice"; cu_email := "bob@example.com";
       cu_password := "Passw0rd!"; cu_firstName := None; cu_lastName := None |}
    Samples.db
  = (Thrown (ConflictException "Username already exists"), Samples.db).
Proof. reflexivity. Qed.

Example rating_again_overwrites_the_row :
  List.map (fun r => (Rating.id r, Rating.rating r, Rating.review r))
    (ratingRepository
       (RatingsService.createOrUpdate_ 2 10
          {| cr_rating := 9 # 2; cr_review := None |} Samples.db).2)
  = [(1, (17 # 2)%Q, None); (2, (45 # 10)%Q, Some "good")].
Proof. reflexivity. Qed.

Example a_rating_of_ten_is_not_written :
  RatingsService.createOrUpdate_ 2 11 {| cr_rating := 10 # 1; cr_review := None |} Samples.db
  = (Thrown QueryFailedError, Samples.db).
Proof. reflexivity. Qed.

Example a_written_rating_ends_in_the_error_of_the_refresh :
  (RatingsService.createOrUpdate_ 2 11 {| cr_rating := 9 # 2; cr_review := None |}
     Samples.db).1
  = Thrown QueryFailedError.
Proof. reflexivity. Qed.

Example first_rating_appends_a_row :
  List.map (fun r => (Rating.id r, Rating.userId r, Rating.movieId r))
    (ratingRepository
       (RatingsService.createOrUpdate_ 2 11
          {| cr_rating := 9 # 2; cr_review := None |} Samples.db).2)
  = [(1, 1, 10); (2, 2, 10); (3, 2, 11)].
Proof. reflexivity. Qed.

Example rating_of_a_missing_movie :
  RatingsService.createOrUpdate_ 2 99 {| cr_rating := 9 # 2; cr_review := None |} Samples.db
  = (Thrown (NotFoundException "Movie with ID 99 not found"), Samples.db).
Proof. by vm_compute. Qed.

Example only_the_owner_updates :
  RatingsService.update_ 1 2 {| up_rating := Some (1 # 1); up_review := None |} Samples.db
  = (Thrown (Error "You can only update your own ratings"), Samples.db).
Proof. reflexivity. Qed.

Example adding_twice_is_adding_once :
  let add := UsersService.addToWatchlist_ (H:=Samples.bcrypt) 2 11 in
  ids_of (User.watchlist
            (default Samples.bob (user_by_id 2 (add (add Samples.db).2).2)))
  = [11].
Proof. reflexivity. Qed.

Example login_of_alice :
  exists response,
    UsersService.login_ (H:=Samples.bcrypt) (H0:=Samples.jwt) "alice@example.com" "secret"
      Samples.db
    = (Next response, Samples.db)
    /\ accessToken response = "token:alice"
    /\ user response !! "password" = None
    /\ user response !! "username" = Some (JsString "alice").
Proof. eexists. split; [reflexivity |]. by vm_compute. Qed.


(** * Properties of the further operations *)

(** ** Rating service: lookups after writes, and the cached statistics *)

Section RatingsExtra.
Import RatingsService RatingsQueries.

Lemma findOne_replaced {A} (key : A -> Z) (p : A -> bool) (e s : A) (rows : list A) :
  findOne p rows = Some e ->
  p s = true ->
  findOne p (List.map (fun x => if key x =? key e then s else x) rows) = Some s.
Proof.
  intros Hfind Hs. unfold findOne in *.
  induction rows as [|x rows IH]; [done |]. simpl in *.
  destruct (Z.eqb_spec (key x) (key e)) as [Hk|Hk].
  - by rewrite Hs.
  - destruct (p x) eqn:Hx; [| by apply IH].
    injection Hfind as ->. done.
Qed.

Lemma findOne_app_None {A} (p : A -> bool) (rows : list A) (x : A) :
  findOne p rows = None -> p x = true -> findOne p (rows ++ [x]) = Some x.
Proof.
  unfold findOne. intros Hnone Hx. induction rows as [|y rows IH]; simpl in *.
  - by rewrite Hx.
  - destruct (p y); [done | by apply IH].
Qed.

Lemma save_row_found {A} (key : A -> Z) (p : A -> bool) (e s : A) (rows : list A) :
  findOne p rows = Some e ->
  key s = key e ->
  save_row key s rows = List.map (fun x => if key x =? key e then s else x) rows.
Proof.
  intros Hfind Hk. unfold save_row. rewrite Hk.
  replace (existsb (fun r => key r =? key e) rows) with true; [done |].
  symmetry. apply existsb_exists. exists e. split.
  - apply findOne_Some in Hfind as [Hin _]. by apply list_elem_of_In.
  - apply Z.eqb_refl.
Qed.

(** The rating [createOrUpdate$] writes for a stored user and a stored
    movie is the first of the pair in the table afterwards. *)
Lemma createOrUpdate_stored (userId movieId : Z) (dto : CreateRatingDto) (d : Db)
    (movie : Movie.t) (user : User.t) :
  findOne (fun m => Movie.id m =? movieId) (movieRepository d) = Some movie ->
  findOne (fun u => User.id u =? userId) (userRepository d) = Some user ->
  fits 2 (cr_rating dto) = true ->
  exists saved,
    findOne (by_user_movie userId movieId)
      (ratingRepository (createOrUpdate_ userId movieId dto d).2) = Some saved
    /\ Rating.rating saved = tenths (cr_rating dto)
    /\ Rating.userId saved = userId
    /\ Rating.movieId saved = movieId.
Proof.
  intros Hmovie Huser Hfits.
  destruct (findOne (by_user_movie userId movieId) (ratingRepository d))
    as [existing|] eqn:Hex.
  - rewrite (createOrUpdate_run_existing userId movieId dto d _ _ _ Hmovie Huser Hex Hfits).
    pose proof (findOne_Some _ _ _ Hex) as [_ Hkey].
    unfold by_user_movie in Hkey. apply andb_true_iff in Hkey as [Hu Hm].
    apply Z.eqb_eq in Hu, Hm.
    cbn [snd ratingRepository with_ratings]. eexists.
    erewrite save_row_found; [| exact Hex | reflexivity].
    split.
    { apply findOne_replaced; [done |].
      unfold by_user_movie. simpl. by rewrite Hu, Hm, !Z.eqb_refl. }
    done.
  - rewrite (createOrUpdate_run_new userId movieId dto d _ _ Hmovie Huser Hex Hfits).
    cbn [snd ratingRepository]. eexists. split.
    { apply findOne_app_None; [done |].
      unfold by_user_movie. simpl. by rewrite !Z.eqb_refl. }
    done.
Qed.

(** X1. A rating written by [createOrUpdate$] is the one
    [findUserRatingForMovie$] finds for the pair afterwards, with the value
    of the request as the rating column holds it (rounded to one decimal
    place); when the value does not fit the column, or the movie or the
    user is missing, the lookup answers as before. *)
Theorem createOrUpdate_then_findUserRatingForMovie
    (userId movieId : Z) (dto : CreateRatingDto) (d : Db) :
  let out := createOrUpdate_ userId movieId dto d in
  match movie_by_id movieId d, user_by_id userId d with
  | Some _, Some _ =>
      if fits 2 (cr_rating dto)
      then
        exists saved,
          findUserRatingForMovie_ userId movieId out.2 = (Next (Some saved), out.2)
          /\ Rating.rating saved = tenths (cr_rating dto)
          /\ Rating.userId saved = userId
          /\ Rating.movieId saved = movieId
      else
        findUserRatingForMovie_ userId movieId out.2
        = findUserRatingForMovie_ userId movieId d
  | _, _ =>
      findUserRatingForMovie_ userId movieId out.2
      = findUserRatingForMovie_ userId movieId d
  end.
Proof.
  intros out. unfold movie_by_id, user_by_id.
  destruct (findOne _ (movieRepository d)) as [movie|] eqn:Hmovie; cycle 1.
  { destruct (createOrUpdate_run_missing userId movieId dto d) as [msg Hrun];
      [by left |]. subst out. by rewrite Hrun. }
  destruct (findOne _ (userRepository d)) as [user|] eqn:Huser; cycle 1.
  { destruct (createOrUpdate_run_missing userId movieId dto d) as [msg Hrun];
      [by right |]. subst out. by rewrite Hrun. }
  destruct (fits 2 (cr_rating dto)) eqn:Hfits; cycle 1.
  { subst out. by rewrite (createOrUpdate_run_refused _ _ _ _ _ _ Hmovie Huser Hfits). }
  destruct (createOrUpdate_stored userId movieId dto d movie user Hmovie Huser Hfits)
    as (saved & Hfind & Hrest).
  exists saved. subst out. split; [| done].
  unfold findUserRatingForMovie_, catchError, from_read. by rewrite Hfind.
Qed.

(** X2. [updateRatingStatistics$] never refreshes the statistics: the
    select list of its aggregate query has the column [movie.id] beside
    [AVG] and [COUNT] and no [GROUP BY], which PostgreSQL refuses, so the
    call fails with the error of the query for every movie id, stored or
    not, and leaves the store as it was; the same select list grouped by
    [movie.id] would be accepted. *)
Theorem updateRatingStatistics_never_refreshes :
  ungrouped MoviesService.rating_stats_select = true
  /\ ungrouped {| plain := plain MoviesService.rating_stats_select;
                  aggregates := aggregates MoviesService.rating_stats_select;
                  groupBy := ["movie.id"] |} = false
  /\ (forall movieId d,
        MoviesService.updateRatingStatistics_ movieId d = (Thrown QueryFailedError, d)).
Proof.
  split; [reflexivity |]. split; [reflexivity |].
  intros movieId d. apply updateRatingStatistics_fails.
Qed.

(** X3. No write of the rating service comes back with a rating, and none
    touches the movies table, so the cached statistics of a movie stay as
    they were: [createOrUpdate$], [update$] and [remove$] always end in an
    error; for a stored movie and user, and for the owner of a rating, the
    error is the one of a refused statement (the statistics refresh, or a
    value the column refuses), and [remove$] raises it after the rating
    has been removed. *)
Theorem rating_writes_end_in_an_error (d : Db) :
  (forall userId movieId dto,
     let out := createOrUpdate_ userId movieId dto d in
     (exists e, out.1 = Thrown e)
     /\ movieRepository out.2 = movieRepository d
     /\ (is_Some (movie_by_id movieId d) -> is_Some (user_by_id userId d) ->
         out.1 = Thrown QueryFailedError))
  /\ (forall id userId dto,
        let out := update_ id userId dto d in
        (exists e, out.1 = Thrown e)
        /\ movieRepository out.2 = movieRepository d
        /\ (forall stored,
              findOne (fun r => Rating.id r =? id) (ratingRepository d) = Some stored ->
              Rating.userId stored = userId ->
              out.1 = Thrown QueryFailedError))
  /\ (forall id userId,
        let out := remove_ id userId d in
        (exists e, out.1 = Thrown e)
        /\ movieRepository out.2 = movieRepository d
        /\ (forall stored,
              findOne (fun r => Rating.id r =? id) (ratingRepository d) = Some stored ->
              Rating.userId stored = userId ->
              out = (Thrown QueryFailedError,
                     with_ratings (remove_row Rating.id stored (ratingRepository d)) d))).
Proof.
  split; [| split].
  - intros userId movieId dto out. subst out. unfold movie_by_id, user_by_id.
    destruct (findOne (fun m => Movie.id m =? movieId) (movieRepository d))
      as [movie|] eqn:Hmovie; cycle 1.
    { destruct (createOrUpdate_run_missing userId movieId dto d) as [msg Hrun];
        [by left |]. rewrite Hrun. split; [by eexists |]. split; [done |].
      by intros [? ?]. }
    destruct (findOne (fun u => User.id u =? userId) (userRepository d))
      as [user|] eqn:Huser; cycle 1.
    { destruct (createOrUpdate_run_missing userId movieId dto d) as [msg Hrun];
        [by right |]. rewrite Hrun. split; [by eexists |]. split; [done |].
      by intros _ [? ?]. }
    destruct (fits 2 (cr_rating dto)) eqn:Hfits; cycle 1.
    { rewrite (createOrUpdate_run_refused _ _ _ _ _ _ Hmovie Huser Hfits).
      split; [by eexists |]. done. }
    destruct (findOne (by_user_movie userId movieId) (ratingRepository d))
      as [existing|] eqn:Hex.
    + rewrite (createOrUpdate_run_existing _ _ _ _ _ _ _ Hmovie Huser Hex Hfits).
      split; [by eexists |]. done.
    + rewrite (createOrUpdate_run_new _ _ _ _ _ _ Hmovie Huser Hex Hfits).
      split; [by eexists |]. done.
  - intros id userId dto out. subst out. unfold update_, RatingsService.findOne_.
    rewrite !switchMap_run. unfold from_read.
    destruct (findOne _ (ratingRepository d)) as [stored|] eqn:Hfind;
      [| split; [by eexists | done]].
    unfold of_. destruct (Z.eqb_spec (Rating.userId stored) userId) as [Hown|Hother];
      cbn [negb].
    + unfold from_write, save_existing. rewrite map_run, updateRatingStatistics_fails.
      cbn [fst snd movieRepository with_ratings].
      split; [by eexists |]. split; [done |]. by intros stored' [= <-] _.
    + split; [by eexists |]. split; [done |]. intros stored' [= <-] Hown. done.
  - intros id userId out. subst out. unfold remove_, RatingsService.findOne_.
    rewrite !switchMap_run. unfold from_read.
    destruct (findOne _ (ratingRepository d)) as [stored|] eqn:Hfind;
      [| split; [by eexists | done]].
    unfold of_. destruct (Z.eqb_spec (Rating.userId stored) userId) as [Hown|Hother];
      cbn [negb].
    + rewrite map_run, switchMap_run. unfold from_write, remove.
      rewrite updateRatingStatistics_fails. cbn [fst snd movieRepository with_ratings].
      split; [by eexists |]. split; [done |]. by intros stored' [= <-] _.
    + split; [by eexists |]. split; [done |]. intros stored' [= <-] Hown. done.
Qed.

End RatingsExtra.

(** ** Rating service: what the statistics add up to *)

Section StatsExtra.
Import RatingsService RatingsQueries.

Lemma total_insert (key : string) (n : Z) (m : gmap string Z) :
  m !! key = None -> total (<[key := n]> m) = n + total m.
Proof.
  intros Hnone. unfold total.
  rewrite map_fold_insert_L; [done | | done].
  intros. lia.
Qed.

Lemma total_add_to_distribution (acc : gmap string Z) (r : Rating.t) :
  total (add_to_distribution acc r) = total acc + 1.
Proof.
  unfold add_to_distribution. cbv zeta.
  destruct (acc !! floor_key r) as [n|] eqn:Hkey.
  - rewrite <- (insert_delete_eq acc).
    rewrite total_insert by apply lookup_delete_eq.
    rewrite <- (insert_delete_id acc (floor_key r) n Hkey) at 2.
    rewrite total_insert by apply lookup_delete_eq.
    simpl. lia.
  - rewrite total_insert by done. simpl. lia.
Qed.

Lemma total_fold (rs : list Rating.t) (acc : gmap string Z) :
  total (fold_left add_to_distribution rs acc) = total acc + Z.of_nat (length rs).
Proof.
  revert acc. induction rs as [|r rs IH]; intros acc; simpl fold_left.
  - simpl. lia.
  - rewrite IH, total_add_to_distribution. simpl length. lia.
Qed.

Lemma positive_fold (rs : list Rating.t) (acc : gmap string Z) :
  map_Forall (fun _ n => 1 <= n) acc ->
  map_Forall (fun _ n => 1 <= n) (fold_left add_to_distribution rs acc).
Proof.
  revert acc. induction rs as [|r rs IH]; intros acc Hacc; [done |].
  simpl. apply IH. unfold add_to_distribution. cbv zeta.
  apply map_Forall_insert_2; [| done].
  destruct (acc !! floor_key r) as [n|] eqn:Hkey; simpl; [| lia].
  specialize (Hacc _ _ Hkey). simpl in Hacc. lia.
Qed.

(** X4. The distribution [getMovieRatingStats$] returns is a histogram of
    the ratings it counted: its counters are positive and add up to
    [count]. *)
Theorem distribution_adds_up_to_count (movieId : Z) (d : Db) :
  exists stats,
    getMovieRatingStats_ movieId d = (Next stats, d)
    /\ total (distribution stats) = count stats
    /\ (forall key n, distribution stats !! key = Some n -> 1 <= n).
Proof.
  exists (stats_of (rev (ratings_of movieId d))). split; [reflexivity |].
  generalize (rev (ratings_of movieId d)). intros rs.
  unfold stats_of. destruct rs as [|r rs0] eqn:Hrs; [done |].
  rewrite <- Hrs. cbn [distribution count]. split.
  - rewrite total_fold. unfold total. by rewrite map_fold_empty.
  - intros key n Hn. by apply (positive_fold rs ∅ (map_Forall_empty _) key n).
Qed.






End StatsExtra.

(** ** Referential integrity of the ratings *)

Section Integrity.
Import RatingsService.

Lemma updateRatingStatistics_refer (movieId : Z) (d : Db) :
  ratings_refer d -> ratings_refer (MoviesService.updateRatingStatistics_ movieId d).2.
Proof. by rewrite updateRatingStatistics_fails. Qed.

Lemma refer_after_write {A} (write : Obs Db A) (movieId_of : A -> Z) (d : Db) :
  ratings_refer (write d).2 ->
  ratings_refer
    (switchMap write
       (fun x => map_ (MoviesService.updateRatingStatistics_ (movieId_of x))
                   (fun _ => x)) d).2.
Proof.
  intros Href. rewrite switchMap_run.
  destruct (write d) as [[x|e] d1]; [| done]. rewrite map_run.
  pose proof (updateRatingStatistics_refer (movieId_of x) d1 Href) as H.
  by destruct (MoviesService.updateRatingStatistics_ (movieId_of x) d1) as [[m|e] d2].
Qed.

Lemma save_row_Forall {A} (key : A -> Z) (P : A -> Prop) (e : A) (rows : list A) :
  P e -> Forall P rows -> Forall P (save_row key e rows).
Proof.
  intros He Hrows. unfold save_row. destruct (existsb _ rows).
  - apply Forall_forall. intros x Hx.
    apply list_elem_of_In, in_map_iff in Hx as (y & <- & Hy).
    destruct (key y =? key e); [done |].
    apply list_elem_of_In in Hy. by eapply (proj1 (Forall_forall _ _)) in Hrows.
  - apply Forall_app. split; [done | by apply Forall_singleton].
Qed.

Lemma remove_row_Forall {A} (key : A -> Z) (P : A -> Prop) (e : A) (rows : list A) :
  Forall P rows -> Forall P (remove_row key e rows).
Proof.
  intros Hrows. unfold remove_row. apply Forall_forall. intros x Hx.
  apply list_elem_of_In, filter_In in Hx as [Hx _]. apply list_elem_of_In in Hx.
  by eapply (proj1 (Forall_forall _ _)) in Hrows.
Qed.

(** X6. No write leaves a rating that points at a missing user or movie:
    when every stored rating refers to a stored user and a stored movie,
    this still holds after [createOrUpdate$], [update$] and [remove$] of
    the rating service and after [remove$] of the user service, which takes
    the ratings of the removed user with it. *)
Theorem writes_keep_the_ratings_referring (d : Db) :
  ratings_refer d ->
  (forall userId movieId dto, ratings_refer (createOrUpdate_ userId movieId dto d).2)
  /\ (forall id userId dto, ratings_refer (update_ id userId dto d).2)
  /\ (forall id userId, ratings_refer (remove_ id userId d).2)
  /\ (forall id, ratings_refer (UsersAccount.remove_ id d).2).
Proof.
  intros Href. split; [| split; [| split]].
  - intros userId movieId dto. unfold createOrUpdate_. apply refer_after_write.
    rewrite switchMap_run. unfold from_read.
    destruct (findOne _ (movieRepository d)) as [movie|] eqn:Hmovie; [| done].
    destruct (findOne _ (userRepository d)) as [user|] eqn:Huser; [| done].
    assert (Hnew : forall r, Rating.userId r = userId -> Rating.movieId r = movieId ->
                             refers d r).
    { intros r Hu Hm. unfold refers, user_by_id, movie_by_id.
      rewrite Hu, Hm, Hmovie, Huser. eauto. }
    unfold save_rated, decimal_1.
    destruct (fits 2 (cr_rating dto));
      [| by destruct (findOne (by_user_movie userId movieId) (ratingRepository d))].
    destruct (findOne (by_user_movie userId movieId) (ratingRepository d))
      as [existing|] eqn:Hex.
    + unfold from_write, save_existing. cbn [snd]. unfold ratings_refer.
      cbn [ratingRepository with_ratings].
      apply findOne_Some in Hex as [_ Hkey]. unfold by_user_movie in Hkey.
      apply andb_true_iff in Hkey as [Hu Hm]. apply Z.eqb_eq in Hu, Hm.
      apply save_row_Forall; [by apply Hnew | exact Href].
    + unfold from_write, save_new. cbn [snd]. unfold ratings_refer.
      cbn [ratingRepository]. apply Forall_app. split; [exact Href |].
      apply Forall_singleton. by apply Hnew.
  - intros id userId dto. unfold update_. apply refer_after_write.
    unfold RatingsService.findOne_. rewrite !switchMap_run. unfold from_read.
    destruct (findOne _ (ratingRepository d)) as [stored|] eqn:Hfind; [| done].
    unfold of_. destruct (negb _); [done |].
    unfold from_write, save_existing. cbn [snd]. unfold ratings_refer.
    cbn [ratingRepository with_ratings].
    apply findOne_Some in Hfind as [Hin _].
    apply save_row_Forall; [| exact Href].
    eapply (proj1 (Forall_forall _ _)) in Href; [| exact Hin].
    by destruct (up_rating dto), (up_review dto).
  - intros id userId. unfold remove_, RatingsService.findOne_.
    rewrite !switchMap_run. unfold from_read.
    destruct (findOne _ (ratingRepository d)) as [stored|] eqn:Hfind; [| done].
    unfold of_. destruct (negb _); [done |]. rewrite map_run, switchMap_run.
    unfold from_write, remove.
    match goal with |- context [MoviesService.updateRatingStatistics_ ?k ?d1] =>
      pose proof (updateRatingStatistics_refer k d1) as H;
      destruct (MoviesService.updateRatingStatistics_ k d1) as [[m|e] d2]
    end; apply H; unfold ratings_refer; cbn [ratingRepository with_ratings];
      by apply remove_row_Forall.
  - intros id. unfold UsersAccount.remove_, UsersService.findOne_.
    rewrite map_run, !switchMap_run. unfold from_read.
    destruct (findOne _ (userRepository d)) as [u|] eqn:Hfind; [| done].
    unfold of_, from_write, UsersAccount.remove. cbn [snd]. unfold ratings_refer.
    cbn [ratingRepository]. apply Forall_forall. intros r Hr.
    apply list_elem_of_In, filter_In in Hr as [Hr Hother].
    apply list_elem_of_In in Hr.
    eapply (proj1 (Forall_forall _ _)) in Href; [| exact Hr].
    destruct Href as [Hu Hm]. split; [| done].
    unfold user_by_id in *. cbn [userRepository].
    rewrite findOne_other_key_remove; [done |].
    apply negb_true_iff, Z.eqb_neq in Hother. done.
Qed.

End Integrity.

(** ** User service: accounts *)

Section Accounts.
Import UsersService UsersAccount.
Context `{Bcrypt} `{JwtService}.

Lemma hashPassword_hashable (u : User.t) :
  hashable (User.password u) ->
  User.password (hashPassword u) = bcrypt_hash (User.password u).
Proof.
  intros [Hne Hpre]. unfold hashPassword. rewrite Hpre.
  destruct (String.eqb_spec (User.password u) ""); done.
Qed.

Lemma hashPassword_prefixed (u : User.t) :
  String.prefix "$2b$" (User.password u) = true -> hashPassword u = u.
Proof. intros Hpre. unfold hashPassword. rewrite Hpre. by rewrite andb_false_r. Qed.

Lemma hashPassword_names (u : User.t) :
  User.username (hashPassword u) = User.username u
  /\ User.email (hashPassword u) = User.email u.
Proof. unfold hashPassword. by destruct (_ && _). Qed.

(** X7. [changePassword$] checks the current password first: a wrong one
    gives ['Invalid current password'] and leaves the store untouched; with
    the right one only the password of that user changes, to the hash of
    the new password, or to the new password itself when it starts with
    ['$2b$'] (the hook takes it for a hash). *)
Theorem changePassword_checks_the_current_password
    (userId : Z) (oldPassword newPassword : string) (d : Db) :
  let out := changePassword_ userId oldPassword newPassword d in
  match user_by_id userId d with
  | None => exists message, out = (Thrown (NotFoundException message), d)
  | Some u =>
      if bcrypt_compare oldPassword (User.password u)
      then
        exists saved,
          out.1 = Next saved
          /\ user_by_id userId out.2 = Some saved
          /\ set_password (User.password u) saved = u
          /\ (hashable newPassword -> User.password saved = bcrypt_hash newPassword)
          /\ (String.prefix "$2b$" newPassword = true -> User.password saved = newPassword)
          /\ (forall k, k <> userId -> user_by_id k out.2 = user_by_id k d)
          /\ movieRepository out.2 = movieRepository d
          /\ ratingRepository out.2 = ratingRepository d
      else out = (Thrown (UnauthorizedException "Invalid current password"), d)
  end.
Proof.
  intros out. subst out. unfold changePassword_, UsersService.findOne_.
  rewrite !switchMap_run. unfold from_read, user_by_id.
  destruct (findOne _ (userRepository d)) as [u|] eqn:Hu; [| by eexists].
  unfold of_. destruct (bcrypt_compare oldPassword (User.password u)); [| done].
  pose proof (findOne_Some _ _ _ Hu) as [_ Hid]. apply Z.eqb_eq in Hid.
  unfold from_write, save. cbn [fst snd userRepository movieRepository ratingRepository
    with_users].
  eexists. split; [reflexivity |]. split.
  { subst userId.
    change (User.id u) with (User.id (set_password newPassword u)).
    rewrite <- (hashPassword_id (set_password newPassword u)).
    apply (findOne_by_key_save User.id). }
  split.
  { unfold hashPassword. destruct (_ && _); by destruct u. }
  split; [intros Hh; by rewrite hashPassword_hashable |].
  split; [intros Hp; by rewrite hashPassword_prefixed |].
  split; [| done].
  intros k Hk. apply (findOne_other_key_save User.id).
  rewrite hashPassword_id. simpl. congruence.
Qed.


Lemma user_by_name_appended (name : string) (row : User.t) (d : Db) (rows : list User.t) :
  findOne (fun u => String.eqb (User.username u) name) rows = None ->
  findOne (fun u => String.eqb (User.email u) name) rows = None ->
  User.username row = name ->
  findOne (fun u => String.eqb (User.username u) name || String.eqb (User.email u) name)
    (rows ++ [row]) = Some row.
Proof.
  intros Hname Hmail Hrow. apply findOne_app_None.
  - unfold findOne in *. induction rows as [|x rows IH]; [done |]. simpl in *.
    destruct (String.eqb (User.username x) name); [done |].
    destruct (String.eqb (User.email x) name); [done |]. by apply IH.
  - by rewrite Hrow, String.eqb_refl.
Qed.

Lemma login_run (name password : string) (d : Db) (u : User.t) :
  user_by_name name d = Some u ->
  bcrypt_compare password (User.password u) = true ->
  exists response,
    login_ name password d = (Next response, d)
    /\ user response !! "id" = Some (JsNumber (User.id u))
    /\ user response !! "password" = None.
Proof.
  intros Hu Hok. unfold login_, validateUser_, findByUsernameOrEmail_.
  rewrite map_run. unfold catchError. rewrite !switchMap_run. unfold from_read.
  unfold user_by_name in Hu. rewrite Hu. unfold of_.
  change (User.password (set_favorites None (set_watchlist None u)))
    with (User.password u).
  rewrite Hok. eexists. split; [reflexivity |]. simpl. split; [done |].
  apply lookup_delete_eq.
Qed.

(** X9. Credentials round trip, for a sound [bcrypt] and a password the
    hook hashes: a user registered with [create$] can log in with the
    username and the password of the registration (no stored user having
    that username as email), and after [changePassword$] the user can log
    in with the new password. *)
Theorem credentials_round_trip (d : Db) :
  bcrypt_sound ->
  (forall dto,
     hashable (cu_password dto) ->
     findOne (fun u => String.eqb (User.username u) (cu_username dto)) (userRepository d)
     = None ->
     findOne (fun u => String.eqb (User.email u) (cu_email dto)) (userRepository d)
     = None ->
     findOne (fun u => String.eqb (User.email u) (cu_username dto)) (userRepository d)
     = None ->
     exists saved response,
       (create_ dto d).1 = Next saved
       /\ login_ (cu_username dto) (cu_password dto) (create_ dto d).2
          = (Next response, (create_ dto d).2)
       /\ user response !! "id" = Some (JsNumber (User.id saved)))
  /\ (forall u oldPassword newPassword,
        hashable newPassword ->
        user_by_id (User.id u) d = Some u ->
        user_by_name (User.username u) d = Some u ->
        bcrypt_compare oldPassword (User.password u) = true ->
        let changed := (changePassword_ (User.id u) oldPassword newPassword d).2 in
        exists response,
          login_ (User.username u) newPassword changed = (Next response, changed)
          /\ user response !! "id" = Some (JsNumber (User.id u))).
Proof.
  intros Hsound. split.
  - intros dto Hhash Hname Hmail Hclash.
    unfold create_. rewrite switchMap_run. unfold from_read. rewrite Hname, Hmail.
    unfold from_write, save_new. cbn [fst snd].
    set (entity := hashPassword _).
    set (row := set_favorites (Some []) (set_watchlist (Some []) entity)).
    assert (Hpw : User.password row = bcrypt_hash (cu_password dto)).
    { subst row entity. cbn [User.password set_favorites set_watchlist].
      by rewrite hashPassword_hashable. }
    assert (Hrow : User.username row = cu_username dto).
    { subst row entity. cbn [User.username set_favorites set_watchlist].
      by rewrite (proj1 (hashPassword_names _)). }
    edestruct (login_run (cu_username dto) (cu_password dto)) as (response & Hrun & Hid & _);
      [| | exists entity, response; split; [done |]; split; [exact Hrun |]].
    + unfold user_by_name. cbn [userRepository].
      by apply (user_by_name_appended _ row d).
    + rewrite Hpw. apply Hsound.
    + rewrite Hid. subst row entity. cbn [User.id set_favorites set_watchlist]. done.
  - intros u oldPassword newPassword Hhash Hid Hname Hok changed.
    subst changed. unfold changePassword_, UsersService.findOne_.
    rewrite !switchMap_run. unfold from_read. unfold user_by_id in Hid. rewrite Hid.
    unfold of_. rewrite Hok. unfold from_write, save. cbn [snd].
    set (saved := hashPassword (set_password newPassword u)).
    assert (Hsid : User.id saved = User.id u)
      by exact (hashPassword_id (set_password newPassword u)).
    edestruct (login_run (User.username u) newPassword) as (response & Hrun & Hrid & _);
      [| | exists response; split; [exact Hrun |]; by rewrite Hrid, Hsid].
    + unfold user_by_name. cbn [userRepository with_users].
      erewrite save_row_found; [| exact Hid | exact Hsid].
      apply (findOne_replaced User.id); [exact Hname |].
      subst saved. rewrite (proj1 (hashPassword_names _)). simpl.
      by rewrite String.eqb_refl.
    + subst saved. rewrite hashPassword_hashable by done. apply Hsound.
Qed.

End Accounts.

(** ** User service: reading the watchlist and the favorites *)

Section Lists.
Import UsersService UsersAccount.
Context `{Bcrypt}.

Lemma getWatchlist_run (userId : Z) (d : Db) :
  getWatchlist_ userId d
  = match user_by_id userId d with
    | None => (Thrown (not_found "User" userId), d)
    | Some u => (Next (default [] (User.watchlist u)), d)
    end.
Proof.
  unfold getWatchlist_, UsersService.findOne_. rewrite map_run, switchMap_run.
  unfold from_read, user_by_id. by destruct (findOne _ _).
Qed.

Lemma getFavorites_run (userId : Z) (d : Db) :
  getFavorites_ userId d
  = match user_by_id userId d with
    | None => (Thrown (not_found "User" userId), d)
    | Some u => (Next (default [] (User.favorites u)), d)
    end.
Proof.
  unfold getFavorites_, UsersService.findOne_. rewrite map_run, switchMap_run.
  unfold from_read, user_by_id. by destruct (findOne _ _).
Qed.

Lemma user_by_id_after_save (userId : Z) (u s : User.t) (d : Db) :
  user_by_id userId d = Some u ->
  User.id s = User.id u ->
  user_by_id userId
    (with_users (save_row User.id (hashPassword s) (userRepository d)) d)
  = Some (hashPassword s).
Proof.
  intros Hu Hs. apply findOne_Some in Hu as [_ Hid]. apply Z.eqb_eq in Hid.
  unfold user_by_id. simpl. rewrite <- Hid, <- Hs, <- hashPassword_id.
  apply (findOne_by_key_save User.id).
Qed.

Lemma id_appended (m : Movie.t) (ms : list Movie.t) :
  Movie.id m ∈ List.map Movie.id (ms ++ [m]).
Proof.
  rewrite List.map_app. apply elem_of_app. right. apply list_elem_of_here.
Qed.

Lemma id_filtered (movieId : Z) (ms : list Movie.t) :
  movieId ∉ List.map Movie.id (List.filter (fun m => negb (Movie.id m =? movieId)) ms).
Proof.
  intros Hin. apply list_elem_of_In, in_map_iff in Hin as (m & Hid & Hm).
  apply filter_In in Hm as [_ Hm]. subst movieId. by rewrite Z.eqb_refl in Hm.
Qed.

Lemma in_list_default (movieId : Z) (l : option (list Movie.t)) :
  in_list movieId l = true -> movieId ∈ List.map Movie.id (default [] l).
Proof.
  destruct l as [ms|]; [| done]. simpl. intros Hin.
  apply existsb_exists in Hin as (m & Hm & Hid). apply Z.eqb_eq in Hid. subst movieId.
  apply list_elem_of_In, in_map. exact Hm.
Qed.

(** X10. [getWatchlist$] and [getFavorites$] read what the writes left: a
    successful add is followed by a list that holds the movie, a
    successful remove by one that does not, and the two lists are
    independent, a write to one never changes what is read from the
    other. *)
Theorem lists_read_what_was_written (userId movieId : Z) (d : Db) :
  let watchlist db := (getWatchlist_ userId db).1 in
  let favorites db := (getFavorites_ userId db).1 in
  (forall u, (addToWatchlist_ userId movieId d).1 = Next u ->
     exists ms, watchlist (addToWatchlist_ userId movieId d).2 = Next ms
                /\ movieId ∈ List.map Movie.id ms)
  /\ (forall u, (removeFromWatchlist_ userId movieId d).1 = Next u ->
        exists ms, watchlist (removeFromWatchlist_ userId movieId d).2 = Next ms
                   /\ movieId ∉ List.map Movie.id ms)
  /\ (forall u, (addToFavorites_ userId movieId d).1 = Next u ->
        exists ms, favorites (addToFavorites_ userId movieId d).2 = Next ms
                   /\ movieId ∈ List.map Movie.id ms)
  /\ (forall u, (removeFromFavorites_ userId movieId d).1 = Next u ->
        exists ms, favorites (removeFromFavorites_ userId movieId d).2 = Next ms
                   /\ movieId ∉ List.map Movie.id ms)
  /\ favorites (addToWatchlist_ userId movieId d).2 = favorites d
  /\ favorites (removeFromWatchlist_ userId movieId d).2 = favorites d
  /\ watchlist (addToFavorites_ userId movieId d).2 = watchlist d
  /\ watchlist (removeFromFavorites_ userId movieId d).2 = watchlist d.
Proof.
  intros watchlist favorites. subst watchlist favorites. cbv beta.
  rewrite addToWatchlist_run, removeFromWatchlist_run, addToFavorites_run,
    removeFromFavorites_run.
  destruct (user_by_id userId d) as [u|] eqn:Hu;
    [| repeat split; intros; simpl in *; done].
  repeat split.
  - intros u'. rewrite getWatchlist_run.
    destruct (movie_by_id movieId d) as [m|] eqn:Hm; [| done].
    apply findOne_Some in Hm as [_ Hid]. apply Z.eqb_eq in Hid.
    destruct (in_list movieId (User.watchlist u)) eqn:Hin; simpl; intros _.
    + rewrite Hu. eexists. split; [done |]. by apply in_list_default.
    + erewrite user_by_id_after_save by done. eexists. split; [done |].
      rewrite hashPassword_watchlist. simpl. rewrite <- Hid. apply id_appended.
  - intros u'. rewrite getWatchlist_run.
    destruct (User.watchlist u) as [l|] eqn:Hl; simpl; intros _.
    + erewrite user_by_id_after_save by done. eexists. split; [done |].
      rewrite hashPassword_watchlist. simpl. apply id_filtered.
    + rewrite Hu, Hl. eexists. split; [done |]. simpl. by intros ?%elem_of_nil.
  - intros u'. rewrite getFavorites_run.
    destruct (movie_by_id movieId d) as [m|] eqn:Hm; [| done].
    apply findOne_Some in Hm as [_ Hid]. apply Z.eqb_eq in Hid.
    destruct (in_list movieId (User.favorites u)) eqn:Hin; simpl; intros _.
    + rewrite Hu. eexists. split; [done |]. by apply in_list_default.
    + erewrite user_by_id_after_save by done. eexists. split; [done |].
      rewrite hashPassword_favorites. simpl. rewrite <- Hid. apply id_appended.
  - intros u'. rewrite getFavorites_run.
    destruct (User.favorites u) as [l|] eqn:Hl; simpl; intros _.
    + erewrite user_by_id_after_save by done. eexists. split; [done |].
      rewrite hashPassword_favorites. simpl. apply id_filtered.
    + rewrite Hu, Hl. eexists. split; [done |]. simpl. by intros ?%elem_of_nil.
  - rewrite !getFavorites_run, Hu.
    destruct (movie_by_id movieId d) as [m|]; simpl; [| by rewrite Hu].
    destruct (in_list movieId (User.watchlist u)); simpl; [by rewrite Hu |].
    erewrite user_by_id_after_save by done. by rewrite hashPassword_favorites.
  - rewrite !getFavorites_run, Hu.
    destruct (User.watchlist u) as [l|]; simpl; [| by rewrite Hu].
    erewrite user_by_id_after_save by done. by rewrite hashPassword_favorites.
  - rewrite !getWatchlist_run, Hu.
    destruct (movie_by_id movieId d) as [m|]; simpl; [| by rewrite Hu].
    destruct (in_list movieId (User.favorites u)); simpl; [by rewrite Hu |].
    erewrite user_by_id_after_save by done. by rewrite hashPassword_watchlist.
  - rewrite !getWatchlist_run, Hu.
    destruct (User.favorites u) as [l|]; simpl; [| by rewrite Hu].
    erewrite user_by_id_after_save by done. by rewrite hashPassword_watchlist.
Qed.

End Lists.

(** ** Synchronisation job: the deduplication of the categories *)

Section Deduplicate.
Import TmdbSyncService.

Lemma map_set_keys (k : Z) (v : TmdbMovie) (entries : list (Z * TmdbMovie)) :
  List.map fst (map_set k v entries)
  = if bool_decide (k ∈ List.map fst entries)
    then List.map fst entries
    else List.map fst entries ++ [k].
Proof.
  induction entries as [|[k' v'] entries IH]; [done |]. simpl.
  destruct (Z.eqb_spec k' k) as [->|Hne].
  - simpl. rewrite bool_decide_eq_true_2; [done | apply list_elem_of_here].
  - simpl. rewrite IH. destruct (bool_decide (k ∈ List.map fst entries)) eqn:Hin.
    + apply bool_decide_eq_true in Hin.
      rewrite bool_decide_eq_true_2; [done | by apply list_elem_of_further].
    + apply bool_decide_eq_false in Hin.
      rewrite bool_decide_eq_false_2; [done |].
      intros [?|?]%elem_of_cons; congruence.
Qed.

Lemma map_set_entries (k : Z) (v : TmdbMovie) (entries : list (Z * TmdbMovie)) :
  NoDup (List.map fst entries) ->
  forall k' v', (k', v') ∈ map_set k v entries
                <-> (k' = k /\ v' = v) \/ (k' <> k /\ (k', v') ∈ entries).
Proof.
  induction entries as [|[k0 v0] entries IH]; intros Hnd k' v'.
  - simpl. rewrite list_elem_of_singleton. split.
    + intros [= -> ->]. by left.
    + intros [[-> ->]|[_ ?%elem_of_nil]]; done.
  - simpl in Hnd. apply NoDup_cons in Hnd as [Hk0 Hnd]. simpl.
    destruct (Z.eqb_spec k0 k) as [->|Hne].
    + rewrite !elem_of_cons. split.
      * intros [[= -> ->]|Hin]; [by left |]. right. split; [| by right].
        intros ->. apply Hk0. apply list_elem_of_In, in_map_iff.
        exists (k, v'). split; [done | by apply list_elem_of_In].
      * intros [[-> ->]|[Hk [[= -> ->]|Hin]]]; [by left | done | by right].
    + rewrite !elem_of_cons, (IH Hnd). split.
      * intros [[= -> ->]|[[-> ->]|[Hk Hin]]].
        -- right. split; [done | by left].
        -- by left.
        -- right. split; [done | by right].
      * intros [[-> ->]|[Hk [[= -> ->]|Hin]]].
        -- right. by left.
        -- by left.
        -- right. right. by split.
Qed.

Lemma fold_map_set_snoc (movies : list TmdbMovie) (m : TmdbMovie) :
  fold_left (fun movieMap movie => map_set (tm_id movie) movie movieMap) (movies ++ [m]) []
  = map_set (tm_id m) m
      (fold_left (fun movieMap movie => map_set (tm_id movie) movie movieMap) movies []).
Proof. by rewrite fold_left_app. Qed.

Lemma fold_map_set_keys (movies : list TmdbMovie) :
  List.map fst
    (fold_left (fun movieMap movie => map_set (tm_id movie) movie movieMap) movies [])
  = rev (nodup Z.eq_dec (rev (List.map tm_id movies))).
Proof.
  induction movies as [|m movies IH] using rev_ind; [done |].
  rewrite fold_map_set_snoc, map_set_keys, IH, List.map_app, rev_app_distr. simpl.
  destruct (in_dec Z.eq_dec (tm_id m) (rev (List.map tm_id movies))) as [Hin|Hin].
  - rewrite bool_decide_eq_true_2; [done |].
    rewrite list_elem_of_In, <- in_rev. by apply nodup_In.
  - rewrite bool_decide_eq_false_2; [done |].
    intros Hk. apply Hin. rewrite list_elem_of_In, <- in_rev in Hk.
    by apply nodup_In in Hk.
Qed.

Lemma fold_map_set_entries (movies : list TmdbMovie) :
  forall k v,
    (k, v) ∈ fold_left (fun movieMap movie => map_set (tm_id movie) movie movieMap) movies []
    -> k = tm_id v
       /\ List.find (fun x => tm_id x =? k) (rev movies) = Some v.
Proof.
  induction movies as [|m movies IH] using rev_ind; intros k v.
  - by intros ?%elem_of_nil.
  - rewrite fold_map_set_snoc, map_set_entries.
    + rewrite rev_app_distr. simpl. intros [[-> ->]|[Hk Hin]].
      * by rewrite Z.eqb_refl.
      * destruct (Z.eqb_spec (tm_id m) k); [done | by apply IH].
    + rewrite fold_map_set_keys. apply NoDup_ListNoDup, NoDup_rev, NoDup_nodup.
Qed.

(** X11. The deduplication of [syncInitialMovies] keeps one movie for each
    TMDB id of the four categories: the ids of the result are those of the
    categories in the order of their first occurrence, without repetition,
    and the movie kept for an id is the last one of the categories that
    has it. *)
Theorem deduplicate_keeps_the_last_movie_of_each_id (categories : Categories) :
  List.map tm_id (deduplicate categories)
  = rev (nodup Z.eq_dec (rev (List.map tm_id (combined categories))))
  /\ NoDup (List.map tm_id (deduplicate categories))
  /\ (forall id, id ∈ List.map tm_id (deduplicate categories)
                 <-> id ∈ List.map tm_id (combined categories))
  /\ (forall movie, movie ∈ deduplicate categories ->
        List.find (fun x => tm_id x =? tm_id movie) (rev (combined categories))
        = Some movie).
Proof.
  unfold deduplicate. fold (combined categories).
  set (entries := fold_left _ (combined categories) []).
  assert (Hentries : forall k v, (k, v) ∈ entries ->
            k = tm_id v
            /\ List.find (fun x => tm_id x =? k) (rev (combined categories)) = Some v)
    by apply fold_map_set_entries.
  assert (Hids : List.map tm_id (List.map snd entries) = List.map fst entries).
  { rewrite List.map_map. apply map_ext_in. intros [k v] Hin. simpl.
    apply list_elem_of_In, Hentries in Hin as [-> _]. done. }
  rewrite Hids. subst entries. rewrite fold_map_set_keys.
  split; [done |]. split; [apply NoDup_ListNoDup, NoDup_rev, NoDup_nodup |]. split.
  - intros id. rewrite !list_elem_of_In, <- in_rev, nodup_In, <- in_rev. done.
  - intros movie Hin. apply list_elem_of_In, in_map_iff in Hin as ([k v] & <- & Hin).
    apply list_elem_of_In, Hentries in Hin as [-> Hfind]. exact Hfind.
Qed.

End Deduplicate.

(** ** Synchronisation job: saving one movie *)

Section SaveMovie.
Import TmdbSyncService.
Context `{MovieStore}.

Lemma find_insert_false {A} (p : A -> bool) (rows : list A) (i : nat) (r e : A) :
  rows !! i = Some r -> p r = false -> p e = false ->
  List.find p (<[i := e]> rows) = List.find p rows.
Proof.
  revert i. induction rows as [|x rows IH]; intros i Hi Hr He; [done |].
  destruct i as [|i]; simpl in *.
  - injection Hi as ->. by rewrite Hr, He.
  - destruct (p x); [done | by eapply IH].
Qed.

Lemma find_snoc {A} (p : A -> bool) (rows : list A) (e : A) :
  List.find p (rows ++ [e])
  = match List.find p rows with
    | Some r => Some r
    | None => if p e then Some e else None
    end.
Proof.
  induction rows as [|x rows IH]; simpl; [done |]. by destruct (p x).
Qed.

Lemma merge_twice (existing : Movie.t) (input : TmdbInput) :
  merge (merge existing input) input = merge existing input.
Proof.
  unfold merge. simpl. f_equal.
  - by destruct (release_date_of (base input)).
  - by destruct input.
Qed.

Lemma merge_created (id : Z) (input : TmdbInput) :
  merge (created id input) input = created id input.
Proof.
  unfold merge, created. simpl. f_equal.
  - by destruct (release_date_of (base input)).
  - by destruct input.
Qed.

Lemma save_row_again {A} (key : A -> Z) (e : A) (rows : list A) :
  Forall (fun x => key x = key e -> x = e) rows ->
  e ∈ rows ->
  save_row key e rows = rows.
Proof.
  intros Hall Hin. unfold save_row.
  replace (existsb (fun r => key r =? key e) rows) with true.
  - rewrite <- (map_id rows) at 2. apply map_ext_in. intros x Hx.
    destruct (Z.eqb_spec (key x) (key e)) as [Heq|]; [| done].
    symmetry. eapply (proj1 (Forall_forall _ _)) in Hall; [by apply Hall |].
    by apply list_elem_of_In.
  - symmetry. apply existsb_exists. exists e.
    split; [by apply list_elem_of_In | apply Z.eqb_refl].
Qed.

(** X12. [saveMovie] keeps one row for a TMDB id: on a movies table whose
    ids and TMDB ids identify the rows, a successful save returns the row
    of the movie's TMDB id, which a lookup by that id then finds; the
    table has grown by one row when the TMDB id was new and has kept its
    length when it was known; the rows of the other TMDB ids are found as
    before, and the TMDB ids still identify the rows.  A rejected save
    leaves the table as it was. *)
Theorem saveMovie_keeps_one_row_for_a_tmdb_id (input : TmdbInput) (w : World) :
  movies_consistent (db w) ->
  tmdb_ids_unique (db w) ->
  let tmdbId := tm_id (base input) in
  let out := saveMovie input w in
  tmdb_ids_unique (db out.2)
  /\ (forall row, out.1 = Next row ->
        Movie.tmdbId row = tmdbId
        /\ movie_by_tmdbId tmdbId (db out.2) = Some row
        /\ length (movieRepository (db out.2))
           = match movie_by_tmdbId tmdbId (db w) with
             | Some _ => length (movieRepository (db w))
             | None => S (length (movieRepository (db w)))
             end
        /\ (forall k, k <> tmdbId ->
              movie_by_tmdbId k (db out.2) = movie_by_tmdbId k (db w)))
  /\ (forall e, out.1 = Thrown e -> db out.2 = db w).
Proof.
  intros [Hids Hseq] Huniq tmdbId out. subst out tmdbId.
  rewrite saveMovie_run. cbv zeta. unfold movie_by_tmdbId, tmdb_ids_unique in *.
  destruct (findOne _ (movieRepository (db w))) as [existing|] eqn:Hfind.
  - destruct (refusal _ _); [by repeat split |].
    cbn [fst snd db movieRepository with_movies].
    pose proof (findOne_Some _ _ _ Hfind) as [Hin Htmdb]. apply Z.eqb_eq in Htmdb.
    apply list_elem_of_lookup in Hin as [i Hi].
    rewrite (save_row_insert Movie.id (merge existing input) existing _ i Hids Hi eq_refl).
    assert (Hsame : List.map Movie.tmdbId (<[i := merge existing input]>
                                             (movieRepository (db w)))
                    = List.map Movie.tmdbId (movieRepository (db w))).
    { change (List.map Movie.tmdbId) with (fmap (M:=list) Movie.tmdbId).
      rewrite list_fmap_insert. apply list_insert_id.
      rewrite list_lookup_fmap, Hi. simpl. by rewrite Htmdb. }
    rewrite Hsame. split; [done |]. split; [| done].
    intros row [= <-]. split; [done |]. split; [| split].
    + rewrite <- (save_row_insert Movie.id (merge existing input) existing _ i Hids Hi
                    eq_refl).
      erewrite save_row_found; [| exact Hfind | done].
      apply (findOne_replaced Movie.id); [exact Hfind |]. simpl. apply Z.eqb_refl.
    + apply length_insert.
    + intros k Hk. unfold findOne. eapply find_insert_false; [exact Hi | |]; simpl.
      * apply Z.eqb_neq. congruence.
      * apply Z.eqb_neq. congruence.
  - destruct (refusal _ _); [by repeat split |].
    cbn [fst snd db movieRepository].
    pose proof (findOne_None _ _ Hfind) as Hnone.
    split; [| split; [| done]].
    + rewrite List.map_app. apply NoDup_app. split; [done |]. split.
      * intros k Hk Hk'. simpl in Hk'. apply list_elem_of_singleton in Hk'. subst k.
        apply list_elem_of_In, in_map_iff in Hk as (x & Hx & Hin).
        apply list_elem_of_In, Hnone in Hin. apply Z.eqb_neq in Hin. done.
      * simpl. apply NoDup_singleton.
    + intros row [= <-]. split; [done |]. split; [| split].
      * apply findOne_app_None; [done |]. simpl. apply Z.eqb_refl.
      * rewrite length_app. simpl. lia.
      * intros k Hk. unfold findOne. rewrite find_snoc. simpl.
        destruct (List.find _ _); [done |].
        destruct (Z.eqb_spec (tm_id (base input)) k); [congruence | done].
Qed.

(** X13. Saving the same TMDB movie a second time changes nothing: on a
    consistent movies table, after a successful [saveMovie] a second
    [saveMovie] of the same input leaves the table as the first one left
    it, and when it succeeds it returns the same row. *)
Theorem saveMovie_twice_is_saveMovie_once (input : TmdbInput) (w w1 : World)
    (row : Movie.t) :
  movies_consistent (db w) ->
  saveMovie input w = (Next row, w1) ->
  db (saveMovie input w1).2 = db w1
  /\ (forall row2, (saveMovie input w1).1 = Next row2 -> row2 = row).
Proof.
  intros [Hids Hseq]. rewrite (saveMovie_run input w). cbv zeta.
  destruct (findOne _ (movieRepository (db w))) as [existing|] eqn:Hfind.
  - destruct (refusal _ _); [done |]. intros [= <- <-].
    rewrite saveMovie_run. cbv zeta. cbn [db movieRepository with_movies].
    erewrite save_row_found; [| exact Hfind | done].
    erewrite (findOne_replaced Movie.id); [| exact Hfind | simpl; apply Z.eqb_refl].
    rewrite merge_twice.
    destruct (refusal _ _); [done |]. cbn [fst snd db]. split; [| by intros ? [= <-]].
    unfold with_movies. cbn [movieRepository userRepository ratingRepository movieSeq
      userSeq ratingSeq]. f_equal. apply save_row_again.
    + apply Forall_forall. intros x Hx.
      apply list_elem_of_In, in_map_iff in Hx as (y & <- & Hy).
      destruct (Z.eqb_spec (Movie.id y) (Movie.id existing)) as [|Hne]; [done |].
      intros Hid. simpl in Hid. congruence.
    + apply list_elem_of_In, in_map_iff. exists existing.
      rewrite Z.eqb_refl. split; [done |].
      apply findOne_Some in Hfind as [Hin _]. by apply list_elem_of_In.
  - destruct (refusal _ _); [done |]. intros [= <- <-].
    rewrite saveMovie_run. cbv zeta. cbn [db movieRepository movieSeq].
    erewrite findOne_app_None; [| exact Hfind | simpl; apply Z.eqb_refl].
    rewrite merge_created.
    destruct (refusal _ _); [done |]. cbn [fst snd db]. split; [| by intros ? [= <-]].
    unfold with_movies. cbn [movieRepository userRepository ratingRepository movieSeq
      userSeq ratingSeq]. f_equal. apply save_row_again.
    + apply Forall_app. split; [| by apply Forall_singleton].
      eapply Forall_impl; [apply Hseq |]. intros x Hx Hid. simpl in *. lia.
    + apply elem_of_app. right. apply list_elem_of_here.
Qed.

End SaveMovie.

(** ** TMDB client: what a fetch costs *)

Section Cost.
Context `{TmdbApi}.

Lemma waited_network (events : list Event) :
  waited (List.filter is_network events) = waited events.
Proof.
  induction events as [|e events IH]; [done |]. destruct e; simpl; by rewrite ?IH.
Qed.

Lemma waited_schedule (request : string * list (string * string)) (retries : nat) :
  (retries <= 3)%nat ->
  waited (backoff_schedule request retries) = 500 * Z.of_nat retries * (Z.of_nat retries + 1).
Proof.
  intros Hle. destruct retries as [|[|[|[|]]]]; [done .. | lia].
Qed.

Lemma pause_network (events : list Event) :
  List.filter is_pause (List.filter is_network events) = List.filter is_pause events.
Proof.
  induction events as [|e events IH]; [done |]. destruct e; simpl; rewrite ?IH; done.
Qed.

Lemma pause_schedule (request : string * list (string * string)) (retries : nat) :
  (retries <= 3)%nat ->
  List.filter is_pause (backoff_schedule request retries) = [].
Proof.
  intros Hle. destruct retries as [|[|[|[|]]]]; [done .. | lia].
Qed.

(** What one fetch does to the world: requests and timers, and no pause of
    the batch job. *)
Lemma fetch_cost {A} (url : string) (params : list (string * string))
    (answer : nat -> exception + A) (fetched : A -> string)
    (warning : option (nat -> string)) (failure_text : string) (w : World) :
  exists (retries : nat) (events : list Event),
    let out := TmdbService.fetch url params answer fetched warning failure_text w in
    (retries <= 3)%nat
    /\ trace out.2 = trace w ++ events
    /\ sent out.2 = (sent w + S retries)%nat
    /\ db out.2 = db w
    /\ waited events = 500 * Z.of_nat retries * (Z.of_nat retries + 1)
    /\ List.filter is_pause events = []
    /\ (failure (answer (sent w)) = None -> retries = O)
    /\ (forall e, out.1 = Thrown e -> retries = 3%nat).
Proof.
  destruct (fetch_schedule url params answer fetched warning failure_text w)
    as (retries & events & Hle & Htr & Hsent & Hdb & Hnet & Hfail & Hout).
  exists retries, events. cbv zeta in *.
  split; [done |]. split; [done |]. split; [done |]. split; [done |].
  split; [by rewrite <- waited_network, Hnet, waited_schedule |].
  split; [by rewrite <- pause_network, Hnet, pause_schedule |].
  split.
  - intros Hok. destruct retries as [|retries]; [done |].
    destruct (Hfail O) as [e He]; [lia |]. rewrite Nat.add_0_r in He. congruence.
  - intros e He. rewrite He in Hout. by destruct Hout.
Qed.

(** X14. No fetch operation of the TMDB client writes to the store, and
    none waits longer than 6 seconds in all: the timers of an operation
    add up to [500 * r * (r + 1)] ms for its [r <= 3] retries, to nothing
    when the first request succeeds, where one request is sent, and to
    6000 ms after four requests when the operation fails. *)
Theorem fetch_waits_at_most_six_seconds (op : FetchOp) (w : World) :
  let out := perform op w in
  exists events : list Event,
    trace out.2 = trace w ++ events
    /\ db out.2 = db w
    /\ 0 <= waited events <= 6000
    /\ (S (sent w) <= sent out.2 <= sent w + 4)%nat
    /\ (failure_at op (sent w) = None ->
        waited events = 0 /\ sent out.2 = S (sent w))
    /\ (is_Some out.1 -> waited events = 6000 /\ sent out.2 = (sent w + 4)%nat).
Proof.
  destruct op; cbn [perform];
    cbv delta [TmdbService.getPopularMovies_ TmdbService.getTopRatedMovies_
               TmdbService.getNowPlayingMovies_ TmdbService.getUpcomingMovies_
               TmdbService.getMovieDetails_ TmdbService.searchMovies_
               TmdbService.discoverMovies_ TmdbService.getGenres_];
    cbv beta zeta;
    match goal with
    | |- context [TmdbService.fetch ?u ?p ?a ?f ?wn ?msg w] =>
        destruct (fetch_cost u p a f wn msg w)
          as (retries & events & Hle & Htr & Hsent & Hdb & Hwait & _ & Hfirst & Hlast);
        cbv zeta in *;
        destruct (TmdbService.fetch u p a f wn msg w) as [[data|e] w'] eqn:Hrun
    end;
    exists events; simpl in *; unfold failure_at; cbn [request_of];
    (split; [done |]); (split; [done |]); (split; [nia |]); (split; [lia |]);
    (split; [intros Hok; rewrite (Hfirst Hok) in *; split; [done | lia] |]).
  all: intros [? Hsome]; try discriminate Hsome.
  all: rewrite (Hlast e eq_refl) in *; split; [done | lia].
Qed.

End Cost.

(** ** TMDB client: the details of a list of movies *)

Section DetailsBatch.
Import TmdbService TmdbServiceBatch.
Context `{TmdbApi}.

Lemma getMovieDetails_cost (movieId : Z) (w : World) :
  exists events : list Event,
    let out := getMovieDetails_ movieId w in
    trace out.2 = trace w ++ events
    /\ db out.2 = db w
    /\ (S (sent w) <= sent out.2 <= sent w + 4)%nat
    /\ List.filter is_pause events = [].
Proof.
  unfold getMovieDetails_.
  match goal with
  | |- context [fetch ?u ?p ?a ?f ?wn ?msg w] =>
      destruct (fetch_cost u p a f wn msg w)
        as (retries & events & Hle & Htr & Hsent & Hdb & _ & Hpause & _)
  end.
  exists events. cbv zeta in *. repeat split; try done; lia.
Qed.

(** The answers behind one call of [getMovieDetails$]. *)
Lemma getMovieDetails_answers (movieId : Z) (w : World) :
  let out := getMovieDetails_ movieId w in
  db out.2 = db w
  /\ match out.1 with
     | Next details =>
         exists retries,
           (retries <= 3)%nat
           /\ (forall k, (k < retries)%nat ->
                 is_Some (failure (answer_details (details_url movieId) (sent w + k))))
           /\ answer_details (details_url movieId) (sent w + retries) = inr details
           /\ sent out.2 = (sent w + S retries)%nat
     | Thrown _ =>
         (forall k, (k <= 3)%nat ->
            is_Some (failure (answer_details (details_url movieId) (sent w + k))))
         /\ sent out.2 = (sent w + 4)%nat
     end.
Proof.
  unfold getMovieDetails_, details_url.
  match goal with
  | |- context [fetch ?u ?p ?a ?f ?wn ?msg w] =>
      destruct (fetch_schedule u p a f wn msg w)
        as (retries & events & Hle & _ & Hsent & Hdb & _ & Hfail & Hout);
      cbv zeta in *;
      destruct (fetch u p a f wn msg w) as [[details|e] w1]
  end; cbn [fst snd] in *.
  - split; [done |]. exists retries. by repeat split.
  - destruct Hout as (-> & Hlast & _). split; [done |]. split; [| lia].
    intros k Hk. destruct (decide (k = 3%nat)) as [->|Hne].
    + rewrite Hlast. by eexists.
    + apply Hfail. lia.
Qed.

(** One movie of the list: never an error, the store untouched, and the
    details when, and only when, one of its four requests is answered. *)
Lemma details_item (delayMs movieId : Z) (w : World) :
  exists movie w',
    catchError
      (map_ (delay delayMs (getMovieDetails_ movieId)) Some)
      (fun error =>
         switchMap (logger LevelError ("Failed to fetch movie " +:+ pretty movieId))
           (fun _ => of_ None)) w
    = (Next movie, w')
    /\ db w' = db w
    /\ match movie with
       | Some details =>
           exists retries,
             (retries <= 3)%nat
             /\ (forall k, (k < retries)%nat ->
                   is_Some (failure (answer_details (details_url movieId) (sent w + k))))
             /\ answer_details (details_url movieId) (sent w + retries) = inr details
             /\ sent w' = (sent w + S retries)%nat
       | None =>
           (forall k, (k <= 3)%nat ->
              is_Some (failure (answer_details (details_url movieId) (sent w + k))))
           /\ sent w' = (sent w + 4)%nat
       end.
Proof.
  destruct (getMovieDetails_answers movieId w) as [Hdb Hans].
  cbv zeta in *. unfold catchError. rewrite map_run. unfold delay.
  rewrite switchMap_run.
  destruct (getMovieDetails_ movieId w) as [[details|e] w1]; cbn [fst snd] in *.
  - by exists (Some details), (mkWorld (db w1) (sent w1) (trace w1 ++ [Timer delayMs])).
  - by exists None, (mkWorld (db w1) (sent w1)
                       (trace w1 ++ [Logged LevelError
                                       ("Failed to fetch movie " +:+ pretty movieId)])).
Qed.

Lemma details_arrive_sent (n : nat) (ids : list Z) (movies : list TmdbMovieDetails)
    (m : nat) :
  details_arrive n ids movies m ->
  (n + length ids <= m <= n + 4 * length ids)%nat
  /\ (length movies <= length ids)%nat.
Proof. induction 1; simpl in *; lia. Qed.

Lemma syncMoviesWithDetails_from_run (delayMs : Z) (movieIds : list Z) :
  forall (acc : list TmdbMovieDetails) (w : World),
  exists emitted w' more,
    syncMoviesWithDetails_from delayMs acc movieIds w = (Next emitted, w')
    /\ db w' = db w
    /\ details_arrive (sent w) movieIds more (sent w')
    /\ emitted = List.map (fun n => firstn n (acc ++ more))
                   (seq (S (length acc)) (length more)).
Proof.
  induction movieIds as [|id rest IH]; intros acc w.
  - exists [], w, []. simpl. repeat split; try done. constructor.
  - cbn [syncMoviesWithDetails_from]. rewrite switchMap_run.
    destruct (details_item delayMs id w) as (movie & w1 & -> & Hdb1 & Hans).
    destruct movie as [movie|].
    + destruct Hans as (retries & Hle & Hfail & Hok & Hsent1).
      rewrite switchMap_run. unfold logger at 1, emit. rewrite map_run.
      set (w2 := mkWorld _ _ _).
      destruct (IH (acc ++ [movie]) w2) as (emitted & w' & more & -> & Hdb & Harr & ->).
      exists ((acc ++ [movie]) :: List.map
                (fun n => firstn n ((acc ++ [movie]) ++ more))
                (seq (S (length (acc ++ [movie]))) (length more))),
             w', (movie :: more).
      subst w2. cbn [db sent length] in *.
      split; [done |]. split; [congruence |]. split.
      { eapply arrive_fetched; [exact Hle | exact Hfail | exact Hok |].
        by rewrite <- Hsent1. }
      cbn [seq List.map]. rewrite <- !app_assoc. cbn [app]. f_equal.
      * replace (acc ++ movie :: more) with ((acc ++ [movie]) ++ more)
          by (by rewrite <- app_assoc).
        symmetry. apply take_app_length'. rewrite length_app. simpl. lia.
      * rewrite length_app. simpl length. by rewrite Nat.add_1_r.
    + destruct Hans as (Hfail & Hsent1).
      destruct (IH acc w1) as (emitted & w' & more & -> & Hdb & Harr & ->).
      exists (List.map (fun n => firstn n (acc ++ more)) (seq (S (length acc)) (length more))),
             w', more.
      split; [done |]. split; [congruence |]. split; [| done].
      apply arrive_failed; [exact Hfail |]. by rewrite <- Hsent1.
Qed.

(** X15. [syncMoviesWithDetails$] never fails and never writes to the
    store: it asks for the movies one after the other, each with one
    request and up to three retries, and emits, after each movie whose
    details arrived, the details that have arrived so far, in the order of
    the ids; so the emissions are the prefixes of lengths [1], [2], ... of
    the list of all the details that arrived, which is the last
    emission. *)
Theorem syncMoviesWithDetails_emits_the_growing_list
    (movieIds : list Z) (delayMs : option Z) (w : World) :
  exists emitted w' movies,
    syncMoviesWithDetails_ movieIds delayMs w = (Next emitted, w')
    /\ db w' = db w
    /\ details_arrive (sent w) movieIds movies (sent w')
    /\ (sent w + length movieIds <= sent w' <= sent w + 4 * length movieIds)%nat
    /\ (length movies <= length movieIds)%nat
    /\ emitted = List.map (fun n => firstn n movies) (seq 1 (length movies))
    /\ last emitted = (if decide (movies = []) then None else Some movies).
Proof.
  unfold syncMoviesWithDetails_.
  destruct (syncMoviesWithDetails_from_run (default 250 delayMs) movieIds [] w)
    as (emitted & w' & more & Hrun & Hdb & Harr & Hem).
  pose proof (details_arrive_sent _ _ _ _ Harr) as [Hsent Hlen].
  exists emitted, w', more. simpl in Hem.
  split; [done |]. split; [done |]. split; [done |]. split; [done |]. split; [done |].
  split; [done |]. rewrite Hem.
  destruct more as [|m more _] using rev_ind; [done |].
  rewrite decide_False by (by destruct more).
  rewrite length_app. simpl length. rewrite Nat.add_1_r, seq_S, List.map_app. simpl.
  rewrite last_snoc. f_equal. apply firstn_all2. rewrite length_app. simpl. lia.
Qed.

End DetailsBatch.

(** ** Synchronisation job: a batch of movies *)

Section Batch.
Import TmdbSyncService TmdbSyncBatch.
Context `{TmdbApi} `{MovieStore}.

Lemma syncMovieDetails_events (movieId : Z) (w : World) :
  exists events : list Event,
    let out := syncMovieDetails movieId w in
    trace out.2 = trace w ++ events
    /\ (S (sent w) <= sent out.2 <= sent w + 4)%nat
    /\ List.filter is_pause events = [].
Proof.
  destruct (getMovieDetails_cost movieId w) as (events & Htr & _ & Hsent & Hpause).
  cbv zeta in *. unfold syncMovieDetails, catchError, tap. rewrite !switchMap_run.
  destruct (TmdbService.getMovieDetails_ movieId w) as [[details|e] w1]; cbn [snd] in *.
  - rewrite saveMovie_run. cbv zeta.
    destruct (findOne _ (movieRepository (db w1))); destruct (refusal _ _);
      unfold switchMap, logger, emit, of_, throwError; cbn [fst snd db sent trace];
      rewrite Htr, <- !app_assoc;
      (eexists; split; [reflexivity |]; split; [done |]);
      by rewrite List.filter_app, Hpause.
  - unfold switchMap, logger, emit, throwError. cbn [fst snd db sent trace].
    rewrite Htr, <- !app_assoc.
    eexists. split; [reflexivity |]. split; [done |].
    by rewrite List.filter_app, Hpause.
Qed.

(** What the batch job does with one movie. *)
Lemma batch_item (movieId : Z) (w : World) :
  catchError (map_ (delay 250 (syncMovieDetails movieId)) Some) (fun _ => of_ None) w
  = match syncMovieDetails movieId w with
    | (Next movie, w1) => (Next (Some movie), after_timer 250 w1)
    | (Thrown _, w1) => (Next None, w1)
    end.
Proof.
  unfold catchError. rewrite map_run. unfold delay. rewrite switchMap_run.
  by destruct (syncMovieDetails movieId w) as [[movie|e] w1].
Qed.

Lemma batch_loop (movieIds : list Z) :
  forall w : World,
  exists results events w',
    concatMap
      (fun id =>
         catchError (map_ (delay 250 (syncMovieDetails id)) Some) (fun _ => of_ None))
      movieIds w
    = (Next results, w')
    /\ batch_synced w movieIds (omap (fun movie : option Movie.t => movie) results) w'
    /\ trace w' = trace w ++ events
    /\ (sent w + length movieIds <= sent w' <= sent w + 4 * length movieIds)%nat
    /\ length results = length movieIds
    /\ List.filter is_pause events
       = repeat (Timer 250) (length (omap (fun movie : option Movie.t => movie) results))
    /\ (movies_consistent (db w) -> kept w w').
Proof.
  induction movieIds as [|id rest IH]; intros w.
  - exists [], [], w. simpl. rewrite app_nil_r.
    split; [done |]. split; [constructor |]. split; [done |]. split; [lia |].
    split; [done |]. split; [done |]. intros Hc. by apply kept_same_db.
  - cbn [concatMap]. rewrite switchMap_run, batch_item.
    destruct (syncMovieDetails_events id w) as (block & Htr1 & Hsent1 & Hp1).
    pose proof (syncMovieDetails_kept id w) as Hk1. cbv zeta in *.
    destruct (syncMovieDetails id w) as [[movie|e] w1] eqn:Hrun; cbn [snd] in *;
      rewrite map_run.
    + destruct (IH (after_timer 250 w1))
        as (results & events & w' & -> & Hbatch & Htr & Hsent & Hlen & Hp & Hk).
      exists (Some movie :: results), (block ++ [Timer 250] ++ events), w'.
      cbn [length db sent trace after_timer] in *.
      split; [done |]. split; [by eapply batch_movie |].
      split; [by rewrite Htr, Htr1, <- !app_assoc |]. split; [lia |].
      split; [by rewrite Hlen |]. split.
      * rewrite !List.filter_app, Hp1, Hp. done.
      * intros Hc. pose proof (Hk1 Hc) as H1.
        eapply kept_trans; [exact H1 |]. apply Hk. apply H1.
    + destruct (IH w1)
        as (results & events & w' & -> & Hbatch & Htr & Hsent & Hlen & Hp & Hk).
      exists (None :: results), (block ++ events), w'. cbn [length] in *.
      split; [done |]. split; [by eapply batch_skipped |].
      split; [by rewrite Htr, Htr1, <- !app_assoc |]. split; [lia |].
      split; [by rewrite Hlen |]. split.
      * rewrite List.filter_app, Hp1, Hp. done.
      * intros Hc. pose proof (Hk1 Hc) as H1.
        eapply kept_trans; [exact H1 |]. apply Hk. apply H1.
Qed.

(** X16. [batchSyncMovies] never fails and answers with the movies it has
    synchronised: the ids are synchronised one after the other, the
    result holds the rows of the movies whose synchronisation succeeded,
    in the order of the ids, each of them followed by a pause of 250 ms,
    and a movie whose synchronisation failed is passed over without a
    pause; every synchronisation sends between one and four requests, the
    run ends with the line that counts the movies, and on a consistent
    movies table no movie loses its user rating statistics. *)
Theorem batchSyncMovies_goes_through_the_whole_list (movieIds : list Z) (w : World) :
  exists movies events w1,
    batch_synced w movieIds movies w1
    /\ batchSyncMovies movieIds w
       = (Next movies,
          mkWorld (db w1) (sent w1)
            (trace w1
             ++ [Logged LevelLog
                   ("Batch synced " +:+ pretty (Z.of_nat (length movies)) +:+ " movies")]))
    /\ trace w1 = trace w ++ events
    /\ List.filter is_pause events = repeat (Timer 250) (length movies)
    /\ (length movies <= length movieIds)%nat
    /\ (sent w + length movieIds <= sent w1 <= sent w + 4 * length movieIds)%nat
    /\ (forall id w0,
          (S (sent w0) <= sent (syncMovieDetails id w0).2 <= sent w0 + 4)%nat)
    /\ (movies_consistent (db w) -> kept w w1).
Proof.
  unfold batchSyncMovies, tap. rewrite switchMap_run, map_run.
  destruct (batch_loop movieIds w)
    as (results & events & w1 & -> & Hbatch & Htr & Hsent & Hlen & Hp & Hk).
  set (movies := omap _ results) in *.
  exists movies, events, w1.
  unfold switchMap, logger, emit, of_. cbn [fst snd db sent trace].
  split; [done |]. split; [done |]. split; [done |]. split; [done |]. split.
  { subst movies. rewrite <- Hlen. clear.
    induction results as [|[movie|] results IH]; [done | |];
      cbn [omap list_omap length] in *; lia. }
  split; [done |]. split; [| done].
  intros id w0. destruct (syncMovieDetails_events id w0) as (block & _ & Hb & _).
  exact Hb.
Qed.

End Batch.

(** ** MoviesService: creating a movie *)

Section Catalog.
Import MoviesCatalog.

Lemma findOne_absent {A} (p : A -> bool) (rows : list A) :
  Forall (fun x => p x = false) rows -> findOne p rows = None.
Proof.
  unfold findOne. induction 1 as [|x rows Hx _ IH]; [done |]. simpl. by rewrite Hx.
Qed.

Lemma created_refused_by_the_columns `{MovieStore} (dto : CreateMovieDto)
    (rows : list Movie.t) (id : Z) :
  int4 (cm_tmdbId dto) = false \/ fits 3 (default 0%Q (cm_popularity dto)) = false ->
  refusal rows (created id dto) = Some QueryFailedError.
Proof.
  intros Hout. unfold refusal, column_error, created.
  cbn [Movie.tmdbId Movie.voteCount Movie.voteAverage Movie.popularity].
  rewrite !fits_tenths.
  destruct Hout as [-> | ->]; [done |]. by rewrite andb_false_r.
Qed.

(** X17. [create$] registers a TMDB id once: when a movie with the TMDB id
    of the DTO is stored the answer is the error ['Movie with TMDB ID ...
    already exists'] and the store is untouched; when the table refuses
    the new row the answer is that error and the store is untouched, which
    is so for a TMDB id that is no 32-bit integer and for a popularity of
    100 or more; otherwise, on a consistent movies table, the movie is
    returned with a new id and appended with that id, the vote average and
    the popularity rounded to one decimal place and no user rating,
    [findOne$] and the lookup by TMDB id find it, the table stays
    consistent with one row for each TMDB id, and a second [create$] of
    the same DTO is refused. *)
Theorem create_registers_a_tmdb_id_once `{MovieStore} (dto : CreateMovieDto) (d : Db) :
  movies_consistent d ->
  tmdb_ids_unique d ->
  let out := create_ dto d in
  match movie_by_tmdbId (cm_tmdbId dto) d with
  | Some _ => out = (Thrown (already_exists (cm_tmdbId dto)), d)
  | None =>
      match refusal (movieRepository d) (created (movieSeq d) dto) with
      | Some e => out = (Thrown e, d)
      | None =>
          exists returned movie,
            out.1 = Next returned
            /\ Movie.id returned = movieSeq d
            /\ Movie.tmdbId returned = cm_tmdbId dto
            /\ movie = created (movieSeq d) dto
            /\ Movie.id movie = movieSeq d
            /\ Movie.tmdbId movie = cm_tmdbId dto
            /\ Movie.title movie = cm_title dto
            /\ Movie.voteAverage movie = tenths (default 0%Q (cm_voteAverage dto))
            /\ Movie.popularity movie = tenths (default 0%Q (cm_popularity dto))
            /\ Movie.userRatingAverage movie = None
            /\ Movie.userRatingCount movie = 0
            /\ movieRepository out.2 = movieRepository d ++ [movie]
            /\ MoviesService.findOne_ (Movie.id movie) out.2 = (Next movie, out.2)
            /\ movie_by_tmdbId (cm_tmdbId dto) out.2 = Some movie
            /\ movies_consistent out.2
            /\ tmdb_ids_unique out.2
            /\ create_ dto out.2 = (Thrown (already_exists (cm_tmdbId dto)), out.2)
      end
  end
  /\ (int4 (cm_tmdbId dto) = false \/ fits 3 (default 0%Q (cm_popularity dto)) = false ->
      exists e, out = (Thrown e, d)).
Proof.
  intros [Hids Hseq] Huniq out. subst out.
  unfold create_, movie_by_tmdbId, tmdb_ids_unique in *. rewrite switchMap_run.
  unfold from_read.
  destruct (findOne _ (movieRepository d)) as [existing|] eqn:Hfind.
  { split; [done |]. intros _. by eexists. }
  unfold save_new. cbn [fst snd].
  split; cycle 1.
  { intros Hout. rewrite (created_refused_by_the_columns dto _ _ Hout). by eexists. }
  destruct (refusal _ _) as [e|]; [done |].
  cbn [fst snd movieRepository movieSeq].
  set (row := created (movieSeq d) dto).
  pose proof (findOne_None _ _ Hfind) as Hnone.
  assert (Hfresh : findOne (fun m => Movie.id m =? movieSeq d) (movieRepository d) = None).
  { apply findOne_absent. eapply Forall_impl; [apply Hseq |].
    intros x Hx. simpl in Hx. apply Z.eqb_neq. lia. }
  assert (Hby : findOne (fun m => Movie.tmdbId m =? cm_tmdbId dto)
                  (movieRepository d ++ [row]) = Some row).
  { apply findOne_app_None; [done |]. simpl. apply Z.eqb_refl. }
  exists row, row. repeat split; try done.
  - unfold MoviesService.findOne_. rewrite switchMap_run. unfold from_read.
    cbn [movieRepository]. change (Movie.id row) with (movieSeq d).
    erewrite findOne_app_None; [done | exact Hfresh |]. simpl. apply Z.eqb_refl.
  - cbn [movieRepository]. rewrite List.map_app. apply NoDup_app. split; [done |]. split.
    + intros k Hk Hk'. simpl in Hk'. apply list_elem_of_singleton in Hk'. subst k.
      apply list_elem_of_In, in_map_iff in Hk as (x & Hx & Hin).
      apply list_elem_of_In in Hin.
      eapply (proj1 (Forall_forall _ _)) in Hseq; [| exact Hin]. simpl in Hseq. lia.
    + simpl. apply NoDup_singleton.
  - cbn [movieRepository movieSeq]. apply Forall_app. split.
    + eapply Forall_impl; [apply Hseq |]. intros m Hm. simpl in *. lia.
    + apply Forall_singleton. simpl. lia.
  - rewrite List.map_app. apply NoDup_app. split; [done |]. split.
    + intros k Hk Hk'. simpl in Hk'. apply list_elem_of_singleton in Hk'. subst k.
      apply list_elem_of_In, in_map_iff in Hk as (x & Hx & Hin).
      apply list_elem_of_In, Hnone in Hin. apply Z.eqb_neq in Hin. done.
    + simpl. apply NoDup_singleton.
  - rewrite switchMap_run. unfold from_read. cbn [movieRepository]. by rewrite Hby.
Qed.

End Catalog.

(** ** MoviesService: what a listing returns *)

Section Filters.
Import MoviesListing QueryMovieDto.
Context `{SqlEngine} `{Pagination}.

Lemma elem_of_firstn {A} (x : A) (n : nat) (l : list A) : x ∈ firstn n l -> x ∈ l.
Proof. intros Hx. rewrite <- (firstn_skipn n l). apply elem_of_app. by left. Qed.

Lemma elem_of_skipn {A} (x : A) (n : nat) (l : list A) : x ∈ skipn n l -> x ∈ l.
Proof. intros Hx. rewrite <- (firstn_skipn n l). apply elem_of_app. by right. Qed.

Lemma length_filter_le {A} (p : A -> bool) (l : list A) :
  (length (List.filter p l) <= length l)%nat.
Proof. induction l as [|x l IH]; simpl; [lia |]. destruct (p x); simpl; lia. Qed.

Lemma elem_of_limited {A} (x : A) (n : Z) (l : list A) : x ∈ limited n l -> x ∈ l.
Proof. unfold limited. destruct (_ && _); [done | apply elem_of_firstn]. Qed.

Lemma length_limited {A} (n : Z) (l : list A) : (length (limited n l) <= length l)%nat.
Proof. unfold limited. destruct (_ && _); [done |]. rewrite length_firstn. lia. Qed.

Lemma getManyAndCount_rows (q : SelectQuery) (rows ms : list Movie.t) (total : Z) :
  sort_permutes ->
  getManyAndCount q rows = Next (ms, total) ->
  existsb ill_typed (wheres q) = false
  /\ Forall (fun m => m ∈ rows /\ satisfies_all (wheres q) m) ms
  /\ Z.of_nat (length ms) <= total <= Z.of_nat (length rows).
Proof.
  intros Hsort. unfold getManyAndCount.
  destruct (negb _); [done |].
  destruct (existsb ill_typed (wheres q)); [done |].
  destruct (_ || _); [done |]. intros [= <- <-]. split; [done |]. split.
  - apply Forall_forall. intros m Hm.
    apply elem_of_limited, elem_of_skipn in Hm.
    rewrite (Hsort _ _) in Hm. unfold matching in Hm.
    apply list_elem_of_In, filter_In in Hm as [Hin Hall].
    split; [by apply list_elem_of_In |].
    unfold satisfies_all. apply Forall_forall. intros c Hc.
    rewrite forallb_forall in Hall. apply Hall. by apply list_elem_of_In.
  - split.
    + pose proof (length_limited (take q)
        (skipn (Z.to_nat (skip q)) (sorted_by (orderBy q) (matching (wheres q) rows)))) as Hl.
      rewrite length_skipn, (Permutation_length (Hsort _ _)) in Hl. lia.
    + unfold matching. pose proof (length_filter_le
        (fun m => forallb (fun c => satisfies c m) (wheres q)) rows). lia.
Qed.

Lemma listing_run (q : SelectQuery) (build : list Movie.t * Z -> PaginatedResponseDto)
    (d : Db) (response : PaginatedResponseDto) :
  (map_ (from_query (fun d => getManyAndCount q (movieRepository d))) build d).1
  = Next response ->
  exists ms total,
    getManyAndCount q (movieRepository d) = Next (ms, total) /\ response = build (ms, total).
Proof.
  rewrite map_run. unfold from_query.
  destruct (getManyAndCount q (movieRepository d)) as [[ms total]|e]; [| done].
  simpl. intros [= <-]. by exists ms, total.
Qed.

(** X18. A listing returns stored movies that satisfy its conditions, and
    never writes: with a database whose sorting rearranges the rows it is
    given, a page of [findAll$] comes from a query without genre ids, and
    every movie of it is a stored movie that satisfies every condition
    built from the query, among them the one that excludes adult movies
    unless the query asks for them with [includeAdult], and the bounds on
    the vote average; the movies of [search$] match the title pattern; the
    page is no longer than the reported total, which is no larger than the
    table; and [findByGenre$] returns no page. *)
Theorem listings_return_rows_that_satisfy_the_conditions (d : Db) :
  sort_permutes ->
  (forall query response,
     (findAll_ query d).1 = Next response ->
     (genreIds query = None \/ genreIds query = Some [])
     /\ Forall (fun m => m ∈ movieRepository d
                         /\ satisfies_all (wheres (createQueryBuilder query)) m
                         /\ (includeAdult query <> Some true ->
                             satisfies AdultIsFalse m = true)
                         /\ (forall r, minRating query = Some r ->
                               satisfies (VoteAverageAtLeast r) m = true)
                         /\ (forall r, maxRating query = Some r ->
                               satisfies (VoteAverageAtMost r) m = true))
          (data response)
     /\ Z.of_nat (length (data response)) <= meta_totalItems response
        <= Z.of_nat (length (movieRepository d)))
  /\ (forall query page limit response,
        (search_ query page limit d).1 = Next response ->
        Forall (fun m => m ∈ movieRepository d
                         /\ satisfies (TitleILike ("%" +:+ query +:+ "%")) m = true)
          (data response)
        /\ Z.of_nat (length (data response)) <= meta_totalItems response
           <= Z.of_nat (length (movieRepository d)))
  /\ (forall genreId page limit response,
        (findByGenre_ genreId page limit d).1 <> Next response)
  /\ (forall query, (findAll_ query d).2 = d)
  /\ (forall query page limit, (search_ query page limit d).2 = d)
  /\ (forall genreId page limit, (findByGenre_ genreId page limit d).2 = d).
Proof.
  intros Hsort. split; [| split; [| split; [| split; [| split]]]].
  - intros query response Hrun. unfold findAll_ in Hrun.
    apply listing_run in Hrun as (ms & total & Hq & ->).
    apply (getManyAndCount_rows _ _ _ _ Hsort) in Hq as (Htyped & Hrows & Hlen).
    split.
    { rewrite createQueryBuilder_typed in Htyped.
      destruct (genreIds query) as [[|g gs]|]; [by right | done | by left]. }
    split; [| done]. simpl. eapply Forall_impl; [exact Hrows |].
    intros m [Hin Hall]. split; [done |]. split; [done |].
    unfold satisfies_all, createQueryBuilder in Hall. cbn [wheres] in Hall.
    rewrite !Forall_app in Hall.
    destruct Hall as (_ & _ & _ & Hmin & Hmax & _ & Hadult).
    split; [| split].
    + intros Hno. destruct (includeAdult query) as [[|]|]; [done | |];
        by inversion Hadult.
    + intros r Hr. rewrite Hr in Hmin. by inversion Hmin.
    + intros r Hr. rewrite Hr in Hmax. by inversion Hmax.
  - intros query page limit response Hrun. unfold search_ in Hrun.
    apply listing_run in Hrun as (ms & total & Hq & ->).
    apply (getManyAndCount_rows _ _ _ _ Hsort) in Hq as (_ & Hrows & Hlen).
    split; [| done]. simpl. eapply Forall_impl; [exact Hrows |].
    intros m [Hin Hall]. split; [done |]. by inversion Hall.
  - intros genreId page limit response Hrun. unfold findByGenre_ in Hrun.
    apply listing_run in Hrun as (ms & total & Hq & ->).
    by apply (getManyAndCount_rows _ _ _ _ Hsort) in Hq as (Htyped & _).
  - intros query. unfold findAll_. rewrite map_run. unfold from_query.
    by destruct (getManyAndCount _ _) as [[ms total]|e].
  - intros query page limit. unfold search_. rewrite map_run. unfold from_query.
    by destruct (getManyAndCount _ _) as [[ms total]|e].
  - intros genreId page limit. unfold findByGenre_. rewrite map_run. unfold from_query.
    by destruct (getManyAndCount _ _) as [[ms total]|e].
Qed.

End Filters.

(** ** Rating service: the ratings of a user *)

Section UserRatings.
Import RatingsService RatingsQueries.





End UserRatings.

(** ** MoviesService: the lookup by TMDB id *)

Section Lookup.
Import TmdbSyncService MoviesServiceSync.
Context `{TmdbApi} `{MovieStore}.



End Lookup.

(** ** The further properties at the sample data *)

Lemma sample_ratings_refer : ratings_refer Samples.db.
Proof. unfold ratings_refer. simpl. repeat constructor; by eexists. Qed.

Lemma sample_tmdb_ids_unique : tmdb_ids_unique Samples.db.
Proof. unfold tmdb_ids_unique. simpl. decide_closed. Qed.

Lemma sample_bcrypt_sound : bcrypt_sound (H:=Samples.bcrypt).
Proof. intros plain. simpl. apply String.eqb_refl. Qed.

Lemma insert_sorted_permutes (order : string * option SortOrder) (m : Movie.t)
    (rows : list Movie.t) :
  Samples.insert_sorted order m rows ≡ₚ m :: rows.
Proof.
  induction rows as [|x rows IH]; simpl; [done |].
  destruct (Samples.before order m x); [done |].
  rewrite IH. apply Permutation_swap.
Qed.

Lemma sample_sort_permutes : sort_permutes (H:=Samples.engine).
Proof.
  intros order rows. simpl. unfold Samples.insertion_sort.
  induction rows as [|m rows IH]; simpl; [done |].
  by rewrite insert_sorted_permutes, IH.
Qed.

(** X3 at the sample store: alice removes her rating, and bob rates the
    movie 11. *)
Lemma rating_writes_end_in_an_error_witness :
  findOne (fun r => Rating.id r =? 1) (ratingRepository Samples.db)
  = Some (Rating.mk 1 (17 # 2) None 1 10)
  /\ RatingsService.remove_ 1 1 Samples.db
     = (Thrown QueryFailedError,
        with_ratings [Rating.mk 2 (7 # 1) (Some "good") 2 10] Samples.db)
  /\ (RatingsService.createOrUpdate_ 2 11 MoreSamples.nine Samples.db).1
     = Thrown QueryFailedError.
Proof.
  assert (Hfind : findOne (fun r => Rating.id r =? 1) (ratingRepository Samples.db)
                  = Some (Rating.mk 1 (17 # 2) None 1 10)) by reflexivity.
  destruct (rating_writes_end_in_an_error Samples.db) as (Hcreate & _ & Hremove).
  split; [exact Hfind |]. split.
  - exact (proj2 (proj2 (Hremove 1 1)) _ Hfind eq_refl).
  - apply (proj2 (proj2 (Hcreate 2 11 MoreSamples.nine))); by eexists.
Defined.


(** X6 at the sample store: user 2 rates movie 11. *)
Lemma writes_keep_the_ratings_referring_witness :
  ratings_refer Samples.db
  /\ ratings_refer (RatingsService.createOrUpdate_ 2 11 MoreSamples.nine Samples.db).2.
Proof.
  split; [exact sample_ratings_refer |].
  exact (proj1 (writes_keep_the_ratings_referring Samples.db sample_ratings_refer)
           2 11 MoreSamples.nine).
Defined.

(** X9 at the sample store: carol registers and logs in. *)
Lemma credentials_round_trip_witness :
  bcrypt_sound (H:=Samples.bcrypt)
  /\ hashable (cu_password MoreSamples.carol)
  /\ exists saved response,
       (UsersService.create_ (H:=Samples.bcrypt) MoreSamples.carol Samples.db).1
       = Next saved
       /\ UsersService.login_ (H:=Samples.bcrypt) (H0:=Samples.jwt) "carol" "pw"
            (UsersService.create_ (H:=Samples.bcrypt) MoreSamples.carol Samples.db).2
          = (Next response,
             (UsersService.create_ (H:=Samples.bcrypt) MoreSamples.carol Samples.db).2)
       /\ user response !! "id" = Some (JsNumber (User.id saved)).
Proof.
  assert (Hhash : hashable (cu_password MoreSamples.carol)) by done.
  split; [exact sample_bcrypt_sound |]. split; [exact Hhash |].
  exact (proj1 (@credentials_round_trip Samples.bcrypt Samples.jwt Samples.db
                  sample_bcrypt_sound)
           MoreSamples.carol Hhash eq_refl eq_refl eq_refl).
Defined.

(** X12 at the sample world: a movie that is stored is saved again. *)
Lemma saveMovie_keeps_one_row_for_a_tmdb_id_witness :
  movies_consistent (db Samples.world)
  /\ tmdb_ids_unique (db Samples.world)
  /\ tmdb_ids_unique
       (db (TmdbSyncService.saveMovie (H:=Samples.store) MoreSamples.fight_club
              Samples.world).2).
Proof.
  split; [exact sample_movies_consistent |]. split; [exact sample_tmdb_ids_unique |].
  exact (proj1 (@saveMovie_keeps_one_row_for_a_tmdb_id Samples.store
                  MoreSamples.fight_club Samples.world
                  sample_movies_consistent sample_tmdb_ids_unique)).
Defined.

(** X13 at the sample world: the same movie, saved twice. *)
Lemma saveMovie_twice_is_saveMovie_once_witness :
  movies_consistent (db Samples.world)
  /\ db (TmdbSyncService.saveMovie (H:=Samples.store) MoreSamples.fight_club
           (TmdbSyncService.saveMovie (H:=Samples.store) MoreSamples.fight_club
              Samples.world).2).2
     = db (TmdbSyncService.saveMovie (H:=Samples.store) MoreSamples.fight_club
             Samples.world).2.
Proof.
  split; [exact sample_movies_consistent |].
  exact (proj1 (@saveMovie_twice_is_saveMovie_once Samples.store
                  MoreSamples.fight_club Samples.world
                  (TmdbSyncService.saveMovie (H:=Samples.store) MoreSamples.fight_club
                     Samples.world).2
                  (TmdbSyncService.merge (Samples.movie 10 550 "Fight Club")
                     MoreSamples.fight_club)
                  sample_movies_consistent eq_refl)).
Defined.

(** X15 at a service that has the details of 550 at the second request
    and those of 603 at once, and none for 999. *)
Lemma syncMoviesWithDetails_emits_the_growing_list_witness :
  exists emitted w' movies,
    TmdbServiceBatch.syncMoviesWithDetails_ (H:=MoreSamples.details_api)
      [550; 999; 603] None Samples.world = (Next emitted, w')
    /\ details_arrive (H:=MoreSamples.details_api) 0 [550; 999; 603] movies (sent w')
    /\ movies = [MoreSamples.details_of Samples.external;
                 MoreSamples.details_of (Samples.tmdb_movie 603 "The Matrix")]
    /\ emitted = [[MoreSamples.details_of Samples.external];
                  [MoreSamples.details_of Samples.external;
                   MoreSamples.details_of (Samples.tmdb_movie 603 "The Matrix")]]
    /\ sent w' = 7%nat.
Proof.
  destruct (@syncMoviesWithDetails_emits_the_growing_list MoreSamples.details_api
              [550; 999; 603] None Samples.world)
    as (emitted & w' & movies & Hrun & _ & Harrive & _ & _ & Hemitted & Hlast).
  exists emitted, w', movies.
  vm_compute in Hrun. injection Hrun as <- <-.
  split; [reflexivity |]. split; [exact Harrive |].
  destruct (decide (movies = [])) as [_|_]; [discriminate Hlast |].
  injection Hlast as <-. by repeat split.
Defined.

(** X16 at the same service and the store that refuses the TMDB id 603:
    of the four ids, 550 and 680 are synchronised. *)
Lemma batchSyncMovies_goes_through_the_whole_list_witness :
  movies_consistent (db Samples.rated_world)
  /\ exists movies w1,
       batch_synced (H:=MoreSamples.details_api) (H0:=Samples.store)
         Samples.rated_world [550; 999; 603; 680] movies w1
       /\ (TmdbSyncBatch.batchSyncMovies (H:=MoreSamples.details_api) (H0:=Samples.store)
             [550; 999; 603; 680] Samples.rated_world).1 = Next movies
       /\ List.map Movie.id movies = [10; 11]
       /\ List.map Movie.userRatingAverage movies = [Some (78 # 10); None]
       /\ List.filter is_pause (trace w1) = [Timer 250; Timer 250]
       /\ kept Samples.rated_world w1.
Proof.
  assert (Hc : movies_consistent (db Samples.rated_world)).
  { split; simpl; [decide_closed | repeat constructor; lia]. }
  split; [exact Hc |].
  destruct (@batchSyncMovies_goes_through_the_whole_list MoreSamples.details_api
              Samples.store [550; 999; 603; 680] Samples.rated_world)
    as (movies & events & w1 & Hbatch & Hrun & Htrace & Hpauses & _ & _ & _ & Hkept).
  exists movies, w1. split; [exact Hbatch |].
  split; [by rewrite Hrun |].
  simpl in Htrace. rewrite Htrace, Hpauses.
  assert (Hmovies : (TmdbSyncBatch.batchSyncMovies (H:=MoreSamples.details_api)
                       (H0:=Samples.store) [550; 999; 603; 680] Samples.rated_world).1
                    = Next movies) by (by rewrite Hrun).
  vm_compute in Hmovies. injection Hmovies as <-.
  split; [reflexivity |]. split; [reflexivity |]. split; [reflexivity |].
  exact (Hkept Hc).
Defined.

(** X17 at the sample store: [Inception] is created. *)
Lemma create_registers_a_tmdb_id_once_witness :
  movies_consistent Samples.db
  /\ tmdb_ids_unique Samples.db
  /\ exists movie,
       movieRepository
         (MoviesCatalog.create_ (H:=Samples.store) MoreSamples.inception Samples.db).2
       = movieRepository Samples.db ++ [movie]
       /\ Movie.id movie = 12
       /\ Movie.voteAverage movie = 84 # 10
       /\ Movie.popularity movie = 413 # 10
       /\ MoviesCatalog.create_ (H:=Samples.store) MoreSamples.inception
            (MoviesCatalog.create_ (H:=Samples.store) MoreSamples.inception Samples.db).2
          = (Thrown (MoviesCatalog.already_exists 27205),
             (MoviesCatalog.create_ (H:=Samples.store) MoreSamples.inception Samples.db).2).
Proof.
  split; [exact sample_movies_consistent |]. split; [exact sample_tmdb_ids_unique |].
  pose proof (proj1 (@create_registers_a_tmdb_id_once Samples.store MoreSamples.inception
                       Samples.db sample_movies_consistent sample_tmdb_ids_unique)) as T.
  change (movie_by_tmdbId (cm_tmdbId MoreSamples.inception) Samples.db)
    with (@None Movie.t) in T.
  change (refusal (H:=Samples.store) (movieRepository Samples.db)
            (MoviesCatalog.created (movieSeq Samples.db) MoreSamples.inception))
    with (@None exception) in T.
  destruct T as (returned & movie & _ & _ & _ & Hrow & _ & _ & _ & _ & _ & _ & _ & Hrows
                 & _ & _ & _ & _ & Hagain).
  exists movie. split; [exact Hrows |]. subst movie.
  split; [reflexivity |]. split; [reflexivity |]. split; [reflexivity |]. exact Hagain.
Defined.

(** X18 at the catalogue: the movies rated 8 or more. *)
Lemma listings_return_rows_that_satisfy_the_conditions_witness :
  sort_permutes (H:=Samples.engine)
  /\ exists response,
       (MoviesListing.findAll_ (H:=Samples.engine) (H0:=Samples.pagination)
          MoreSamples.rated_eight MoreSamples.catalogue).1 = Next response
       /\ data response = [MoreSamples.alien]
       /\ Forall (fun m => m ∈ movieRepository MoreSamples.catalogue
                           /\ satisfies (SqlEngine:=Samples.engine) AdultIsFalse m = true
                           /\ satisfies (SqlEngine:=Samples.engine)
                                (VoteAverageAtLeast (8 # 1)) m = true)
            (data response)
       /\ Z.of_nat (length (data response)) <= meta_totalItems response
          <= Z.of_nat (length (movieRepository MoreSamples.catalogue)).
Proof.
  split; [exact sample_sort_permutes |].
  eexists. split; [reflexivity |]. split; [reflexivity |].
  destruct (proj1 (@listings_return_rows_that_satisfy_the_conditions
                     Samples.engine Samples.pagination MoreSamples.catalogue
                     sample_sort_permutes)
              MoreSamples.rated_eight _ eq_refl) as (_ & Hrows & Hlen).
  split; [| exact Hlen].
  eapply Forall_impl; [exact Hrows |].
  intros m (Hin & _ & Hadult & Hmin & _).
  split; [exact Hin |]. split; [by apply Hadult | by apply Hmin].
Defined.


(** ** Further runs on the sample data *)

Example a_tmdb_id_beyond_the_integer_column :
  MoviesCatalog.create_ (H:=Samples.store) MoreSamples.beyond_integer Samples.db
  = (Thrown QueryFailedError, Samples.db).
Proof. reflexivity. Qed.

Example a_popularity_of_one_hundred :
  MoviesCatalog.create_ (H:=Samples.store) MoreSamples.popular_beyond_column Samples.db
  = (Thrown QueryFailedError, Samples.db).
Proof. reflexivity. Qed.

Example adult_movies_on_request :
  exists response,
    MoviesListing.findAll_ (H:=Samples.engine) (H0:=Samples.pagination)
      MoreSamples.rated_eight_with_adult MoreSamples.catalogue
    = (Next response, MoreSamples.catalogue)
    /\ data response = [MoreSamples.after_dark; MoreSamples.alien]
    /\ meta_totalItems response = 2.
Proof. eexists. split; [reflexivity |]. by vm_compute. Qed.

Example a_search_without_regard_to_case :
  exists response,
    MoviesListing.search_ (H:=Samples.engine) (H0:=Samples.pagination)
      "ALI" 1 10 MoreSamples.catalogue
    = (Next response, MoreSamples.catalogue)
    /\ data response = [MoreSamples.alien].
Proof. eexists. split; [reflexivity |]. by vm_compute. Qed.

Example the_statistics_of_a_rated_movie_are_not_refreshed :
  MoviesService.updateRatingStatistics_ 10 Samples.db
  = (Thrown QueryFailedError, Samples.db).
Proof. reflexivity. Qed.
